(** * restG4: the physics-list assembly of [PhysicsList.cxx]

    A shallow embedding of [PhysicsList::PhysicsList],
    [PhysicsList::InitializePhysicsLists], [PhysicsList::ConstructParticle],
    [PhysicsList::ConstructProcess] and [PhysicsList::SetCuts].

    The C++ code talks to two collaborators whose sources are not part of
    restG4: the REST metadata object [TRestGeant4PhysicsLists] and the
    Geant4 engine.  The first is embedded as the record of its accessors,
    the second as the sequence of calls made into it (a trace of [Event]s)
    together with the few queries the code makes ([Externals]).  Process
    termination ([exit(1)]) is an outcome of a run, next to a normal
    return. *)

From Stdlib Require Import String List ZArith Lia Bool PrimFloat.
From Stdlib Require Import Sorted Permutation DecimalString.
Import ListNotations.

Open Scope string_scope.
Open Scope Z_scope.
Open Scope list_scope.

(* ------------------------------------------------------------------ *)
(** ** Units (CLHEP/Units/SystemOfUnits.h)                              *)
(* ------------------------------------------------------------------ *)

(** [G4double] is an IEEE binary64 number; the kernel's primitive floats
    are exactly that.  The CLHEP base units are [millimeter = 1.],
    [nanosecond = 1.] and [megaelectronvolt = 1.]. *)
Module CLHEP.

Definition mm : float := 1%float.

Definition nanosecond : float := 1%float.

Definition second : float := (1e9 * nanosecond)%float.

Definition MeV : float := 1%float.

(** [1.e-3 * megaelectronvolt]; the literal is the binary64 value that
    1.e-3 denotes. *)
Definition keV : float := (0x1.0624dd2f1a9fcp-10 * MeV)%float.

End CLHEP.

(* ------------------------------------------------------------------ *)
(** ** The REST metadata object                                        *)
(* ------------------------------------------------------------------ *)

(** [TRestStringOutput::REST_Verbose_Level] of the REST library, in
    increasing order.  The code compares the configured level with
    [REST_Essential] and with [REST_Debug]. *)
Inductive REST_Verbose_Level : Type :=
| REST_Silent
| REST_Essential
| REST_Info
| REST_Debug
| REST_Extreme.

Definition level_rank (l : REST_Verbose_Level) : Z :=
  match l with
  | REST_Silent => 0
  | REST_Essential => 1
  | REST_Info => 2
  | REST_Debug => 3
  | REST_Extreme => 4
  end.

(** [a >= b] on verbosity levels. *)
Definition level_geb (a b : REST_Verbose_Level) : bool :=
  level_rank b <=? level_rank a.

(** [TRestGeant4PhysicsLists], seen through the accessors that
    [PhysicsList.cxx] calls.  [FindPhysicsList] returns an [Int_t]: the
    code tests it with [>= 0] (and once by its truth value). *)
Record TRestGeant4PhysicsLists : Type := {
  FindPhysicsList : string -> Z;
  GetPhysicsListOptionValue : string -> string -> string -> string;
  GetVerboseLevel : REST_Verbose_Level;
  GetIonStepList : list string;
  GetCutForGamma : float;
  GetCutForElectron : float;
  GetCutForPositron : float;
  GetCutForMuon : float;
  GetCutForNeutron : float;
  GetMinimumEnergyProductionCuts : float;
  GetMaximumEnergyProductionCuts : float
}.

(** The value [GetPhysicsListOptionValue] takes for its third parameter
    when the caller passes two arguments (the default declared in the
    REST header).  The code only compares the result with "true" and
    with "false". *)
Definition NotDefined : string := "NotDefined".

(* ------------------------------------------------------------------ *)
(** ** The engine, as seen from the physics list                        *)
(* ------------------------------------------------------------------ *)

(** The physics constructors that [InitializePhysicsLists] can
    instantiate. *)
Inductive G4VPhysicsConstructor : Type :=
| G4DecayPhysics
| G4RadioactiveDecayPhysics
| G4EmLivermorePhysics
| G4EmPenelopePhysics
| G4EmStandardPhysics_option3
| G4EmStandardPhysics_option4
| G4HadronPhysicsQGSP_BIC_HP
| G4IonBinaryCascadePhysics
| G4HadronElasticPhysicsHP
| G4NeutronTrackingCut
| G4EmExtraPhysics.

(** The class name, which is also the name looked up in the
    configuration. *)
Definition className (c : G4VPhysicsConstructor) : string :=
  match c with
  | G4DecayPhysics => "G4DecayPhysics"
  | G4RadioactiveDecayPhysics => "G4RadioactiveDecayPhysics"
  | G4EmLivermorePhysics => "G4EmLivermorePhysics"
  | G4EmPenelopePhysics => "G4EmPenelopePhysics"
  | G4EmStandardPhysics_option3 => "G4EmStandardPhysics_option3"
  | G4EmStandardPhysics_option4 => "G4EmStandardPhysics_option4"
  | G4HadronPhysicsQGSP_BIC_HP => "G4HadronPhysicsQGSP_BIC_HP"
  | G4IonBinaryCascadePhysics => "G4IonBinaryCascadePhysics"
  | G4HadronElasticPhysicsHP => "G4HadronElasticPhysicsHP"
  | G4NeutronTrackingCut => "G4NeutronTrackingCut"
  | G4EmExtraPhysics => "G4EmExtraPhysics"
  end.

(** A particle definition a step limiter is attached to: one met by the
    particle iterator (known by its name), or the ground-state ion
    [G4IonTable::GetIon(Z, A, 0)]. *)
Inductive Particle : Type :=
| ByName (particleName : string)
| GroundStateIon (Z A : Z).

(** Every call into the engine and every line of output, in the order
    the code performs them. *)
Inductive Event : Type :=
| NewUnitDefinition (name symbol category : string) (value : float)
| LossTableManager_Instance
| SetEnergyRange (lowedge highedge : float)
| New (c : G4VPhysicsConstructor)
| G4cout (msg : string)
| cout (msg : string)
| cerr (msg : string)
| RESTWarning (msg : string)
| GeantinoDefinition
| ConstructParticleOf (c : G4VPhysicsConstructor)
| ConstructProcessOf (c : G4VPhysicsConstructor)
| AddTransportation
| AddModels
| ApplyCommand (command : string)
| NewRadioactiveDecay
| SetThresholdForVeryLongDecayTime (threshold : float)
| SetICM (b : bool)
| SetARM (b : bool)
| AddDiscreteProcess (p : Particle) (limiter : string)
| SetCutsWithDefault (defaultCut : float)
| SetCutValue (cut : float) (particleName : string).

(** What the code asks of its surroundings without changing them: the
    names met by [theParticleIterator], in iteration order;
    [G4IonTable::GetIonName(Z, A)] (level 0); and REST's
    [StringToBool]. *)
Record Externals : Type := {
  particleTable : list string;
  GetIonName : Z -> Z -> string;
  StringToBool : string -> bool
}.

(* ------------------------------------------------------------------ *)
(** ** Runs: a trace of events, ended by a return or by [exit]           *)
(* ------------------------------------------------------------------ *)

Inductive Outcome (A : Type) : Type :=
| Returned (a : A)
| Exited (status : Z).

Arguments Returned {A} a.
Arguments Exited {A} status.

Definition Run (A : Type) : Type := (list Event * Outcome A)%type.

Definition ret {A : Type} (a : A) : Run A := ([], Returned a).

Definition bind {A B : Type} (m : Run A) (k : A -> Run B) : Run B :=
  match m with
  | (t, Returned a) => let (t', o) := k a in (t ++ t', o)
  | (t, Exited status) => (t, Exited status)
  end.

Definition emit (e : Event) : Run unit := ([e], Returned tt).

Definition exit {A : Type} (status : Z) : Run A := ([], Exited status).

Declare Scope run_scope.
Delimit Scope run_scope with run.
Notation "x <- m ;; k" := (bind m (fun x => k))
  (at level 61, m at next level, right associativity) : run_scope.
Notation "m ;; k" := (bind m (fun _ => k))
  (at level 61, right associativity) : run_scope.
Open Scope run_scope.

(** [for (auto& a : l) body(a);] *)
Fixpoint for_each {A : Type} (l : list A) (body : A -> Run unit) : Run unit :=
  match l with
  | [] => ret tt
  | a :: l' => body a ;; for_each l' body
  end.

(** The values taken by [i] in [for (i = lo; i <= hi; i++)]. *)
Definition range (lo hi : Z) : list Z :=
  map (fun k => lo + Z.of_nat k) (seq 0 (Z.to_nat (hi + 1 - lo))).

Definition for_range (lo hi : Z) (body : Z -> Run unit) : Run unit :=
  for_each (range lo hi) body.

(** The values taken by [n] in [for (unsigned n = 0; n < size; n++)]. *)
Definition for_index (size : nat) (body : nat -> Run unit) : Run unit :=
  for_each (seq 0 size) body.

(** [if (c) body;] *)
Definition when (c : bool) (body : Run unit) : Run unit :=
  if c then body else ret tt.

(** [os << n] for an integer. *)
Definition decimal (n : Z) : string := NilZero.string_of_int (Z.to_int n).

(* ------------------------------------------------------------------ *)
(** ** The [PhysicsList] object (include/PhysicsList.h)                 *)
(* ------------------------------------------------------------------ *)

(** The data members; a null pointer is [None].  [defaultCutValue] is
    the member inherited from [G4VUserPhysicsList]. *)
Record PhysicsList : Type := {
  fEmPhysicsList : option G4VPhysicsConstructor;
  fEmPhysicsListName : string;
  fDecPhysicsList : option G4VPhysicsConstructor;
  fRadDecPhysicsList : option G4VPhysicsConstructor;
  fHadronPhys : list G4VPhysicsConstructor;
  fRestPhysicsLists : TRestGeant4PhysicsLists;
  defaultCutValue : float
}.

Definition set_fDecPhysicsList (this : PhysicsList) (p : G4VPhysicsConstructor)
  : PhysicsList :=
  {| fEmPhysicsList := fEmPhysicsList this;
     fEmPhysicsListName := fEmPhysicsListName this;
     fDecPhysicsList := Some p;
     fRadDecPhysicsList := fRadDecPhysicsList this;
     fHadronPhys := fHadronPhys this;
     fRestPhysicsLists := fRestPhysicsLists this;
     defaultCutValue := defaultCutValue this |}.

Definition set_fRadDecPhysicsList (this : PhysicsList) (p : G4VPhysicsConstructor)
  : PhysicsList :=
  {| fEmPhysicsList := fEmPhysicsList this;
     fEmPhysicsListName := fEmPhysicsListName this;
     fDecPhysicsList := fDecPhysicsList this;
     fRadDecPhysicsList := Some p;
     fHadronPhys := fHadronPhys this;
     fRestPhysicsLists := fRestPhysicsLists this;
     defaultCutValue := defaultCutValue this |}.

(** [fEmPhysicsList = new ...; fEmPhysicsListName = emPhysicsListName;] *)
Definition set_fEmPhysicsList (this : PhysicsList) (p : G4VPhysicsConstructor)
  (emPhysicsListName : string) : PhysicsList :=
  {| fEmPhysicsList := Some p;
     fEmPhysicsListName := emPhysicsListName;
     fDecPhysicsList := fDecPhysicsList this;
     fRadDecPhysicsList := fRadDecPhysicsList this;
     fHadronPhys := fHadronPhys this;
     fRestPhysicsLists := fRestPhysicsLists this;
     defaultCutValue := defaultCutValue this |}.

(** [fHadronPhys.push_back(p)] *)
Definition push_back_fHadronPhys (this : PhysicsList) (p : G4VPhysicsConstructor)
  : PhysicsList :=
  {| fEmPhysicsList := fEmPhysicsList this;
     fEmPhysicsListName := fEmPhysicsListName this;
     fDecPhysicsList := fDecPhysicsList this;
     fRadDecPhysicsList := fRadDecPhysicsList this;
     fHadronPhys := fHadronPhys this ++ [p];
     fRestPhysicsLists := fRestPhysicsLists this;
     defaultCutValue := defaultCutValue this |}.

(** [FindPhysicsList(name) >= 0] *)
Definition enabled (r : TRestGeant4PhysicsLists) (name : string) : bool :=
  0 <=? FindPhysicsList r name.

(* ------------------------------------------------------------------ *)
(** ** [PhysicsList::InitializePhysicsLists]                            *)
(* ------------------------------------------------------------------ *)

(** One of the four electromagnetic blocks:
<<
    if (fRestPhysicsLists->FindPhysicsList(emPhysicsListName) >= 0) {
        if (fEmPhysicsList == nullptr) {
            fEmPhysicsList = new C();
            fEmPhysicsListName = emPhysicsListName;
        }
        emCounter++;
    }
>>
    The state threaded through is the object and the local [emCounter];
    [r] is [fRestPhysicsLists], which no block assigns. *)
Definition em_block (r : TRestGeant4PhysicsLists) (emPhysicsListName : string)
  (C : G4VPhysicsConstructor) (st : PhysicsList * Z) : Run (PhysicsList * Z) :=
  let (this, emCounter) := st in
  if enabled r emPhysicsListName then
    this' <- match fEmPhysicsList this with
             | None => emit (New C) ;; ret (set_fEmPhysicsList this C emPhysicsListName)
             | Some _ => ret this
             end ;;
    ret (this', emCounter + 1)
  else ret (this, emCounter).

(** One of the five hadronic blocks:
<<
    if (fRestPhysicsLists->FindPhysicsList("C") >= 0) {
        fHadronPhys.push_back(new C());
    }
>> *)
Definition hadron_block (r : TRestGeant4PhysicsLists) (C : G4VPhysicsConstructor)
  (this : PhysicsList) : Run PhysicsList :=
  if enabled r (className C) then
    emit (New C) ;; ret (push_back_fHadronPhys this C)
  else ret this.

Definition InitializePhysicsLists (this : PhysicsList) : Run PhysicsList :=
  let r := fRestPhysicsLists this in
  (* Decay physics and all particles *)
  this <- (if enabled r "G4DecayPhysics" then
             emit (New G4DecayPhysics) ;; ret (set_fDecPhysicsList this G4DecayPhysics)
           else if level_geb (GetVerboseLevel r) REST_Debug then
             emit (G4cout "restG4. PhysicsList. G4DecayPhysics is not enabled!!") ;;
             ret this
           else ret this) ;;
  (* RadioactiveDecay physicsList *)
  this <- (if enabled r "G4RadioactiveDecayPhysics" then
             emit (New G4RadioactiveDecayPhysics) ;;
             ret (set_fRadDecPhysicsList this G4RadioactiveDecayPhysics)
           else if level_geb (GetVerboseLevel r) REST_Debug then
             emit (G4cout "restG4. PhysicsList. G4RadioactiveDecayPhysics is not enabled!!") ;;
             ret this
           else ret this) ;;
  (* Electromagnetic physicsList *)
  let emCounter := 0 in
  st <- em_block r "G4EmLivermorePhysics" G4EmLivermorePhysics (this, emCounter) ;;
  st <- em_block r "G4EmPenelopePhysics" G4EmPenelopePhysics st ;;
  st <- em_block r "G4EmStandardPhysics_option3" G4EmStandardPhysics_option3 st ;;
  st <- em_block r "G4EmStandardPhysics_option4" G4EmStandardPhysics_option4 st ;;
  let (this, emCounter) := st in
  when (level_geb (GetVerboseLevel r) REST_Essential && (emCounter =? 0))
       (emit (RESTWarning "PhysicsList: No EM physics list has been enabled")) ;;
  when (1 <? emCounter)
       (emit (cerr "PhysicsList: More than 1 EM PhysicsList enabled.") ;; exit 1) ;;
  (* Hadronic PhysicsList *)
  this <- hadron_block r G4HadronPhysicsQGSP_BIC_HP this ;;
  this <- hadron_block r G4IonBinaryCascadePhysics this ;;
  this <- hadron_block r G4HadronElasticPhysicsHP this ;;
  this <- hadron_block r G4NeutronTrackingCut this ;;
  this <- hadron_block r G4EmExtraPhysics this ;;
  emit (G4cout (String.append "Number of hadronic physics lists added "
                  (decimal (Z.of_nat (length (fHadronPhys this)))))) ;;
  ret this.

(* ------------------------------------------------------------------ *)
(** ** [PhysicsList::PhysicsList]                                       *)
(* ------------------------------------------------------------------ *)

(** The object as the in-class member initialisers and the first two
    assignments of the constructor body leave it:
    [defaultCutValue = 0.1 * mm; fRestPhysicsLists = physicsLists;]. *)
Definition initial_members (physicsLists : TRestGeant4PhysicsLists) : PhysicsList :=
  {| fEmPhysicsList := None;
     fEmPhysicsListName := EmptyString;
     fDecPhysicsList := None;
     fRadDecPhysicsList := None;
     fHadronPhys := [];
     fRestPhysicsLists := physicsLists;
     (* 0.1, written as the binary64 value the compiler rounds it to *)
     defaultCutValue := (0x1.999999999999ap-4 * CLHEP.mm)%float |}.

Definition PhysicsList_ctor (physicsLists : TRestGeant4PhysicsLists)
  : Run PhysicsList :=
  (* add new units for radioActive decays *)
  let minute := (60 * CLHEP.second)%float in
  let hour := (60 * minute)%float in
  let day := (24 * hour)%float in
  let year := (365 * day)%float in
  emit (NewUnitDefinition "minute" "min" "Time" minute) ;;
  emit (NewUnitDefinition "hour" "h" "Time" hour) ;;
  emit (NewUnitDefinition "day" "d" "Time" day) ;;
  emit (NewUnitDefinition "year" "y" "Time" year) ;;
  let this := initial_members physicsLists in
  emit LossTableManager_Instance ;;
  (* fix lower limit for cut *)
  emit (SetEnergyRange
          (GetMinimumEnergyProductionCuts (fRestPhysicsLists this) * CLHEP.keV)%float
          (GetMaximumEnergyProductionCuts (fRestPhysicsLists this) * CLHEP.keV)%float) ;;
  InitializePhysicsLists this.

(* ------------------------------------------------------------------ *)
(** ** [PhysicsList::ConstructParticle]                                 *)
(* ------------------------------------------------------------------ *)

(** [if (p) p->ConstructParticle();] *)
Definition construct_particle_if (p : option G4VPhysicsConstructor) : Run unit :=
  match p with
  | Some c => emit (ConstructParticleOf c)
  | None => ret tt
  end.

Definition ConstructParticle (this : PhysicsList) : Run unit :=
  (* pseudo-particles *)
  emit GeantinoDefinition ;;
  (* particles defined in PhysicsLists *)
  construct_particle_if (fDecPhysicsList this) ;;
  construct_particle_if (fEmPhysicsList this) ;;
  construct_particle_if (fRadDecPhysicsList this) ;;
  for_each (fHadronPhys this) (fun hadronicPhysicsList =>
    emit (ConstructParticleOf hadronicPhysicsList)).

(* ------------------------------------------------------------------ *)
(** ** [PhysicsList::ConstructProcess]                                  *)
(* ------------------------------------------------------------------ *)

(** [(b ? "true" : "false")] *)
Definition true_false (b : bool) : string := if b then "true" else "false".

(** One of the three option blocks of the electromagnetic list:
<<
    bool b = StringToBool(
        fRestPhysicsLists->GetPhysicsListOptionValue(fEmPhysicsListName.c_str(), key, dflt).Data());
    string s = (b ? "true" : "false");
    G4cout << "Setting EM option '/process/em/key' to '" << s << "' for physics list '"
           << fEmPhysicsListName << "'" << endl;
    UI->ApplyCommand(string("/process/em/key ") + s);
>> *)
Definition em_option (x : Externals) (this : PhysicsList) (key dflt : string)
  : Run unit :=
  let boolEmOption :=
    StringToBool x
      (GetPhysicsListOptionValue (fRestPhysicsLists this) (fEmPhysicsListName this) key dflt) in
  let stringEmOption := true_false boolEmOption in
  emit (G4cout (String.concat EmptyString
          ["Setting EM option '/process/em/"; key; "' to '"; stringEmOption;
           "' for physics list '"; fEmPhysicsListName this; "'"])) ;;
  emit (ApplyCommand (String.concat EmptyString ["/process/em/"; key; " "; stringEmOption])).

(** [if (p) p->ConstructProcess();] *)
Definition construct_process_if (p : option G4VPhysicsConstructor) : Run unit :=
  match p with
  | Some c => emit (ConstructProcessOf c)
  | None => ret tt
  end.

(** One of the two flag blocks of the radioactive decay:
<<
    if (fRestPhysicsLists->GetPhysicsListOptionValue("G4RadioactiveDecay", key) == "true") {
        radioactiveDecay->Set(true);
    } else if (fRestPhysicsLists->GetPhysicsListOptionValue("G4RadioactiveDecay", key) == "false") {
        radioactiveDecay->Set(false);
    } else if (fRestPhysicsLists->GetVerboseLevel() >= REST_Essential) {
        RESTWarning << "PhysicsList 'G4RadioactiveDecay' option 'key' not defined" << RESTendl;
    }
>> *)
Definition decay_flag (r : TRestGeant4PhysicsLists) (key : string)
  (Set_ : bool -> Event) : Run unit :=
  if (GetPhysicsListOptionValue r "G4RadioactiveDecay" key NotDefined =? "true")%string then
    emit (Set_ true)
  else if (GetPhysicsListOptionValue r "G4RadioactiveDecay" key NotDefined =? "false")%string then
    emit (Set_ false)
  else if level_geb (GetVerboseLevel r) REST_Essential then
    emit (RESTWarning (String.concat EmptyString
            ["PhysicsList 'G4RadioactiveDecay' option '"; key; "' not defined"]))
  else ret tt.

(** The body of the loop over [theParticleIterator], at one particle. *)
Definition step_limiter_for (particleName : string) : Run unit :=
  (if (particleName =? "e-")%string then
     emit (AddDiscreteProcess (ByName particleName) "e-Step")
   else if (particleName =? "e+")%string then
     emit (AddDiscreteProcess (ByName particleName) "e+Step")
   else ret tt) ;;
  (if (particleName =? "mu-")%string then
     emit (AddDiscreteProcess (ByName particleName) "mu-Step")
   else if (particleName =? "mu+")%string then
     emit (AddDiscreteProcess (ByName particleName) "mu+Step")
   else ret tt).

(** The body of the innermost ion loop, at [(Z, A, n)].  The name
    compared, [GetIonName(Z, A)], and the name printed,
    [GetIonName(Z, A, 0)], are the same: the level defaults to 0. *)
Definition ion_step (x : Externals) (r : TRestGeant4PhysicsLists) (Z A : Z) (n : nat)
  : Run unit :=
  when (nth n (GetIonStepList r) EmptyString =? GetIonName x Z A)%string
    (let particle := GroundStateIon Z A in
     let particle_name := GetIonName x Z A in
     emit (cout (String.concat EmptyString
             ["Found ion: "; particle_name; " Z "; decimal Z; " A "; decimal A])) ;;
     emit (AddDiscreteProcess particle "ionStep")).

(** [for (int Z = 1; Z <= 40; Z++) for (int A = 2 * Z; A <= 3 * Z; A++)
     for (unsigned int n = 0; n < GetIonStepList().size(); n++) ...] *)
Definition ion_sweep (x : Externals) (r : TRestGeant4PhysicsLists) : Run unit :=
  for_range 1 40 (fun Z =>
    for_range (2 * Z) (3 * Z) (fun A =>
      for_index (length (GetIonStepList r)) (fun n =>
        ion_step x r Z A n))).

Definition ConstructProcess (x : Externals) (this : PhysicsList) : Run unit :=
  let r := fRestPhysicsLists this in
  emit AddTransportation ;;
  (* Electromagnetic physics list *)
  match fEmPhysicsList this with
  | Some em =>
      emit (ConstructProcessOf em) ;;
      emit AddModels ;;
      emit (ApplyCommand "/process/em/fluo true") ;;
      emit (ApplyCommand "/process/em/auger true") ;;
      emit (ApplyCommand "/process/em/pixe true") ;;
      em_option x this "pixe" "false" ;;
      em_option x this "fluo" "true" ;;
      em_option x this "auger" "true"
  | None => ret tt
  end ;;
  (* Decay physics list *)
  construct_process_if (fDecPhysicsList this) ;;
  (* Radioactive decay *)
  construct_process_if (fRadDecPhysicsList this) ;;
  (* Hadronic physics lists *)
  for_each (fHadronPhys this) (fun hadronicPhysicsList =>
    emit (ConstructProcessOf hadronicPhysicsList)) ;;
  (* an int used as a condition is true when it is not 0 *)
  when (negb (FindPhysicsList r "G4RadioactiveDecay" =? 0))
    (emit NewRadioactiveDecay ;;
     let decayTimeThreshold := CLHEP.nanosecond in
     emit (SetThresholdForVeryLongDecayTime decayTimeThreshold) ;;
     (* Setting Internal Conversion (ICM) option. *)
     decay_flag r "ICM" SetICM ;;
     (* Enabling electron re-arrangement (ARM) option. *)
     decay_flag r "ARM" SetARM) ;;
  (* To implement UserLimits to StepSize inside the gas *)
  for_each (particleTable x) step_limiter_for ;;
  ion_sweep x r.

(* ------------------------------------------------------------------ *)
(** ** [PhysicsList::SetCuts]                                           *)
(* ------------------------------------------------------------------ *)

Definition SetCuts (this : PhysicsList) : Run unit :=
  let r := fRestPhysicsLists this in
  emit (SetCutsWithDefault (defaultCutValue this)) ;;
  emit (SetCutValue (GetCutForGamma r * CLHEP.mm)%float "gamma") ;;
  emit (SetCutValue (GetCutForElectron r * CLHEP.mm)%float "e-") ;;
  emit (SetCutValue (GetCutForPositron r * CLHEP.mm)%float "e+") ;;
  emit (SetCutValue (GetCutForMuon r * CLHEP.mm)%float "mu+") ;;
  emit (SetCutValue (GetCutForMuon r * CLHEP.mm)%float "mu-") ;;
  emit (SetCutValue (GetCutForNeutron r * CLHEP.mm)%float "neutron").

(* ------------------------------------------------------------------ *)
(** ** The run (Application.cxx)                                        *)
(* ------------------------------------------------------------------ *)

(** [runManager->SetUserInitialization(new PhysicsList(...));
     runManager->Initialize();] : the object is constructed by
    restG4; the run manager then calls the three overridden methods,
    particles first, then processes, then cuts. *)
Definition assembly (x : Externals) (physicsLists : TRestGeant4PhysicsLists)
  : Run unit :=
  this <- PhysicsList_ctor physicsLists ;;
  ConstructParticle this ;;
  ConstructProcess x this ;;
  SetCuts this.

(* ------------------------------------------------------------------ *)
(** ** Reading a trace                                                  *)
(* ------------------------------------------------------------------ *)

(** The step limiters attached, in order: the plan the engine is left
    with. *)
Fixpoint limiters (t : list Event) : list (Particle * string) :=
  match t with
  | [] => []
  | AddDiscreteProcess p limiter :: t' => (p, limiter) :: limiters t'
  | _ :: t' => limiters t'
  end.

(** The lines written to the error stream. *)
Fixpoint stderr_of (t : list Event) : list string :=
  match t with
  | [] => []
  | cerr msg :: t' => msg :: stderr_of t'
  | _ :: t' => stderr_of t'
  end.

(** Events of assembly execution: whatever [ConstructParticle],
    [ConstructProcess] or [SetCuts] perform that the constructor never
    does. *)
Definition is_execution (e : Event) : bool :=
  match e with
  | GeantinoDefinition | ConstructParticleOf _ | ConstructProcessOf _
  | AddTransportation | AddModels | ApplyCommand _ | NewRadioactiveDecay
  | SetThresholdForVeryLongDecayTime _ | SetICM _ | SetARM _
  | AddDiscreteProcess _ _ | SetCutsWithDefault _ | SetCutValue _ _ => true
  | _ => false
  end.

(** Calls into the engine, as opposed to output. *)
Definition is_engine_call (e : Event) : bool :=
  match e with
  | G4cout _ | cout _ | cerr _ | RESTWarning _ => false
  | _ => true
  end.

(** [needle] occurs in [s]. *)
Fixpoint occurs_in (needle s : string) : bool :=
  String.prefix needle s ||
  match s with
  | EmptyString => false
  | String _ s' => occurs_in needle s'
  end.

(** The value of the last ["/process/em/<key> <value>"] command of a
    trace, which is the one the engine is left with. *)
Fixpoint em_setting (key : string) (t : list Event) : option string :=
  match t with
  | [] => None
  | e :: t' =>
      match em_setting key t' with
      | Some v => Some v
      | None =>
          match e with
          | ApplyCommand command =>
              let p := String.concat EmptyString ["/process/em/"; key; " "] in
              if String.prefix p command
              then Some (substring (String.length p)
                           (String.length command - String.length p) command)
              else None
          | _ => None
          end
      end
  end.





(** The names [InitializePhysicsLists] looks up for the electromagnetic
    slot, in the order of its four blocks, and for the hadronic
    sequence, in the order of its five blocks. *)
Definition em_lists : list G4VPhysicsConstructor :=
  [G4EmLivermorePhysics; G4EmPenelopePhysics;
   G4EmStandardPhysics_option3; G4EmStandardPhysics_option4].

Definition hadron_lists : list G4VPhysicsConstructor :=
  [G4HadronPhysicsQGSP_BIC_HP; G4IonBinaryCascadePhysics;
   G4HadronElasticPhysicsHP; G4NeutronTrackingCut; G4EmExtraPhysics].

(** The electromagnetic lists a configuration enables. *)
Definition em_enabled (r : TRestGeant4PhysicsLists) : list G4VPhysicsConstructor :=
  filter (fun c => enabled r (className c)) em_lists.

(** [(Z, A)] lies in the window of the ion loops. *)
Definition in_sweep (Z A : Z) : Prop :=
  1 <= Z <= 40 /\ 2 * Z <= A <= 3 * Z.

(** Increasing [Z], then increasing [A]. *)
Definition ion_le (p q : Z * Z) : Prop :=
  fst p < fst q \/ (fst p = fst q /\ snd p <= snd q).

Definition ion_of (e : Particle * string) : option (Z * Z) :=
  match e with
  | (GroundStateIon Z A, _) => Some (Z, A)
  | (ByName _, _) => None
  end.

(** The limiters given to the particles met by the particle iterator. *)
Definition fixed_name_rules (table : list string) : list (Particle * string) :=
  limiters (fst (for_each table step_limiter_for)).

(** The limiters given to one particle of the table. *)
Definition fixed_rule (particleName : string) : list (Particle * string) :=
  limiters (fst (step_limiter_for particleName)).

(** The ions of a plan, in order. *)
Definition ions_of (plan : list (Particle * string)) : list (Z * Z) :=
  flat_map (fun e => match ion_of e with Some p => [p] | None => [] end) plan.

Definition plan_eq_dec (a b : Particle * string) : {a = b} + {a <> b}.
Proof.
  decide equality.
  - apply string_dec.
  - decide equality; try apply string_dec; apply Z.eq_dec.
Defined.

(* ------------------------------------------------------------------ *)
(** ** A concrete configuration and concrete surroundings               *)
(* ------------------------------------------------------------------ *)

(** Modelled from the spec: the parsed configuration ([PhysicsConfig] of
    the spec's section 6) behind [TRestGeant4PhysicsLists], whose source
    belongs to the REST library and is not under src/.  Modules are
    kept in declaration order, each with its options. *)
Record PhysicsConfig : Type := {
  modules : list (string * list (string * string));
  verboseLevel : REST_Verbose_Level;
  ionStepNames : list string;
  cutGamma : float;
  cutElectron : float;
  cutPositron : float;
  cutMuon : float;
  cutNeutron : float;
  cutEnergyWindow : float * float
}.

(** Modelled from the spec: position of the first module called [name],
    counted from [n], or -1 ("presence/absence of a name in the spec is
    the only selection mechanism"). *)
Fixpoint find_from (name : string) (l : list (string * list (string * string)))
  (n : Z) : Z :=
  match l with
  | [] => -1
  | (m, _) :: l' => if (m =? name)%string then n else find_from name l' (n + 1)
  end.

(** Modelled from the spec: the value of option [key] of module
    [name], or [dflt] when the module or the option is absent. *)
Definition option_value (l : list (string * list (string * string)))
  (name key dflt : string) : string :=
  match find (fun m => (fst m =? name)%string) l with
  | Some (_, opts) =>
      match find (fun o => (fst o =? key)%string) opts with
      | Some (_, v) => v
      | None => dflt
      end
  | None => dflt
  end.

Definition metadata_of (c : PhysicsConfig) : TRestGeant4PhysicsLists :=
  {| FindPhysicsList := fun name => find_from name (modules c) 0;
     GetPhysicsListOptionValue := option_value (modules c);
     GetVerboseLevel := verboseLevel c;
     GetIonStepList := ionStepNames c;
     GetCutForGamma := cutGamma c;
     GetCutForElectron := cutElectron c;
     GetCutForPositron := cutPositron c;
     GetCutForMuon := cutMuon c;
     GetCutForNeutron := cutNeutron c;
     GetMinimumEnergyProductionCuts := fst (cutEnergyWindow c);
     GetMaximumEnergyProductionCuts := snd (cutEnergyWindow c) |}.

(** A configuration with the given modules, verbosity and ion names;
    cuts and energy window as in the example
    [examples/v2.1.7/pandaXIII/biasing/externalU238.rml] (in mm and keV). *)
Definition config (ms : list (string * list (string * string)))
  (v : REST_Verbose_Level) (ions : list string) : PhysicsConfig :=
  {| modules := ms;
     verboseLevel := v;
     ionStepNames := ions;
     cutGamma := 0x1.0624dd2f1a9fcp-10%float;
     cutElectron := 0x1.0624dd2f1a9fcp-10%float;
     cutPositron := 1%float;
     cutMuon := 1%float;
     cutNeutron := 1%float;
     cutEnergyWindow := (1%float, 1e6%float) |}.

(** The element symbols for [Z] from 1 to 40. *)
Definition elementName : list string :=
  ["H"; "He"; "Li"; "Be"; "B"; "C"; "N"; "O"; "F"; "Ne";
   "Na"; "Mg"; "Al"; "Si"; "P"; "S"; "Cl"; "Ar"; "K"; "Ca";
   "Sc"; "Ti"; "V"; "Cr"; "Mn"; "Fe"; "Co"; "Ni"; "Cu"; "Zn";
   "Ga"; "Ge"; "As"; "Se"; "Br"; "Kr"; "Rb"; "Sr"; "Y"; "Zr"].

(** Modelled from the spec: surroundings to run the code on examples
    (the engine and REST's string helper are not under src/).  Ion names
    are canonical names such as "C14" (section 6): the element symbol
    followed by the mass number; a string is true when it reads [true]
    or [on]; the particle table holds the given names. *)
Definition surroundings (table : list string) : Externals :=
  {| particleTable := table;
     GetIonName := fun Z A =>
       String.append (nth (Z.to_nat (Z - 1)) elementName "?") (decimal A);
     StringToBool := fun s =>
       ((s =? "true") || (s =? "TRUE") || (s =? "on") || (s =? "ON"))%string |}.

(* ------------------------------------------------------------------ *)
(** ** The pieces of a trace of [ConstructProcess]                      *)
(* ------------------------------------------------------------------ *)

(** The limiters the innermost ion loop attaches at [(Z, A)]: one for
    each element of the list that equals the ion's name. *)
Definition ion_rules (x : Externals) (l : list string) (Z A : Z)
  : list (Particle * string) :=
  flat_map (fun s => if (s =? GetIonName x Z A)%string
                     then [(GroundStateIon Z A, "ionStep")] else []) l.

(** The limiters of the three ion loops together. *)
Definition ion_plan (x : Externals) (l : list string) : list (Particle * string) :=
  flat_map (fun Z => flat_map (fun A => ion_rules x l Z A) (range (2 * Z) (3 * Z)))
           (range 1 40).

(** The events of the electromagnetic block. *)
Definition em_process_trace (x : Externals) (this : PhysicsList) : list Event :=
  match fEmPhysicsList this with
  | Some em =>
      [ConstructProcessOf em; AddModels;
       ApplyCommand "/process/em/fluo true";
       ApplyCommand "/process/em/auger true";
       ApplyCommand "/process/em/pixe true"]
      ++ fst (em_option x this "pixe" "false")
      ++ fst (em_option x this "fluo" "true")
      ++ fst (em_option x this "auger" "true")
  | None => []
  end.

(** The events of the [G4RadioactiveDecay] block. *)
Definition decay_options_trace (r : TRestGeant4PhysicsLists) : list Event :=
  if FindPhysicsList r "G4RadioactiveDecay" =? 0 then []
  else NewRadioactiveDecay :: SetThresholdForVeryLongDecayTime CLHEP.nanosecond
         :: fst (decay_flag r "ICM" SetICM) ++ fst (decay_flag r "ARM" SetARM).

(** The events of the two step-limiter loops. *)
Definition step_limiter_trace (x : Externals) (r : TRestGeant4PhysicsLists)
  : list Event :=
  fst (for_each (particleTable x) step_limiter_for) ++ fst (ion_sweep x r).

(** A null pointer contributes nothing, a module contributes itself. *)
Definition present (p : option G4VPhysicsConstructor) : list G4VPhysicsConstructor :=
  match p with
  | Some c => [c]
  | None => []
  end.

(* ------------------------------------------------------------------ *)
(** ** The sections of [InitializePhysicsLists]                         *)
(* ------------------------------------------------------------------ *)

(** The body of [InitializePhysicsLists] cut at its section comments,
    to reason about one section at a time; [InitializePhysicsLists] is
    their sequence ([InitializePhysicsLists_sections] below). *)
Definition init_decay (r : TRestGeant4PhysicsLists) (this : PhysicsList)
  : Run PhysicsList :=
  if enabled r "G4DecayPhysics" then
    emit (New G4DecayPhysics) ;; ret (set_fDecPhysicsList this G4DecayPhysics)
  else if level_geb (GetVerboseLevel r) REST_Debug then
    emit (G4cout "restG4. PhysicsList. G4DecayPhysics is not enabled!!") ;;
    ret this
  else ret this.

Definition init_radioactive_decay (r : TRestGeant4PhysicsLists)
  (this : PhysicsList) : Run PhysicsList :=
  if enabled r "G4RadioactiveDecayPhysics" then
    emit (New G4RadioactiveDecayPhysics) ;;
    ret (set_fRadDecPhysicsList this G4RadioactiveDecayPhysics)
  else if level_geb (GetVerboseLevel r) REST_Debug then
    emit (G4cout "restG4. PhysicsList. G4RadioactiveDecayPhysics is not enabled!!") ;;
    ret this
  else ret this.

Definition init_em (r : TRestGeant4PhysicsLists) (this : PhysicsList)
  : Run (PhysicsList * Z) :=
  st <- em_block r "G4EmLivermorePhysics" G4EmLivermorePhysics (this, 0) ;;
  st <- em_block r "G4EmPenelopePhysics" G4EmPenelopePhysics st ;;
  st <- em_block r "G4EmStandardPhysics_option3" G4EmStandardPhysics_option3 st ;;
  em_block r "G4EmStandardPhysics_option4" G4EmStandardPhysics_option4 st.

Definition check_em (r : TRestGeant4PhysicsLists) (emCounter : Z) : Run unit :=
  when (level_geb (GetVerboseLevel r) REST_Essential && (emCounter =? 0))
       (emit (RESTWarning "PhysicsList: No EM physics list has been enabled")) ;;
  when (1 <? emCounter)
       (emit (cerr "PhysicsList: More than 1 EM PhysicsList enabled.") ;; exit 1).

Definition init_hadronic (r : TRestGeant4PhysicsLists) (this : PhysicsList)
  : Run PhysicsList :=
  this <- hadron_block r G4HadronPhysicsQGSP_BIC_HP this ;;
  this <- hadron_block r G4IonBinaryCascadePhysics this ;;
  this <- hadron_block r G4HadronElasticPhysicsHP this ;;
  this <- hadron_block r G4NeutronTrackingCut this ;;
  this <- hadron_block r G4EmExtraPhysics this ;;
  emit (G4cout (String.append "Number of hadronic physics lists added "
                  (decimal (Z.of_nat (length (fHadronPhys this)))))) ;;
  ret this.

(** The hadronic lists a configuration enables, in the order of the
    five blocks. *)
Definition hadron_enabled (r : TRestGeant4PhysicsLists) : list G4VPhysicsConstructor :=
  filter (fun c => enabled r (className c)) hadron_lists.

(** An object of the constructor: the metadata pointer and the default
    cut are those of [initial_members]. *)
Definition members (r : TRestGeant4PhysicsLists)
  (em : option G4VPhysicsConstructor) (emName : string)
  (dec rad : option G4VPhysicsConstructor) (hs : list G4VPhysicsConstructor)
  : PhysicsList :=
  {| fEmPhysicsList := em;
     fEmPhysicsListName := emName;
     fDecPhysicsList := dec;
     fRadDecPhysicsList := rad;
     fHadronPhys := hs;
     fRestPhysicsLists := r;
     defaultCutValue := (0x1.999999999999ap-4 * CLHEP.mm)%float |}.

(** [C], when the configuration enables it. *)
Definition if_enabled (r : TRestGeant4PhysicsLists) (C : G4VPhysicsConstructor)
  : option G4VPhysicsConstructor :=
  if enabled r (className C) then Some C else None.

(** The name kept with the electromagnetic list: that of the first
    enabled one. *)
Definition em_name (r : TRestGeant4PhysicsLists) : string :=
  match em_enabled r with
  | c :: _ => className c
  | [] => EmptyString
  end.

(** The object a constructor that returns leaves behind. *)
Definition resolved (r : TRestGeant4PhysicsLists) : PhysicsList :=
  members r (hd_error (em_enabled r)) (em_name r)
    (if_enabled r G4DecayPhysics) (if_enabled r G4RadioactiveDecayPhysics)
    (hadron_enabled r).

(** The events of the decay or of the radioactive-decay section: the
    module is instantiated, or reported as not enabled at debug
    verbosity. *)
Definition decay_section_trace (r : TRestGeant4PhysicsLists)
  (C : G4VPhysicsConstructor) : list Event :=
  if enabled r (className C) then [New C]
  else if level_geb (GetVerboseLevel r) REST_Debug then
    [G4cout (String.concat EmptyString
       ["restG4. PhysicsList. "; className C; " is not enabled!!"])]
  else [].

(** The events of the constructor before [InitializePhysicsLists]. *)
Definition ctor_prefix (r : TRestGeant4PhysicsLists) : list Event :=
  [NewUnitDefinition "minute" "min" "Time" (60 * CLHEP.second)%float;
   NewUnitDefinition "hour" "h" "Time" (60 * (60 * CLHEP.second))%float;
   NewUnitDefinition "day" "d" "Time" (24 * (60 * (60 * CLHEP.second)))%float;
   NewUnitDefinition "year" "y" "Time" (365 * (24 * (60 * (60 * CLHEP.second))))%float;
   LossTableManager_Instance;
   SetEnergyRange (GetMinimumEnergyProductionCuts r * CLHEP.keV)%float
                  (GetMaximumEnergyProductionCuts r * CLHEP.keV)%float].

(** The warning of the electromagnetic section. *)
Definition no_em_warning (r : TRestGeant4PhysicsLists) : list Event :=
  if level_geb (GetVerboseLevel r) REST_Essential
  then [RESTWarning "PhysicsList: No EM physics list has been enabled"] else [].

(** The events of the decay and radioactive-decay sections. *)
Definition decay_sections_trace (r : TRestGeant4PhysicsLists) : list Event :=
  decay_section_trace r G4DecayPhysics
  ++ decay_section_trace r G4RadioactiveDecayPhysics.

(** The events of the constructor when it returns, and when it exits. *)
Definition returned_trace (r : TRestGeant4PhysicsLists) : list Event :=
  ctor_prefix r ++ decay_sections_trace r
  ++ map New (em_enabled r)
  ++ (match em_enabled r with [] => no_em_warning r | _ => [] end)
  ++ map New (hadron_enabled r)
  ++ [G4cout (String.append "Number of hadronic physics lists added "
                (decimal (Z.of_nat (length (hadron_enabled r)))))].

Definition exited_trace (r : TRestGeant4PhysicsLists) : list Event :=
  ctor_prefix r ++ decay_sections_trace r
  ++ map New (firstn 1 (em_enabled r))
  ++ [cerr "PhysicsList: More than 1 EM PhysicsList enabled."].


(* ------------------------------------------------------------------ *)
(** ** Example configurations                                           *)
(* ------------------------------------------------------------------ *)

(** A particle table with the four limited species among others. *)
Definition example_surroundings : Externals :=
  surroundings ["gamma"; "e-"; "e+"; "mu-"; "mu+"; "proton"; "neutron"].

(** The physics lists of [externalU238.rml], in declaration order. *)
Definition example_config : PhysicsConfig :=
  config [("G4EmLivermorePhysics", []);
          ("G4DecayPhysics", []);
          ("G4RadioactiveDecayPhysics", []);
          ("G4RadioactiveDecay", [("ICM", "true"); ("ARM", "true")]);
          ("G4HadronElasticPhysicsHP", []);
          ("G4IonBinaryCascadePhysics", []);
          ("G4HadronPhysicsQGSP_BIC_HP", []);
          ("G4NeutronTrackingCut", []);
          ("G4EmExtraPhysics", [])]
         REST_Essential [].

(** Two electromagnetic lists. *)
Definition two_em_config : PhysicsConfig :=
  config [("G4EmLivermorePhysics", []); ("G4EmPenelopePhysics", [])]
         REST_Essential [].

(** No electromagnetic list. *)
Definition no_em_config : PhysicsConfig :=
  config [("G4DecayPhysics", [])] REST_Essential [].

(** A hadronic list declared twice, around another one. *)
Definition repeated_hadron_config : PhysicsConfig :=
  config [("G4NeutronTrackingCut", []);
          ("G4HadronElasticPhysicsHP", []);
          ("G4NeutronTrackingCut", [])]
         REST_Essential [].

(** An inverted energy window: from 10 keV down to 1 keV. *)
Definition inverted_window_config : PhysicsConfig :=
  {| modules := [("G4EmLivermorePhysics", [])];
     verboseLevel := REST_Essential;
     ionStepNames := [];
     cutGamma := 1%float;
     cutElectron := 1%float;
     cutPositron := 1%float;
     cutMuon := 1%float;
     cutNeutron := 1%float;
     cutEnergyWindow := (10%float, 1%float) |}.

(** Ion names: C14 twice, and C20, which the loops never reach. *)
Definition ion_config : PhysicsConfig :=
  config [("G4EmLivermorePhysics", [])] REST_Essential ["C14"; "C20"; "C14"].

(** No [G4RadioactiveDecay] entry at all. *)
Definition no_radioactive_decay_config : PhysicsConfig :=
  config [("G4EmLivermorePhysics", [])] REST_Silent [].

(** [G4RadioactiveDecay] declared first, with both flags set. *)
Definition radioactive_decay_first_config : PhysicsConfig :=
  config [("G4RadioactiveDecay", [("ICM", "true"); ("ARM", "false")]);
          ("G4EmLivermorePhysics", [])]
         REST_Essential [].







(* ------------------------------------------------------------------ *)
(** ** [PhysicsList::~PhysicsList]                                      *)
(* ------------------------------------------------------------------ *)

(** The objects the destructor deletes, in order:
<<
    delete fEmPhysicsList;
    delete fDecPhysicsList;
    delete fRadDecPhysicsList;
    for (auto& hadronicPhysicsList : fHadronPhys) { delete hadronicPhysicsList; }
>>
    Deleting a null pointer does nothing. *)
Definition PhysicsList_dtor (this : PhysicsList) : list G4VPhysicsConstructor :=
  present (fEmPhysicsList this)
  ++ present (fDecPhysicsList this)
  ++ present (fRadDecPhysicsList this)
  ++ fHadronPhys this.

(* ------------------------------------------------------------------ *)
(** ** More readers of a trace                                          *)
(* ------------------------------------------------------------------ *)

(** The events of a trace that [f] selects, with what it selects from
    them, in order. *)
Definition pick {A : Type} (f : Event -> option A) (t : list Event) : list A :=
  flat_map (fun e => match f e with Some a => [a] | None => [] end) t.


(** What the code creates with [new]: a unit definition, by its name,
    or a physics module. *)
Inductive Allocation : Type :=
| UnitDefinition (name : string)
| PhysicsConstructor (c : G4VPhysicsConstructor).

Definition as_allocation (e : Event) : option Allocation :=
  match e with
  | NewUnitDefinition name _ _ _ => Some (UnitDefinition name)
  | New c => Some (PhysicsConstructor c)
  | _ => None
  end.

Definition as_ConstructParticle (e : Event) : option G4VPhysicsConstructor :=
  match e with ConstructParticleOf c => Some c | _ => None end.

Definition as_ConstructProcess (e : Event) : option G4VPhysicsConstructor :=
  match e with ConstructProcessOf c => Some c | _ => None end.

Definition as_ApplyCommand (e : Event) : option string :=
  match e with ApplyCommand command => Some command | _ => None end.

(** The calls on the [G4RadioactiveDecay] object and the warnings. *)
Definition as_decay_call (e : Event) : option Event :=
  match e with
  | NewRadioactiveDecay | SetThresholdForVeryLongDecayTime _
  | SetICM _ | SetARM _ | RESTWarning _ => Some e
  | _ => None
  end.

(** The slot of the object a physics constructor goes to. *)
Inductive Slot : Type := EmSlot | DecaySlot | RadioactiveDecaySlot | HadronSlot.

Definition slot_of (c : G4VPhysicsConstructor) : Slot :=
  match c with
  | G4DecayPhysics => DecaySlot
  | G4RadioactiveDecayPhysics => RadioactiveDecaySlot
  | G4EmLivermorePhysics | G4EmPenelopePhysics
  | G4EmStandardPhysics_option3 | G4EmStandardPhysics_option4 => EmSlot
  | _ => HadronSlot
  end.

(** One of the four names of the particle loop. *)
Definition is_limited_name (particleName : string) : bool :=
  ((particleName =? "e-") || (particleName =? "e+")
   || (particleName =? "mu-") || (particleName =? "mu+"))%string.

(** The pairs [(Z, A)] of the two outer ion loops, in the order they are
    visited. *)
Definition sweep_pairs : list (Z * Z) :=
  flat_map (fun Z => map (fun A => (Z, A)) (range (2 * Z) (3 * Z))) (range 1 40).

(** [s] is the name of an ion of the window. *)
Definition names_swept_ion (x : Externals) (s : string) : bool :=
  existsb (fun p => (s =? GetIonName x (fst p) (snd p))%string) sweep_pairs.

(** A second module list for [example_config]'s modules: another
    declaration order, and a name no block looks up. *)
Definition reordered_config : PhysicsConfig :=
  config [("G4EmExtraPhysics", []);
          ("G4NeutronTrackingCut", []);
          ("NotAPhysicsList", []);
          ("G4HadronPhysicsQGSP_BIC_HP", []);
          ("G4IonBinaryCascadePhysics", []);
          ("G4HadronElasticPhysicsHP", []);
          ("G4RadioactiveDecay", [("ICM", "true"); ("ARM", "true")]);
          ("G4RadioactiveDecayPhysics", []);
          ("G4DecayPhysics", []);
          ("G4EmLivermorePhysics", [])]
         REST_Debug [].

(** [G4RadioactiveDecay] declared after the electromagnetic list, with
    ICM written "True" and ARM "false". *)
Definition decay_flags_config : PhysicsConfig :=
  config [("G4EmLivermorePhysics", []);
          ("G4RadioactiveDecay", [("ICM", "True"); ("ARM", "false")])]
         REST_Essential [].

(* ------------------------------------------------------------------ *)
(** ** [Application::Run] and [Application::WriteGeometry]              *)
(* ------------------------------------------------------------------ *)

Module App.

(** [CommandLineParameters], as [Application::Run] reads it.  A
    [TString] is null when it is empty. *)
Record CommandLineParameters : Type := {
  rmlFile : string;
  outputFile : string;
  geometryFile : string;
  nThreads : Z;
  nEvents : Z;
  nDesiredEntries : Z;
  timeLimitSeconds : Z
}.

Definition IsNull (s : string) : bool :=
  match s with
  | EmptyString => true
  | String _ _ => false
  end.

(** The members of [TRestGeant4Metadata] that [Run] reads back, named
    by their getters.  [Run] is taken to be the only one to assign them
    while it runs: an accessor returns what the last setter call of
    [Run] gave, or what the file gave. *)
Record TRestGeant4Metadata : Type := {
  GetNumberOfEvents : Z;
  GetGdmlFilename : string;
  GetTitle : string;
  GetSeed : Z
}.

(** The members of [TRestRun] that [Run] reads back. *)
Record TRestRun : Type := {
  GetRunTag : string;
  GetOutputFileName : string
}.

(** The conditional compilation of the file. *)
Record Build : Type := {
  GEANT4_WITHOUT_G4RunManagerFactory : bool;
  G4VIS_USE : bool;
  G4UI_USE : bool
}.

(** What [Run] asks of its surroundings: the file system, the REST
    parsers and the clock. *)
Record Environment : Type := {
  build : Build;
  current_path : string;
  CheckFileIsAccessible : string -> bool;
  weakly_canonical : string -> string;
  SeparatePathAndName : string -> string * string;
  read_metadata : string -> TRestGeant4Metadata;
  Execute : string -> string;
  GetOutputGDMLFile : string -> string;
  GetGDMLVersion : string -> string;
  GetEntityVersion : string -> string -> string;
  read_physics_lists : string -> TRestGeant4PhysicsLists;
  read_run : string -> TRestRun;
  formed_name : string -> string;
  start_time : Z;
  end_time : Z;
  ToAbsoluteName : string -> string;
  geometry_created : bool;
  GetElapsedTime : string;
  WriteGeometry_option : string
}.

Inductive UserInitialization : Type :=
| Detector
| Physics_
| Actions.

(** The calls [Run] makes and the lines it prints, in order.  The
    events of the physics-list constructor are carried by
    [PhysicsEvent]. *)
Inductive AppEvent : Type :=
| signal_SIGINT
| Cout (line : string)
| CommandLineSetup_Print (p : CommandLineParameters)
| set_current_path (path : string)
| new_TRestGeant4Metadata (rml : string)
| SetRestMetadata
| Execute_command (command : string)
| SetGeant4Version (version : string)
| SetNumberOfEvents (n : Z)
| SetNumberOfDesiredEntries (n : Z)
| SetSimulationMaxTimeSeconds (n : Z)
| SetGdmlFilename (filename : string)
| new_TRestGDMLParser
| Gdml_Load (filename : string)
| SetGeometryPath (path : string)
| SetGdmlReference (version : string)
| SetMaterialsReference (version : string)
| Metadata_PrintMetadata
| new_TRestGeant4PhysicsLists (rml : string)
| SetRestPhysicsLists
| new_TRestRun
| SetRestRun
| LoadConfigFromFile (rml : string)
| SetOutputFileName (filename : string)
| SetRunTag (tag : string)
| SetRunType (type : string)
| AddMetadata (name : string)
| Run_PrintMetadata
| FormOutputFile
| OutputFile_cd
| AddEventBranch
| setTheEngine_Ranecu
| setTheSeed (seed : Z)
| SteppingVerbose_SetInstance
| CreateRunManager (serialOnly : bool)
| new_G4RunManager
| EnableThreadSafety
| SetNumberOfThreads (n : Z)
| new_DetectorConstruction
| InitializeUserDistributions
| SetUserInitialization (what : UserInitialization)
| PhysicsEvent (e : Event)
| new_ActionInitialization
| RunManager_Initialize
| new_G4VisExecutive
| VisManager_Initialize
| SetStartTimeStamp (t : Z)
| UI_ApplyCommand (command : string)
| new_G4UIExecutive
| SessionStart
| delete_ui
| delete_visManager
| delete_runManager
| SetEndTimeStamp (t : Z)
| UpdateOutputFile
| CloseFile
| CreateGeoManager
| TFile_Open (filename option : string)
| TFile_cd
| Geometry_Write (name : string)
| TFile_Close
| delete_geometry.

(** Runs of the application: a trace ended by a return or by [exit]. *)
Definition Exec (A : Type) : Type := (list AppEvent * Outcome A)%type.

Definition pure {A : Type} (a : A) : Exec A := ([], Returned a).

Definition and_then {A B : Type} (m : Exec A) (k : A -> Exec B) : Exec B :=
  match m with
  | (t, Returned a) => let (t', o) := k a in (t ++ t', o)
  | (t, Exited status) => (t, Exited status)
  end.

Definition call (e : AppEvent) : Exec unit := ([e], Returned tt).

Definition exit_ {A : Type} (status : Z) : Exec A := ([], Exited status).

(** The events of a run of the physics list, inside the application. *)
Definition physics {A : Type} (m : Run A) : Exec A :=
  (map PhysicsEvent (fst m), snd m).

Declare Scope exec_scope.
Delimit Scope exec_scope with exec.
Notation "x <- m ;; k" := (and_then m (fun x => k))
  (at level 61, m at next level, right associativity) : exec_scope.
Notation "m ;; k" := (and_then m (fun _ => k))
  (at level 61, right associativity) : exec_scope.
Local Open Scope exec_scope.

(** [if (c) body;] *)
Definition if_ (c : bool) (body : Exec unit) : Exec unit :=
  if c then body else pure tt.

Definition double_quote : Ascii.ascii := Ascii.ascii_of_nat 34.

Definition backslash : Ascii.ascii := Ascii.ascii_of_nat 92.

(** A backslash before every double quote and every backslash. *)
Fixpoint escaped (s : string) : string :=
  match s with
  | EmptyString => EmptyString
  | String c s' =>
      if (Ascii.eqb c double_quote || Ascii.eqb c backslash)%bool
      then String backslash (String c (escaped s'))
      else String c (escaped s')
  end.

(** A [std::filesystem::path] as [operator<<] prints it: through
    [std::quoted], between double quotes, with a backslash before every
    double quote and every backslash of the path. *)
Definition quoted (s : string) : string :=
  String double_quote
    (String.append (escaped s) (String double_quote EmptyString)).

Definition maxPrimariesAllowed : Z := 2147483647.

(** [Application::WriteGeometry(geometry, filename, option)];
    [geometry] is true for a non-null pointer. *)
Definition WriteGeometry (geometry : bool) (filename option : string) : Exec unit :=
  call (TFile_Open filename option) ;;
  call TFile_cd ;;
  call (Cout (String.concat EmptyString
          ["Application::WriteGeometry - Writing geometry into '"; filename; "'"])) ;;
  if_ (negb geometry)
    (call (Cout "Application::WriteGeometry - Error - Unable to write geometry into file") ;;
     exit_ 1) ;;
  call (Geometry_Write "Geometry") ;;
  call TFile_Close.

(** [Application::Run], first part: from the signal handler to the
    stepping verbose (lines 59 to 160).  It returns the metadata, the
    run and the physics lists as this part leaves them. *)
Definition Run_configure (env : Environment)
  (commandLineParameters : CommandLineParameters)
  : Exec (TRestGeant4Metadata * TRestRun * TRestGeant4PhysicsLists) :=
  call signal_SIGINT ;;
  let originalDirectory := current_path env in
  call (Cout (String.append "Current working directory: " (quoted originalDirectory))) ;;
  call (CommandLineSetup_Print commandLineParameters) ;;
  (* Separating relative path and pure RML filename *)
  let inputConfigFile := rmlFile commandLineParameters in
  if_ (negb (CheckFileIsAccessible env inputConfigFile))
    (call (Cout (String.concat EmptyString
             ["ERROR: Input rml file "; quoted (weakly_canonical env inputConfigFile);
              " not found, please check file name."])) ;;
     exit_ 1) ;;
  let (inputRmlPath, inputRmlClean) := SeparatePathAndName env inputConfigFile in
  if_ (negb (IsNull inputRmlPath)) (call (set_current_path inputRmlPath)) ;;
  call (new_TRestGeant4Metadata inputRmlClean) ;;
  let metadata := read_metadata env inputRmlClean in
  call SetRestMetadata ;;
  call (Execute_command "geant4-config --version") ;;
  call (SetGeant4Version (Execute env "geant4-config --version")) ;;
  metadata <- (if negb (nEvents commandLineParameters =? 0) then
                 call (SetNumberOfEvents (nEvents commandLineParameters)) ;;
                 pure {| GetNumberOfEvents := nEvents commandLineParameters;
                         GetGdmlFilename := GetGdmlFilename metadata;
                         GetTitle := GetTitle metadata;
                         GetSeed := GetSeed metadata |}
               else pure metadata) ;;
  metadata <- (if nEvents commandLineParameters =? 0 then
                 call (SetNumberOfEvents maxPrimariesAllowed) ;;
                 pure {| GetNumberOfEvents := maxPrimariesAllowed;
                         GetGdmlFilename := GetGdmlFilename metadata;
                         GetTitle := GetTitle metadata;
                         GetSeed := GetSeed metadata |}
               else pure metadata) ;;
  if_ (negb (nDesiredEntries commandLineParameters =? 0))
    (call (SetNumberOfDesiredEntries (nDesiredEntries commandLineParameters))) ;;
  if_ (negb (timeLimitSeconds commandLineParameters =? 0))
    (call (SetSimulationMaxTimeSeconds (timeLimitSeconds commandLineParameters))) ;;
  metadata <- (if negb (IsNull (geometryFile commandLineParameters)) then
                 call (SetGdmlFilename (geometryFile commandLineParameters)) ;;
                 pure {| GetNumberOfEvents := GetNumberOfEvents metadata;
                         GetGdmlFilename := geometryFile commandLineParameters;
                         GetTitle := GetTitle metadata;
                         GetSeed := GetSeed metadata |}
               else pure metadata) ;;
  call new_TRestGDMLParser ;;
  (* This call will generate a new single file GDML output *)
  let loaded := GetGdmlFilename metadata in
  call (Gdml_Load loaded) ;;
  (* We redefine the value of the GDML file to be used in DetectorConstructor. *)
  call (SetGdmlFilename (GetOutputGDMLFile env loaded)) ;;
  let metadata := {| GetNumberOfEvents := GetNumberOfEvents metadata;
                     GetGdmlFilename := GetOutputGDMLFile env loaded;
                     GetTitle := GetTitle metadata;
                     GetSeed := GetSeed metadata |} in
  call (SetGeometryPath EmptyString) ;;
  call (SetGdmlReference (GetGDMLVersion env loaded)) ;;
  call (SetMaterialsReference (GetEntityVersion env loaded "materials")) ;;
  call Metadata_PrintMetadata ;;
  call (new_TRestGeant4PhysicsLists inputRmlClean) ;;
  let physicsLists := read_physics_lists env inputRmlClean in
  call SetRestPhysicsLists ;;
  call new_TRestRun ;;
  call SetRestRun ;;
  call (LoadConfigFromFile inputRmlClean) ;;
  let run := read_run env inputRmlClean in
  run <- (if negb (IsNull (outputFile commandLineParameters)) then
            call (SetOutputFileName (outputFile commandLineParameters)) ;;
            pure {| GetRunTag := GetRunTag run;
                    GetOutputFileName := outputFile commandLineParameters |}
          else pure run) ;;
  call (set_current_path originalDirectory) ;;
  let runTag := GetRunTag run in
  run <- (if ((runTag =? "Null") || IsNull runTag)%string then
            call (SetRunTag (GetTitle metadata)) ;;
            pure {| GetRunTag := GetTitle metadata;
                    GetOutputFileName := GetOutputFileName run |}
          else pure run) ;;
  call (SetRunType "restG4") ;;
  call (AddMetadata "TRestGeant4Metadata") ;;
  call (AddMetadata "TRestGeant4PhysicsLists") ;;
  call Run_PrintMetadata ;;
  call FormOutputFile ;;
  let run := {| GetRunTag := GetRunTag run;
                GetOutputFileName := formed_name env (GetOutputFileName run) |} in
  call OutputFile_cd ;;
  call AddEventBranch ;;
  (* choose the Random engine *)
  call setTheEngine_Ranecu ;;
  let seed := GetSeed metadata in
  call (setTheSeed seed) ;;
  call SteppingVerbose_SetInstance ;;
  pure (metadata, run, physicsLists).

(** Second part: the run manager (lines 162 to 182). *)
Definition Run_create_manager (env : Environment)
  (commandLineParameters : CommandLineParameters) : Exec unit :=
  if GEANT4_WITHOUT_G4RunManagerFactory (build env) then
    call (Cout "Using serial run manager") ;;
    call new_G4RunManager
  else
    let serialMode := nThreads commandLineParameters =? 0 in
    (if serialMode then
       call (Cout "Using serial run manager")
     else
       call (Cout (String.concat EmptyString
               ["Using MT run manager with ";
                decimal (nThreads commandLineParameters); " threads"]))) ;;
    call (CreateRunManager serialMode) ;;
    if_ (negb serialMode)
      (call EnableThreadSafety ;;
       call (SetNumberOfThreads (nThreads commandLineParameters))).

(** Third part: the user initialisations and the initialisation of the
    run manager (lines 184 to 199).  [new PhysicsList(...)] is the
    constructor above; what the run manager does inside its own calls
    is not part of the trace. *)
Definition Run_initialize (env : Environment)
  (physicsLists : TRestGeant4PhysicsLists) : Exec unit :=
  call new_DetectorConstruction ;;
  call InitializeUserDistributions ;;
  call (SetUserInitialization Detector) ;;
  _ <- physics (PhysicsList_ctor physicsLists) ;;
  call (SetUserInitialization Physics_) ;;
  call new_ActionInitialization ;;
  call (SetUserInitialization Actions) ;;
  call RunManager_Initialize ;;
  if_ (G4VIS_USE (build env))
    (call new_G4VisExecutive ;; call VisManager_Initialize).

(** Fourth part: the events (lines 201 to 230). *)
Definition Run_simulate (env : Environment) (metadata : TRestGeant4Metadata)
  : Exec unit :=
  let nEvents := GetNumberOfEvents metadata in
  if_ (nEvents <? 0)
    (call (Cout (String.concat EmptyString
             ["Error: "; String double_quote "nEvents";
              String double_quote " parameter value ("; decimal nEvents;
              ") is not valid."])) ;;
     exit_ 1) ;;
  call (SetStartTimeStamp (start_time env)) ;;
  call (Cout (String.append "Number of events: " (decimal nEvents))) ;;
  if 0 <? nEvents then
    (* batch mode *)
    call (UI_ApplyCommand "/tracking/verbose 0") ;;
    call (UI_ApplyCommand "/run/initialize") ;;
    call (UI_ApplyCommand (String.append "/run/beamOn " (decimal nEvents)))
  else if nEvents =? 0 then
    (* define visualization and UI terminal for interactive mode *)
    if_ (G4UI_USE (build env))
      (call (Cout "Entering vis mode..") ;;
       call new_G4UIExecutive ;;
       if_ (G4VIS_USE (build env))
         (call (Cout "Executing G4 macro : /control/execute macros/vis.mac") ;;
          call (UI_ApplyCommand "/control/execute macros/vis.mac")) ;;
       call SessionStart ;;
       call delete_ui)
  else pure tt.

(** Last part: job termination (lines 232 to 256). *)
Definition Run_terminate (env : Environment) (run : TRestRun) : Exec unit :=
  call OutputFile_cd ;;
  if_ (G4VIS_USE (build env)) (call delete_visManager) ;;
  (* job termination *)
  call delete_runManager ;;
  call (SetEndTimeStamp (end_time env)) ;;
  let filename := ToAbsoluteName env (GetOutputFileName run) in
  call UpdateOutputFile ;;
  call CloseFile ;;
  call CreateGeoManager ;;
  let geometry := geometry_created env in
  WriteGeometry geometry (GetOutputFileName run) (WriteGeometry_option env) ;;
  call delete_geometry ;;
  call Metadata_PrintMetadata ;;
  call Run_PrintMetadata ;;
  call (Cout (String.concat EmptyString
          ["============== Generated file: "; filename; " =============="])) ;;
  call (Cout (String.concat EmptyString
          ["Elapsed time: "; GetElapsedTime env; " seconds"])).

(** [Application::Run]: its five parts, one after the other. *)
Definition Run (env : Environment) (commandLineParameters : CommandLineParameters)
  : Exec unit :=
  st <- Run_configure env commandLineParameters ;;
  let '(metadata, run, physicsLists) := st in
  Run_create_manager env commandLineParameters ;;
  Run_initialize env physicsLists ;;
  Run_simulate env metadata ;;
  Run_terminate env run.

(** The number of events [Run] asks for on a command line. *)
Definition requested_events (p : CommandLineParameters) : Z :=
  if nEvents p =? 0 then maxPrimariesAllowed else nEvents p.

(** The name of the configuration file, without its path. *)
Definition inputRmlClean (env : Environment) (p : CommandLineParameters) : string :=
  snd (SeparatePathAndName env (rmlFile p)).

(** The GDML file handed to the parser: the one of the command line
    when there is one, the one of the configuration file otherwise. *)
Definition loaded_gdml (env : Environment) (p : CommandLineParameters) : string :=
  if IsNull (geometryFile p)
  then GetGdmlFilename (read_metadata env (inputRmlClean env p))
  else geometryFile p.

(** The metadata, the run and the physics lists as the first part of
    [Run] leaves them. *)
Definition configured_metadata (env : Environment) (p : CommandLineParameters)
  : TRestGeant4Metadata :=
  {| GetNumberOfEvents := requested_events p;
     GetGdmlFilename := GetOutputGDMLFile env (loaded_gdml env p);
     GetTitle := GetTitle (read_metadata env (inputRmlClean env p));
     GetSeed := GetSeed (read_metadata env (inputRmlClean env p)) |}.

Definition configured_run (env : Environment) (p : CommandLineParameters)
  : TRestRun :=
  let run := read_run env (inputRmlClean env p) in
  {| GetRunTag :=
       if ((GetRunTag run =? "Null") || IsNull (GetRunTag run))%string
       then GetTitle (read_metadata env (inputRmlClean env p))
       else GetRunTag run;
     GetOutputFileName :=
       formed_name env (if IsNull (outputFile p)
                        then GetOutputFileName run else outputFile p) |}.

Definition configured_physics (env : Environment) (p : CommandLineParameters)
  : TRestGeant4PhysicsLists :=
  read_physics_lists env (inputRmlClean env p).

(** Events by which the progress of a run is told: the output file
    formed, the run manager initialised, the commands sent, the output
    file updated and closed, the geometry file opened, written,
    closed. *)
Definition is_progress (e : AppEvent) : bool :=
  match e with
  | FormOutputFile | RunManager_Initialize | UI_ApplyCommand _
  | UpdateOutputFile | CloseFile | TFile_Open _ _ | Geometry_Write _
  | TFile_Close => true
  | _ => false
  end.

(** Events about the number of events and the mode of the run. *)
Definition is_event_count (e : AppEvent) : bool :=
  match e with
  | SetNumberOfEvents _ | UI_ApplyCommand _ | new_G4UIExecutive | SessionStart => true
  | _ => false
  end.

(** Events about the run manager and its threads. *)
Definition is_manager (e : AppEvent) : bool :=
  match e with
  | CreateRunManager _ | new_G4RunManager | EnableThreadSafety
  | SetNumberOfThreads _ => true
  | _ => false
  end.

(** Events by which the command line overrides the configuration
    file, and the uses of the overridden values. *)
Definition is_override (e : AppEvent) : bool :=
  match e with
  | SetNumberOfDesiredEntries _ | SetSimulationMaxTimeSeconds _
  | Gdml_Load _ | SetOutputFileName _ | SetRunTag _ | TFile_Open _ _ => true
  | _ => false
  end.

(** [[e]] when [c] holds. *)
Definition when_ (c : bool) (e : AppEvent) : list AppEvent :=
  if c then [e] else [].

(** The three commands of batch mode for [n] events. *)
Definition batch_commands (n : Z) : list AppEvent :=
  [UI_ApplyCommand "/tracking/verbose 0";
   UI_ApplyCommand "/run/initialize";
   UI_ApplyCommand (String.append "/run/beamOn " (decimal n))].

(** The run gets as far as the constructor of the physics list
    returning. *)
Definition physics_accepted (env : Environment) (p : CommandLineParameters) : bool :=
  (length (em_enabled (configured_physics env p)) <=? 1)%nat.

(** Surroundings for examples: every file is accessible unless it is
    called "missing.rml", the configuration read is [c], the geometry
    is created. *)
Definition example_environment (c : PhysicsConfig) (rmlEvents : Z) : Environment :=
  {| build := {| GEANT4_WITHOUT_G4RunManagerFactory := false;
                 G4VIS_USE := true;
                 G4UI_USE := true |};
     current_path := "/work";
     CheckFileIsAccessible := fun f => negb (f =? "missing.rml")%string;
     weakly_canonical := fun f => String.append "/work/" f;
     SeparatePathAndName := fun f => (EmptyString, f);
     read_metadata := fun _ =>
       {| GetNumberOfEvents := rmlEvents;
          GetGdmlFilename := "geometry/setup.gdml";
          GetTitle := "restG4 Simulation run";
          GetSeed := 17 |};
     Execute := fun _ => "11.0.3";
     GetOutputGDMLFile := fun f => String.append "/tmp/" f;
     GetGDMLVersion := fun _ => "v1";
     GetEntityVersion := fun _ _ => "v1";
     read_physics_lists := fun _ => metadata_of c;
     read_run := fun _ => {| GetRunTag := "Null"; GetOutputFileName := "out.root" |};
     formed_name := fun f => f;
     start_time := 1000;
     end_time := 2000;
     ToAbsoluteName := fun f => String.append "/work/" f;
     geometry_created := true;
     GetElapsedTime := "1000";
     WriteGeometry_option := "UPDATE" |}.

Definition example_parameters (events : Z) (threads : Z) : CommandLineParameters :=
  {| rmlFile := "simulation.rml";
     outputFile := EmptyString;
     geometryFile := EmptyString;
     nThreads := threads;
     nEvents := events;
     nDesiredEntries := 0;
     timeLimitSeconds := 0 |}.

(** A command line that names a file that is not there. *)
Definition missing_file_parameters : CommandLineParameters :=
  {| rmlFile := "missing.rml";
     outputFile := EmptyString;
     geometryFile := EmptyString;
     nThreads := 0;
     nEvents := 10;
     nDesiredEntries := 0;
     timeLimitSeconds := 0 |}.

End App.

(* ================================================================== *)
(** * Properties                                                        *)
(* ================================================================== *)

(** An event that differs in its constructor from every member of an
    explicit list is not in the list. *)
Ltac not_among H :=
  simpl in H; repeat (destruct H as [H|H]; [discriminate H|]); destruct H.

(** ** Runs *)

Lemma bind_returned {A B : Type} (t : list Event) (a : A) (k : A -> Run B) :
  bind (t, Returned a) k = (t ++ fst (k a), snd (k a)).
Proof. simpl. destruct (k a); reflexivity. Qed.

Lemma bind_exited {A B : Type} (t : list Event) (status : Z) (k : A -> Run B) :
  bind (t, Exited status) k = (t, Exited status).
Proof. reflexivity. Qed.

Lemma bind_emit {B : Type} (e : Event) (k : unit -> Run B) :
  bind (emit e) k = (e :: fst (k tt), snd (k tt)).
Proof. unfold emit. rewrite bind_returned. reflexivity. Qed.

(** A loop whose body always returns performs the bodies' events in
    order and returns. *)
Lemma for_each_trace {A : Type} (body : A -> Run unit) (f : A -> list Event)
  (l : list A) :
  (forall a, body a = (f a, Returned tt)) ->
  for_each l body = (flat_map f l, Returned tt).
Proof.
  intros Hbody. induction l as [|a l IH]; simpl.
  - reflexivity.
  - rewrite Hbody, bind_returned, IH. reflexivity.
Qed.

(** ** Traces *)

Lemma limiters_app (t1 t2 : list Event) :
  limiters (t1 ++ t2) = limiters t1 ++ limiters t2.
Proof.
  induction t1 as [|e t1 IH]; simpl; [reflexivity|].
  destruct e; simpl; rewrite ?IH; reflexivity.
Qed.

Lemma limiters_flat_map {A : Type} (f : A -> list Event) (l : list A) :
  limiters (flat_map f l) = flat_map (fun a => limiters (f a)) l.
Proof.
  induction l as [|a l IH]; simpl; [reflexivity|].
  rewrite limiters_app, IH. reflexivity.
Qed.

(** ** Ranges *)

Lemma In_range (lo hi k : Z) : In k (range lo hi) <-> lo <= k <= hi.
Proof.
  unfold range. rewrite in_map_iff. split.
  - intros [n [<- Hn]]. apply in_seq in Hn. lia.
  - intros H. exists (Z.to_nat (k - lo)). split; [lia|].
    apply in_seq. lia.
Qed.

Lemma range_increasing (lo hi : Z) : StronglySorted Z.lt (range lo hi).
Proof.
  unfold range. generalize (Z.to_nat (hi + 1 - lo)) as len.
  generalize 0%nat as start. intros start len. revert start.
  induction len as [|len IH]; intros start; simpl.
  - constructor.
  - constructor; [apply IH|].
    apply Forall_forall. intros k Hk. apply in_map_iff in Hk.
    destruct Hk as [n [<- Hn]]. apply in_seq in Hn. lia.
Qed.

Lemma NoDup_range (lo hi : Z) : NoDup (range lo hi).
Proof.
  pose proof (range_increasing lo hi) as H.
  induction H as [|k l Hs IH Hall]; constructor; [|exact IH].
  intros Hin. rewrite Forall_forall in Hall. specialize (Hall k Hin). lia.
Qed.

(** Reading a vector by index over all its indices reads its elements
    in order. *)
Lemma flat_map_index {B : Type} (g : string -> list B) (l : list string) :
  flat_map (fun n => g (nth n l EmptyString)) (seq 0 (length l)) = flat_map g l.
Proof.
  induction l as [|s l IH]; simpl; [reflexivity|].
  f_equal. rewrite <- seq_shift, flat_map_concat_map, map_map,
    <- flat_map_concat_map. exact IH.
Qed.

(** ** The ion sweep *)

Lemma ion_step_returns (x : Externals) (r : TRestGeant4PhysicsLists) (Z A : Z) (n : nat) :
  ion_step x r Z A n = (fst (ion_step x r Z A n), Returned tt).
Proof.
  unfold ion_step, when.
  destruct (nth n (GetIonStepList r) EmptyString =? GetIonName x Z A)%string; reflexivity.
Qed.

Lemma ion_sweep_trace (x : Externals) (r : TRestGeant4PhysicsLists) :
  ion_sweep x r =
  (flat_map (fun Z =>
     flat_map (fun A =>
       flat_map (fun n => fst (ion_step x r Z A n))
                (seq 0 (length (GetIonStepList r))))
              (range (2 * Z) (3 * Z)))
     (range 1 40), Returned tt).
Proof.
  unfold ion_sweep, for_range, for_index.
  apply for_each_trace. intros Z.
  apply for_each_trace. intros A.
  apply for_each_trace. intros n.
  apply ion_step_returns.
Qed.

Lemma limiters_ion_sweep (x : Externals) (r : TRestGeant4PhysicsLists) :
  limiters (fst (ion_sweep x r)) = ion_plan x (GetIonStepList r).
Proof.
  rewrite ion_sweep_trace. cbn [fst]. unfold ion_plan.
  rewrite limiters_flat_map. apply flat_map_ext. intros Z. cbv beta.
  rewrite limiters_flat_map. apply flat_map_ext. intros A. cbv beta.
  rewrite limiters_flat_map. unfold ion_rules.
  rewrite <- (flat_map_index
    (fun s => if (s =? GetIonName x Z A)%string
              then [(GroundStateIon Z A, "ionStep")] else [])).
  apply flat_map_ext. intros n. unfold ion_step, when.
  destruct (nth n (GetIonStepList r) EmptyString =? GetIonName x Z A)%string; reflexivity.
Qed.

Lemma In_ion_rules (x : Externals) (l : list string) (Z A : Z) (e : Particle * string) :
  In e (ion_rules x l Z A) <->
  e = (GroundStateIon Z A, "ionStep") /\ In (GetIonName x Z A) l.
Proof.
  unfold ion_rules. rewrite in_flat_map. split.
  - intros [s [Hs He]].
    destruct (String.eqb_spec s (GetIonName x Z A)) as [Heq|Hne].
    + destruct He as [<-|[]]. subst s. split; [reflexivity|exact Hs].
    + destruct He.
  - intros [-> Hin]. exists (GetIonName x Z A). split; [exact Hin|].
    rewrite String.eqb_refl. left. reflexivity.
Qed.

Lemma In_ion_plan (x : Externals) (l : list string) (e : Particle * string) :
  In e (ion_plan x l) <->
  exists Z A, in_sweep Z A /\ e = (GroundStateIon Z A, "ionStep")
              /\ In (GetIonName x Z A) l.
Proof.
  unfold ion_plan, in_sweep. rewrite in_flat_map. split.
  - intros [Z [HZ He]]. apply in_flat_map in He. destruct He as [A [HA He]].
    apply In_range in HZ, HA. apply In_ion_rules in He.
    exists Z, A. tauto.
  - intros [Z [A [[HZ HA] He]]]. exists Z. split; [apply In_range; exact HZ|].
    apply in_flat_map. exists A. split; [apply In_range; exact HA|].
    apply In_ion_rules. exact He.
Qed.

Lemma count_ion_rules_same (x : Externals) (l : list string) (Z A : Z) :
  count_occ plan_eq_dec (ion_rules x l Z A) (GroundStateIon Z A, "ionStep")
  = count_occ string_dec l (GetIonName x Z A).
Proof.
  unfold ion_rules. induction l as [|s l IH]; [reflexivity|].
  cbn [flat_map]. rewrite count_occ_app, IH. cbn [count_occ].
  destruct (String.eqb_spec s (GetIonName x Z A)) as [Heq|Hne];
    destruct (string_dec s (GetIonName x Z A)) as [Heq'|Hne']; try contradiction.
  - rewrite count_occ_cons_eq by reflexivity. reflexivity.
  - reflexivity.
Qed.

Lemma count_ion_rules_other (x : Externals) (l : list string) (Z A Z' A' : Z) :
  (Z', A') <> (Z, A) ->
  count_occ plan_eq_dec (ion_rules x l Z' A') (GroundStateIon Z A, "ionStep") = 0%nat.
Proof.
  intros Hne. apply count_occ_not_In. intros Hin.
  apply In_ion_rules in Hin. destruct Hin as [Heq _].
  inversion Heq. subst. apply Hne. reflexivity.
Qed.

(** In a concatenation of blocks indexed by a duplicate-free list, an
    element that only one block can hold is counted in that block. *)
Lemma count_flat_map_unique {A B : Type} (dec : forall a b : B, {a = b} + {a <> b})
  (f : A -> list B) (l : list A) (a0 : A) (e : B) :
  NoDup l -> In a0 l ->
  (forall a, In a l -> a <> a0 -> count_occ dec (f a) e = 0%nat) ->
  count_occ dec (flat_map f l) e = count_occ dec (f a0) e.
Proof.
  intros Hnd. induction Hnd as [|a l Hnotin Hnd IH]; intros Hin Hother.
  - destruct Hin.
  - simpl. rewrite count_occ_app. destruct Hin as [->|Hin].
    + assert (Hrest : count_occ dec (flat_map f l) e = 0%nat).
      { clear IH. induction l as [|b l IHl]; [reflexivity|].
        simpl. rewrite count_occ_app.
        rewrite (Hother b).
        - apply IHl.
          + intros Hc. apply Hnotin. right. exact Hc.
          + inversion Hnd; assumption.
          + intros a Ha Hne. apply Hother; [|exact Hne].
            destruct Ha as [->|Ha]; [left; reflexivity|right; right; exact Ha].
        - right. left. reflexivity.
        - intros ->. apply Hnotin. left. reflexivity. }
      rewrite Hrest. lia.
    + rewrite (Hother a).
      * apply IH; [exact Hin|]. intros b Hb Hne. apply Hother; [right; exact Hb|exact Hne].
      * left. reflexivity.
      * intros ->. contradiction.
Qed.

Lemma count_ion_plan (x : Externals) (l : list string) (Z A : Z) :
  in_sweep Z A ->
  count_occ plan_eq_dec (ion_plan x l) (GroundStateIon Z A, "ionStep")
  = count_occ string_dec l (GetIonName x Z A).
Proof.
  intros [HZ HA]. unfold ion_plan.
  rewrite (count_flat_map_unique plan_eq_dec _ (range 1 40) Z).
  - rewrite (count_flat_map_unique plan_eq_dec _ (range (2 * Z) (3 * Z)) A).
    + apply count_ion_rules_same.
    + apply NoDup_range.
    + apply In_range. exact HA.
    + intros A' _ Hne. apply count_ion_rules_other. congruence.
  - apply NoDup_range.
  - apply In_range. exact HZ.
  - intros Z' _ Hne. apply count_occ_not_In. intros Hin.
    apply in_flat_map in Hin. destruct Hin as [A' [_ Hin]].
    apply In_ion_rules in Hin. destruct Hin as [Heq _].
    inversion Heq. subst. apply Hne. reflexivity.
Qed.

(** ** The shape of the traces of the three methods *)

Lemma bind_fst {A B : Type} (m : Run A) (a : A) (k : A -> Run B) :
  snd m = Returned a -> fst (bind m k) = fst m ++ fst (k a).
Proof. destruct m as [t o]. simpl. intros ->. destruct (k a); reflexivity. Qed.

Lemma bind_snd {A B : Type} (m : Run A) (a : A) (k : A -> Run B) :
  snd m = Returned a -> snd (bind m k) = snd (k a).
Proof. destruct m as [t o]. simpl. intros ->. destruct (k a); reflexivity. Qed.

Lemma for_each_snd {A : Type} (body : A -> Run unit) (l : list A) :
  (forall a, snd (body a) = Returned tt) -> snd (for_each l body) = Returned tt.
Proof.
  intros H. induction l as [|a l IH]; [reflexivity|].
  simpl. rewrite (bind_snd _ tt) by apply H. exact IH.
Qed.

Lemma for_each_fst {A : Type} (body : A -> Run unit) (l : list A) :
  (forall a, snd (body a) = Returned tt) ->
  fst (for_each l body) = flat_map (fun a => fst (body a)) l.
Proof.
  intros H. induction l as [|a l IH]; [reflexivity|].
  simpl. rewrite (bind_fst _ tt) by apply H. rewrite IH. reflexivity.
Qed.

Lemma construct_process_if_snd (p : option G4VPhysicsConstructor) :
  snd (construct_process_if p) = Returned tt.
Proof. destruct p; reflexivity. Qed.

Lemma construct_particle_if_snd (p : option G4VPhysicsConstructor) :
  snd (construct_particle_if p) = Returned tt.
Proof. destruct p; reflexivity. Qed.

Lemma decay_flag_snd (r : TRestGeant4PhysicsLists) (key : string) (Set_ : bool -> Event) :
  snd (decay_flag r key Set_) = Returned tt.
Proof.
  unfold decay_flag.
  repeat match goal with |- context [if ?c then _ else _] => destruct c end;
    reflexivity.
Qed.

Lemma step_limiter_for_snd (particleName : string) :
  snd (step_limiter_for particleName) = Returned tt.
Proof.
  unfold step_limiter_for.
  repeat match goal with |- context [if ?c then _ else _] => destruct c end;
    reflexivity.
Qed.

Lemma ion_sweep_snd (x : Externals) (r : TRestGeant4PhysicsLists) :
  snd (ion_sweep x r) = Returned tt.
Proof. rewrite ion_sweep_trace. reflexivity. Qed.

Lemma em_block_snd (x : Externals) (this : PhysicsList) :
  snd (match fEmPhysicsList this with
       | Some em =>
           emit (ConstructProcessOf em) ;;
           emit AddModels ;;
           emit (ApplyCommand "/process/em/fluo true") ;;
           emit (ApplyCommand "/process/em/auger true") ;;
           emit (ApplyCommand "/process/em/pixe true") ;;
           em_option x this "pixe" "false" ;;
           em_option x this "fluo" "true" ;;
           em_option x this "auger" "true"
       | None => ret tt
       end) = Returned tt.
Proof. destruct (fEmPhysicsList this); reflexivity. Qed.

Lemma em_block_fst (x : Externals) (this : PhysicsList) :
  fst (match fEmPhysicsList this with
       | Some em =>
           emit (ConstructProcessOf em) ;;
           emit AddModels ;;
           emit (ApplyCommand "/process/em/fluo true") ;;
           emit (ApplyCommand "/process/em/auger true") ;;
           emit (ApplyCommand "/process/em/pixe true") ;;
           em_option x this "pixe" "false" ;;
           em_option x this "fluo" "true" ;;
           em_option x this "auger" "true"
       | None => ret tt
       end) = em_process_trace x this.
Proof. unfold em_process_trace. destruct (fEmPhysicsList this); reflexivity. Qed.

Lemma decay_block_snd (r : TRestGeant4PhysicsLists) :
  snd (when (negb (FindPhysicsList r "G4RadioactiveDecay" =? 0))
         (emit NewRadioactiveDecay ;;
          emit (SetThresholdForVeryLongDecayTime CLHEP.nanosecond) ;;
          decay_flag r "ICM" SetICM ;;
          decay_flag r "ARM" SetARM)) = Returned tt.
Proof.
  unfold when. destruct (FindPhysicsList r "G4RadioactiveDecay" =? 0); simpl negb;
    cbv iota; [reflexivity|].
  rewrite !bind_emit. cbn [snd].
  rewrite (bind_snd _ tt) by apply decay_flag_snd. apply decay_flag_snd.
Qed.

Lemma decay_block_fst (r : TRestGeant4PhysicsLists) :
  fst (when (negb (FindPhysicsList r "G4RadioactiveDecay" =? 0))
         (emit NewRadioactiveDecay ;;
          emit (SetThresholdForVeryLongDecayTime CLHEP.nanosecond) ;;
          decay_flag r "ICM" SetICM ;;
          decay_flag r "ARM" SetARM)) = decay_options_trace r.
Proof.
  unfold when, decay_options_trace.
  destruct (FindPhysicsList r "G4RadioactiveDecay" =? 0); simpl negb;
    cbv iota; [reflexivity|].
  rewrite !bind_emit. cbn [fst].
  rewrite (bind_fst _ tt) by apply decay_flag_snd. reflexivity.
Qed.

Lemma present_process_fst (p : option G4VPhysicsConstructor) :
  fst (construct_process_if p) = map ConstructProcessOf (present p).
Proof. destruct p; reflexivity. Qed.

Lemma present_particle_fst (p : option G4VPhysicsConstructor) :
  fst (construct_particle_if p) = map ConstructParticleOf (present p).
Proof. destruct p; reflexivity. Qed.

Lemma flat_map_singleton {A B : Type} (f : A -> B) (l : list A) :
  flat_map (fun a => [f a]) l = map f l.
Proof. induction l as [|a l IH]; simpl; [reflexivity|]. rewrite IH. reflexivity. Qed.

(** [ConstructProcess] always returns, and its events are, in this
    order: transport, the electromagnetic block, decay, radioactive decay
    and the hadronic modules, the [G4RadioactiveDecay] options, the step
    limiters. *)
Lemma ConstructProcess_trace (x : Externals) (this : PhysicsList) :
  ConstructProcess x this =
  (AddTransportation ::
     em_process_trace x this ++
     map ConstructProcessOf
       (present (fDecPhysicsList this) ++ present (fRadDecPhysicsList this)
        ++ fHadronPhys this) ++
     decay_options_trace (fRestPhysicsLists this) ++
     step_limiter_trace x (fRestPhysicsLists this),
   Returned tt).
Proof.
  assert (Hh : forall a : G4VPhysicsConstructor,
             snd (emit (ConstructProcessOf a)) = Returned tt) by reflexivity.
  rewrite (surjective_pairing (ConstructProcess x this)).
  unfold ConstructProcess. cbv zeta. rewrite bind_emit. cbn [fst snd].
  f_equal.
  - rewrite (bind_fst _ tt) by apply em_block_snd. rewrite em_block_fst.
    rewrite (bind_fst _ tt) by apply construct_process_if_snd.
    rewrite (bind_fst _ tt) by apply construct_process_if_snd.
    rewrite (bind_fst _ tt) by (apply for_each_snd; exact Hh).
    rewrite (bind_fst _ tt) by apply decay_block_snd. rewrite decay_block_fst.
    rewrite (bind_fst _ tt) by (apply for_each_snd; apply step_limiter_for_snd).
    rewrite !present_process_fst.
    rewrite (for_each_fst _ (fHadronPhys this)) by exact Hh.
    cbn [fst emit]. rewrite flat_map_singleton.
    unfold step_limiter_trace. rewrite !map_app, <- ?app_assoc. reflexivity.
  - rewrite (bind_snd _ tt) by apply em_block_snd.
    rewrite (bind_snd _ tt) by apply construct_process_if_snd.
    rewrite (bind_snd _ tt) by apply construct_process_if_snd.
    rewrite (bind_snd _ tt) by (apply for_each_snd; exact Hh).
    rewrite (bind_snd _ tt) by apply decay_block_snd.
    rewrite (bind_snd _ tt) by (apply for_each_snd; apply step_limiter_for_snd).
    apply ion_sweep_snd.
Qed.

Lemma ConstructParticle_trace (this : PhysicsList) :
  ConstructParticle this =
  (GeantinoDefinition ::
     map ConstructParticleOf
       (present (fDecPhysicsList this) ++ present (fEmPhysicsList this)
        ++ present (fRadDecPhysicsList this) ++ fHadronPhys this),
   Returned tt).
Proof.
  assert (Hh : forall a : G4VPhysicsConstructor,
             snd (emit (ConstructParticleOf a)) = Returned tt) by reflexivity.
  rewrite (surjective_pairing (ConstructParticle this)).
  unfold ConstructParticle. rewrite bind_emit. cbn [fst snd].
  f_equal.
  - rewrite !(bind_fst _ tt) by apply construct_particle_if_snd.
    rewrite !present_particle_fst.
    rewrite (for_each_fst _ (fHadronPhys this)) by exact Hh.
    cbn [fst emit]. rewrite flat_map_singleton.
    rewrite !map_app, <- ?app_assoc. reflexivity.
  - rewrite !(bind_snd _ tt) by apply construct_particle_if_snd.
    apply for_each_snd. exact Hh.
Qed.


(** ** [InitializePhysicsLists], section by section *)

Lemma bind_assoc {A B C : Type} (m : Run A) (f : A -> Run B) (g : B -> Run C) :
  bind (bind m f) g = bind m (fun a => bind (f a) g).
Proof.
  destruct m as [t [a|status]]; [|reflexivity].
  simpl. destruct (f a) as [t1 [b|status1]]; [|reflexivity].
  simpl. destruct (g b) as [t2 o]. rewrite app_assoc. reflexivity.
Qed.

Lemma bind_ext {A B : Type} (m : Run A) (k1 k2 : A -> Run B) :
  (forall a, k1 a = k2 a) -> bind m k1 = bind m k2.
Proof.
  intros H. destruct m as [t [a|status]]; [|reflexivity].
  simpl. rewrite H. reflexivity.
Qed.

Lemma InitializePhysicsLists_sections (this : PhysicsList) :
  InitializePhysicsLists this =
  (let r := fRestPhysicsLists this in
   this1 <- init_decay r this ;;
   this2 <- init_radioactive_decay r this1 ;;
   st <- init_em r this2 ;;
   check_em r (snd st) ;;
   init_hadronic r (fst st)).
Proof.
  unfold InitializePhysicsLists. cbv zeta.
  apply bind_ext. intros this1. apply bind_ext. intros this2.
  unfold init_em.
  rewrite bind_assoc. apply bind_ext. intros st1.
  rewrite bind_assoc. apply bind_ext. intros st2.
  rewrite bind_assoc. apply bind_ext. intros st3.
  apply bind_ext. intros [this4 emCounter].
  cbn [fst snd]. unfold check_em. rewrite bind_assoc. reflexivity.
Qed.

Lemma init_decay_run (r : TRestGeant4PhysicsLists)
  (em : option G4VPhysicsConstructor) (emName : string)
  (rad : option G4VPhysicsConstructor) (hs : list G4VPhysicsConstructor) :
  init_decay r (members r em emName None rad hs) =
  (decay_section_trace r G4DecayPhysics,
   Returned (members r em emName (if_enabled r G4DecayPhysics) rad hs)).
Proof.
  unfold init_decay, decay_section_trace, if_enabled. cbn [className].
  destruct (enabled r "G4DecayPhysics"); [reflexivity|].
  destruct (level_geb (GetVerboseLevel r) REST_Debug); reflexivity.
Qed.

Lemma init_radioactive_decay_run (r : TRestGeant4PhysicsLists)
  (em : option G4VPhysicsConstructor) (emName : string)
  (dec : option G4VPhysicsConstructor) (hs : list G4VPhysicsConstructor) :
  init_radioactive_decay r (members r em emName dec None hs) =
  (decay_section_trace r G4RadioactiveDecayPhysics,
   Returned (members r em emName dec (if_enabled r G4RadioactiveDecayPhysics) hs)).
Proof.
  unfold init_radioactive_decay, decay_section_trace, if_enabled. cbn [className].
  destruct (enabled r "G4RadioactiveDecayPhysics"); [reflexivity|].
  destruct (level_geb (GetVerboseLevel r) REST_Debug); reflexivity.
Qed.

(** The four electromagnetic blocks instantiate the first enabled list
    and count all the enabled ones. *)
Lemma init_em_run (r : TRestGeant4PhysicsLists)
  (dec rad : option G4VPhysicsConstructor) (hs : list G4VPhysicsConstructor) :
  init_em r (members r None EmptyString dec rad hs) =
  (map New (firstn 1 (em_enabled r)),
   Returned (members r (hd_error (em_enabled r)) (em_name r) dec rad hs,
             Z.of_nat (length (em_enabled r)))).
Proof.
  unfold init_em, em_block, em_name, em_enabled, em_lists.
  cbn [filter className].
  destruct (enabled r "G4EmLivermorePhysics");
    destruct (enabled r "G4EmPenelopePhysics");
    destruct (enabled r "G4EmStandardPhysics_option3");
    destruct (enabled r "G4EmStandardPhysics_option4"); reflexivity.
Qed.

Lemma check_em_run (r : TRestGeant4PhysicsLists) (l : list G4VPhysicsConstructor) :
  check_em r (Z.of_nat (length l)) =
  match l with
  | [] => (no_em_warning r, Returned tt)
  | [_] => ([], Returned tt)
  | _ :: _ :: _ => ([cerr "PhysicsList: More than 1 EM PhysicsList enabled."], Exited 1)
  end.
Proof.
  unfold check_em, no_em_warning, when.
  destruct l as [|a [|b l]].
  - simpl. destruct (level_geb (GetVerboseLevel r) REST_Essential); reflexivity.
  - simpl. rewrite andb_false_r. reflexivity.
  - assert (H0 : (Z.of_nat (length (a :: b :: l)) =? 0) = false)
      by (apply Z.eqb_neq; simpl length; lia).
    assert (H1 : (1 <? Z.of_nat (length (a :: b :: l))) = true)
      by (apply Z.ltb_lt; simpl length; lia).
    rewrite H0, H1, andb_false_r. reflexivity.
Qed.

(** The five hadronic blocks append the enabled lists in block order. *)
Lemma init_hadronic_run (r : TRestGeant4PhysicsLists)
  (em : option G4VPhysicsConstructor) (emName : string)
  (dec rad : option G4VPhysicsConstructor) :
  init_hadronic r (members r em emName dec rad []) =
  (map New (hadron_enabled r)
   ++ [G4cout (String.append "Number of hadronic physics lists added "
                 (decimal (Z.of_nat (length (hadron_enabled r)))))],
   Returned (members r em emName dec rad (hadron_enabled r))).
Proof.
  unfold init_hadronic, hadron_block, hadron_enabled, hadron_lists.
  cbn [filter className].
  destruct (enabled r "G4HadronPhysicsQGSP_BIC_HP");
    destruct (enabled r "G4IonBinaryCascadePhysics");
    destruct (enabled r "G4HadronElasticPhysicsHP");
    destruct (enabled r "G4NeutronTrackingCut");
    destruct (enabled r "G4EmExtraPhysics"); reflexivity.
Qed.

(** ** The constructor *)

Lemma InitializePhysicsLists_run (r : TRestGeant4PhysicsLists) :
  InitializePhysicsLists (initial_members r) =
  match em_enabled r with
  | _ :: _ :: _ =>
      (decay_sections_trace r ++ map New (firstn 1 (em_enabled r))
       ++ [cerr "PhysicsList: More than 1 EM PhysicsList enabled."], Exited 1)
  | _ =>
      (decay_sections_trace r ++ map New (em_enabled r)
       ++ (match em_enabled r with [] => no_em_warning r | _ => [] end)
       ++ map New (hadron_enabled r)
       ++ [G4cout (String.append "Number of hadronic physics lists added "
                     (decimal (Z.of_nat (length (hadron_enabled r)))))],
       Returned (resolved r))
  end.
Proof.
  rewrite InitializePhysicsLists_sections. cbv zeta.
  change (initial_members r) with (members r None EmptyString None None []).
  change (fRestPhysicsLists (members r None EmptyString None None [])) with r.
  rewrite init_decay_run, bind_returned.
  rewrite init_radioactive_decay_run, bind_returned.
  rewrite init_em_run, bind_returned. cbn [fst snd].
  rewrite check_em_run. unfold resolved, em_name, decay_sections_trace.
  destruct (em_enabled r) as [|a [|b l]].
  - rewrite bind_returned, init_hadronic_run. cbn [fst snd firstn map hd_error].
    rewrite <- !app_assoc. reflexivity.
  - rewrite bind_returned, init_hadronic_run. cbn [fst snd firstn map hd_error].
    rewrite <- !app_assoc. reflexivity.
  - rewrite bind_exited. cbn [fst snd firstn map].
    rewrite <- !app_assoc. reflexivity.
Qed.

(** What the constructor does: it exits with status 1 when two or more
    electromagnetic lists are enabled, and returns the resolved object
    otherwise. *)
Lemma PhysicsList_ctor_run (r : TRestGeant4PhysicsLists) :
  PhysicsList_ctor r =
  match em_enabled r with
  | _ :: _ :: _ => (exited_trace r, Exited 1)
  | _ => (returned_trace r, Returned (resolved r))
  end.
Proof.
  unfold PhysicsList_ctor. cbv zeta. rewrite !bind_emit. cbn [fst snd].
  rewrite InitializePhysicsLists_run.
  change (fRestPhysicsLists (initial_members r)) with r.
  unfold exited_trace, returned_trace, ctor_prefix.
  destruct (em_enabled r) as [|a [|b l]]; reflexivity.
Qed.

Lemma em_enabled_cases (r : TRestGeant4PhysicsLists) :
  (2 <= length (em_enabled r))%nat <->
  exists a b l, em_enabled r = a :: b :: l.
Proof.
  destruct (em_enabled r) as [|a [|b l]]; simpl; split;
    try lia; try (intros [a' [b' [l' H]]]; discriminate).
  intros _. exists a, b, l. reflexivity.
Qed.

(** ** The step-limiter plan *)

Lemma limiters_map_process (l : list G4VPhysicsConstructor) :
  limiters (map ConstructProcessOf l) = [].
Proof. induction l as [|c l IH]; [reflexivity|exact IH]. Qed.

Lemma limiters_em_process_trace (x : Externals) (this : PhysicsList) :
  limiters (em_process_trace x this) = [].
Proof. unfold em_process_trace. destruct (fEmPhysicsList this); reflexivity. Qed.

Lemma limiters_decay_flag (r : TRestGeant4PhysicsLists) (key : string) (b : bool) :
  limiters (fst (decay_flag r key (if b then SetICM else SetARM))) = [].
Proof.
  unfold decay_flag.
  repeat match goal with |- context [if ?c then _ else _] => destruct c end;
    reflexivity.
Qed.

Lemma limiters_decay_options_trace (r : TRestGeant4PhysicsLists) :
  limiters (decay_options_trace r) = [].
Proof.
  unfold decay_options_trace.
  destruct (FindPhysicsList r "G4RadioactiveDecay" =? 0); [reflexivity|].
  cbn [limiters]. rewrite limiters_app.
  rewrite (limiters_decay_flag r "ICM" true), (limiters_decay_flag r "ARM" false).
  reflexivity.
Qed.

(** The plan [ConstructProcess] leaves: the limiters of the particle
    loop, then those of the ion loops. *)
Lemma limiters_ConstructProcess (x : Externals) (this : PhysicsList) :
  limiters (fst (ConstructProcess x this)) =
  fixed_name_rules (particleTable x)
  ++ ion_plan x (GetIonStepList (fRestPhysicsLists this)).
Proof.
  rewrite ConstructProcess_trace. cbn [fst limiters].
  rewrite !limiters_app, limiters_em_process_trace, limiters_map_process,
    limiters_decay_options_trace.
  unfold step_limiter_trace. rewrite limiters_app, limiters_ion_sweep.
  reflexivity.
Qed.

Lemma fixed_name_rules_flat_map (table : list string) :
  fixed_name_rules table = flat_map fixed_rule table.
Proof.
  unfold fixed_name_rules.
  rewrite for_each_fst by apply step_limiter_for_snd.
  apply limiters_flat_map.
Qed.

Lemma In_fixed_rule (n : string) (e : Particle * string) :
  In e (fixed_rule n) <->
  (n = "e-" /\ e = (ByName "e-", "e-Step")) \/
  (n = "e+" /\ e = (ByName "e+", "e+Step")) \/
  (n = "mu-" /\ e = (ByName "mu-", "mu-Step")) \/
  (n = "mu+" /\ e = (ByName "mu+", "mu+Step")).
Proof.
  unfold fixed_rule, step_limiter_for.
  destruct (String.eqb_spec n "e-") as [->|H1]; [simpl; intuition congruence|].
  destruct (String.eqb_spec n "e+") as [->|H2]; [simpl; intuition congruence|].
  destruct (String.eqb_spec n "mu-") as [->|H3]; [simpl; intuition congruence|].
  destruct (String.eqb_spec n "mu+") as [->|H4]; [simpl; intuition congruence|].
  simpl. intuition congruence.
Qed.

Lemma In_fixed_name_rules (table : list string) (e : Particle * string) :
  In e (fixed_name_rules table) <->
  exists n, In n table /\
            In n ["e-"; "e+"; "mu-"; "mu+"] /\ e = (ByName n, String.append n "Step").
Proof.
  rewrite fixed_name_rules_flat_map, in_flat_map. split.
  - intros [n [Hn He]]. exists n. split; [exact Hn|].
    apply In_fixed_rule in He.
    destruct He as [[-> ->]|[[-> ->]|[[-> ->]|[-> ->]]]]; simpl; auto 6.
  - intros [n [Hn [Hfour ->]]]. exists n. split; [exact Hn|].
    apply In_fixed_rule. simpl in Hfour.
    destruct Hfour as [<-|[<-|[<-|[<-|[]]]]]; simpl; auto 6.
Qed.

(** ** Order of the ion rules *)

Lemma StronglySorted_app {A : Type} (R : A -> A -> Prop) (l1 l2 : list A) :
  StronglySorted R l1 -> StronglySorted R l2 ->
  (forall a b, In a l1 -> In b l2 -> R a b) ->
  StronglySorted R (l1 ++ l2).
Proof.
  intros H1 H2 Hcross. induction H1 as [|a l1 Hs IH Hall]; simpl; [exact H2|].
  constructor.
  - apply IH. intros a' b Ha' Hb. apply Hcross; [right; exact Ha'|exact Hb].
  - apply Forall_app. split; [exact Hall|].
    apply Forall_forall. intros b Hb. apply Hcross; [left; reflexivity|exact Hb].
Qed.

(** Blocks laid out along a sorted index list, each block sorted, and
    every element of an earlier block below every element of a later
    one. *)
Lemma StronglySorted_flat_map {A B : Type} (Q : A -> A -> Prop) (R : B -> B -> Prop)
  (f : A -> list B) (l : list A) :
  StronglySorted Q l ->
  (forall a, StronglySorted R (f a)) ->
  (forall a a' b b', Q a a' -> In b (f a) -> In b' (f a') -> R b b') ->
  StronglySorted R (flat_map f l).
Proof.
  intros Hl Hblock Hcross. induction Hl as [|a l Hs IH Hall]; simpl.
  - constructor.
  - apply StronglySorted_app; [apply Hblock|exact IH|].
    intros b b' Hb Hb'. apply in_flat_map in Hb'. destruct Hb' as [a' [Ha' Hb']].
    rewrite Forall_forall in Hall. apply (Hcross a a'); auto.
Qed.

Lemma ions_of_app (p q : list (Particle * string)) :
  ions_of (p ++ q) = ions_of p ++ ions_of q.
Proof. unfold ions_of. apply flat_map_app. Qed.

Lemma ions_of_flat_map {A : Type} (f : A -> list (Particle * string)) (l : list A) :
  ions_of (flat_map f l) = flat_map (fun a => ions_of (f a)) l.
Proof.
  induction l as [|a l IH]; simpl; [reflexivity|].
  rewrite ions_of_app, IH. reflexivity.
Qed.

Lemma In_ions_of (plan : list (Particle * string)) (Z A : Z) :
  In (Z, A) (ions_of plan) <-> exists limiter, In (GroundStateIon Z A, limiter) plan.
Proof.
  unfold ions_of. rewrite in_flat_map. split.
  - intros [[[n|Z' A'] limiter] [Hin He]]; simpl in He; [destruct He|].
    destruct He as [He|[]]. inversion He. subst. exists limiter. exact Hin.
  - intros [limiter Hin]. exists (GroundStateIon Z A, limiter).
    split; [exact Hin|]. left. reflexivity.
Qed.

Lemma ions_of_ion_rules (x : Externals) (l : list string) (p : Z * Z) (Z A : Z) :
  In p (ions_of (ion_rules x l Z A)) -> p = (Z, A).
Proof.
  destruct p as [Z' A']. intros H. apply In_ions_of in H.
  destruct H as [limiter H]. apply In_ion_rules in H. destruct H as [H _].
  inversion H. reflexivity.
Qed.

Lemma constant_sorted (p : Z * Z) (l : list (Z * Z)) :
  (forall q, In q l -> q = p) -> StronglySorted ion_le l.
Proof.
  intros H. induction l as [|q l IH]; constructor.
  - apply IH. intros q' Hq'. apply H. right. exact Hq'.
  - apply Forall_forall. intros q' Hq'.
    rewrite (H q) by (left; reflexivity). rewrite (H q') by (right; exact Hq').
    right. split; [reflexivity|lia].
Qed.

(** The ion rules come by increasing [Z], then increasing [A]. *)
Lemma ion_plan_sorted (x : Externals) (l : list string) :
  StronglySorted ion_le (ions_of (ion_plan x l)).
Proof.
  unfold ion_plan. rewrite ions_of_flat_map.
  apply (StronglySorted_flat_map Z.lt); [apply range_increasing| |].
  - intros Z. rewrite ions_of_flat_map.
    apply (StronglySorted_flat_map Z.lt); [apply range_increasing| |].
    + intros A. apply (constant_sorted (Z, A)).
      intros q Hq. apply ions_of_ion_rules in Hq. exact Hq.
    + intros A A' p q HAA' Hp Hq.
      apply ions_of_ion_rules in Hp, Hq. subst p q. right. simpl. lia.
  - intros Z Z' p q HZZ' Hp Hq.
    rewrite ions_of_flat_map in Hp, Hq. apply in_flat_map in Hp, Hq.
    destruct Hp as [A [_ Hp]], Hq as [A' [_ Hq]].
    apply ions_of_ion_rules in Hp, Hq. subst p q. left. exact HZZ'.
Qed.

(* ================================================================== *)
(** * The ion sweep (C6, C10) and the order of the plan (C7)            *)
(* ================================================================== *)

Lemma ion_not_fixed (table : list string) (limiter : string) (Z A : Z) :
  ~ In (GroundStateIon Z A, limiter) (fixed_name_rules table).
Proof.
  intros H. apply In_fixed_name_rules in H. destruct H as [n [_ [_ H]]].
  discriminate H.
Qed.

(** C6.  The ion limiters of [ConstructProcess] are exactly those of the
    closed sweep: an entry for the ion [(Z, A)] is in the plan if and
    only if it is tagged "ionStep", [Z] is in [1, 40], [A] is in
    [2Z, 3Z] and the name of the ion is in the configured list.  No
    entry is ever made for [(6, 20)], whatever the list holds. *)
Theorem ion_sweep_is_closed (x : Externals) (this : PhysicsList) :
  let plan := limiters (fst (ConstructProcess x this)) in
  (forall (limiter : string) (Z A : Z),
     In (GroundStateIon Z A, limiter) plan <->
     limiter = "ionStep" /\ in_sweep Z A /\
     In (GetIonName x Z A) (GetIonStepList (fRestPhysicsLists this)))
  /\ (forall limiter : string, ~ In (GroundStateIon 6 20, limiter) plan).
Proof.
  cbv zeta. rewrite limiters_ConstructProcess.
  assert (Hiff : forall (limiter : string) (Z A : Z),
     In (GroundStateIon Z A, limiter)
        (fixed_name_rules (particleTable x)
         ++ ion_plan x (GetIonStepList (fRestPhysicsLists this))) <->
     limiter = "ionStep" /\ in_sweep Z A /\
     In (GetIonName x Z A) (GetIonStepList (fRestPhysicsLists this))).
  { intros limiter Z A. rewrite in_app_iff, In_ion_plan. split.
    - intros [H|[Z' [A' [Hs [He Hin]]]]].
      + exfalso. exact (ion_not_fixed _ _ _ _ H).
      + inversion He. subst. auto.
    - intros [-> [Hs Hin]]. right. exists Z, A. auto. }
  split; [exact Hiff|].
  intros limiter H. apply Hiff in H. destruct H as [_ [[_ HA] _]]. lia.
Qed.

(** The sweep on an example: C14 is found (twice, see C10), C20 is
    not. *)
Example ion_sweep_example :
  limiters (fst (ConstructProcess example_surroundings
                   (resolved (metadata_of ion_config)))) =
  [(ByName "e-", "e-Step"); (ByName "e+", "e+Step");
   (ByName "mu-", "mu-Step"); (ByName "mu+", "mu+Step");
   (GroundStateIon 6 14, "ionStep"); (GroundStateIon 6 14, "ionStep")]
  /\ GetIonName example_surroundings 6 20 = "C20"
  /\ In "C20" (GetIonStepList (metadata_of ion_config)).
Proof. split; [vm_compute; reflexivity|]. split; [reflexivity|]. simpl. auto. Qed.

(** C10.  For a pair [(Z, A)] of the window, the number of "ionStep"
    limiters attached to the ion is the number of elements of the
    configured list equal to the ion's name: a name listed k times gives
    k attachments. *)
Theorem ion_attached_per_occurrence (x : Externals) (this : PhysicsList) (Z A : Z) :
  in_sweep Z A ->
  count_occ plan_eq_dec (limiters (fst (ConstructProcess x this)))
            (GroundStateIon Z A, "ionStep")
  = count_occ string_dec (GetIonStepList (fRestPhysicsLists this))
              (GetIonName x Z A).
Proof.
  intros Hs. rewrite limiters_ConstructProcess, count_occ_app.
  rewrite (proj1 (count_occ_not_In plan_eq_dec _ _)
             (ion_not_fixed (particleTable x) "ionStep" Z A)).
  apply count_ion_plan. exact Hs.
Qed.

Lemma ion_attached_per_occurrence_witness :
  in_sweep 6 14 /\
  count_occ plan_eq_dec
    (limiters (fst (ConstructProcess example_surroundings
                      (resolved (metadata_of ion_config)))))
    (GroundStateIon 6 14, "ionStep") = 2%nat.
Proof.
  assert (Hs : in_sweep 6 14) by (unfold in_sweep; lia).
  split; [exact Hs|].
  rewrite (ion_attached_per_occurrence example_surroundings
             (resolved (metadata_of ion_config)) 6 14 Hs).
  reflexivity.
Defined.

(** C7.  Whatever the configuration, the plan of [ConstructProcess] is
    the fixed-name rules followed by the ion rules.  The fixed-name
    rules are computed from the particle table alone: each of e-, e+,
    mu-, mu+ has its entry ("e-Step", "e+Step", "mu-Step", "mu+Step")
    exactly when the table holds it.  The ion rules follow all of them,
    by increasing Z, then increasing A. *)
Theorem plan_order (x : Externals) (this : PhysicsList) :
  let plan := limiters (fst (ConstructProcess x this)) in
  (In (ByName "e-", "e-Step") plan <-> In "e-" (particleTable x))
  /\ (In (ByName "e+", "e+Step") plan <-> In "e+" (particleTable x))
  /\ (In (ByName "mu-", "mu-Step") plan <-> In "mu-" (particleTable x))
  /\ (In (ByName "mu+", "mu+Step") plan <-> In "mu+" (particleTable x))
  /\ exists ions,
       plan = fixed_name_rules (particleTable x) ++ ions
       /\ Forall (fun e => exists n, e = (ByName n, String.append n "Step"))
                 (fixed_name_rules (particleTable x))
       /\ Forall (fun e => exists Z A, e = (GroundStateIon Z A, "ionStep")) ions
       /\ StronglySorted ion_le (ions_of ions).
Proof.
  cbv zeta. rewrite limiters_ConstructProcess.
  assert (Hfixed : forall n, In n ["e-"; "e+"; "mu-"; "mu+"] ->
     (In (ByName n, String.append n "Step")
         (fixed_name_rules (particleTable x)
          ++ ion_plan x (GetIonStepList (fRestPhysicsLists this)))
      <-> In n (particleTable x))).
  { intros n Hn. rewrite in_app_iff, In_fixed_name_rules, In_ion_plan. split.
    - intros [[n' [Hin [_ He]]]|[Z [A [_ [He _]]]]]; [|discriminate He].
      inversion He. subst. exact Hin.
    - intros Hin. left. exists n. auto. }
  repeat split; try (apply Hfixed; simpl; auto 6); try (apply Hfixed; assumption).
  exists (ion_plan x (GetIonStepList (fRestPhysicsLists this))).
  repeat split.
  - apply Forall_forall. intros e He. apply In_fixed_name_rules in He.
    destruct He as [n [_ [_ ->]]]. exists n. reflexivity.
  - apply Forall_forall. intros e He. apply In_ion_plan in He.
    destruct He as [Z [A [_ [-> _]]]]. exists Z, A. reflexivity.
  - apply ion_plan_sorted.
Qed.

(* ================================================================== *)
(** * Resolution: the constructor (C1, C2, C3, C4)                      *)
(* ================================================================== *)

(** The run, from the constructor on. *)
Lemma assembly_run (x : Externals) (r : TRestGeant4PhysicsLists) :
  assembly x r =
  match em_enabled r with
  | _ :: _ :: _ => (exited_trace r, Exited 1)
  | _ =>
      (returned_trace r
       ++ fst (ConstructParticle (resolved r))
       ++ fst (ConstructProcess x (resolved r))
       ++ fst (SetCuts (resolved r)), Returned tt)
  end.
Proof.
  unfold assembly. rewrite PhysicsList_ctor_run.
  assert (Hret :
    bind (returned_trace r, Returned (resolved r))
         (fun this => ConstructParticle this ;; ConstructProcess x this ;; SetCuts this)
    = (returned_trace r
       ++ fst (ConstructParticle (resolved r))
       ++ fst (ConstructProcess x (resolved r))
       ++ fst (SetCuts (resolved r)), Returned tt)).
  { rewrite bind_returned. rewrite (surjective_pairing (_ ;; _)).
    rewrite (bind_fst _ tt) by (rewrite ConstructParticle_trace; reflexivity).
    rewrite (bind_snd _ tt) by (rewrite ConstructParticle_trace; reflexivity).
    rewrite (bind_fst _ tt) by (rewrite ConstructProcess_trace; reflexivity).
    rewrite (bind_snd _ tt) by (rewrite ConstructProcess_trace; reflexivity).
    reflexivity. }
  destruct (em_enabled r) as [|a [|b l]]; [exact Hret|exact Hret|].
  apply bind_exited.
Qed.

Lemma decay_section_trace_quiet (r : TRestGeant4PhysicsLists)
  (C : G4VPhysicsConstructor) (e : Event) :
  In e (decay_section_trace r C) -> (exists c, e = New c) \/ (exists m, e = G4cout m).
Proof.
  unfold decay_section_trace.
  destruct (enabled r (className C));
    [|destruct (level_geb (GetVerboseLevel r) REST_Debug)]; simpl;
    intros H; try (destruct H as [<-|[]]; eauto); destruct H.
Qed.

(** Every event of a constructor that exits is one of these. *)
Lemma exited_trace_events (r : TRestGeant4PhysicsLists) (e : Event) :
  In e (exited_trace r) ->
  In e (ctor_prefix r) \/ (exists c, e = New c) \/ (exists m, e = G4cout m)
  \/ e = cerr "PhysicsList: More than 1 EM PhysicsList enabled.".
Proof.
  unfold exited_trace, decay_sections_trace. rewrite !in_app_iff.
  intros [H|[[H|H]|[H|H]]].
  - left. exact H.
  - right. apply decay_section_trace_quiet in H. tauto.
  - right. apply decay_section_trace_quiet in H. tauto.
  - right. left. apply in_map_iff in H. destruct H as [c [<- _]]. eauto.
  - right. right. right. destruct H as [<-|[]]. reflexivity.
Qed.

Lemma stderr_of_app (t1 t2 : list Event) :
  stderr_of (t1 ++ t2) = stderr_of t1 ++ stderr_of t2.
Proof.
  induction t1 as [|e t1 IH]; simpl; [reflexivity|].
  destruct e; simpl; rewrite ?IH; reflexivity.
Qed.

Lemma stderr_of_none (t : list Event) :
  (forall m, ~ In (cerr m) t) -> stderr_of t = [].
Proof.
  induction t as [|e t IH]; intros H; [reflexivity|].
  destruct e; simpl;
    try (apply IH; intros m Hin; apply (H m); right; exact Hin).
  exfalso. apply (H msg). left. reflexivity.
Qed.

Lemma stderr_of_exited_trace (r : TRestGeant4PhysicsLists) :
  stderr_of (exited_trace r) = ["PhysicsList: More than 1 EM PhysicsList enabled."].
Proof.
  unfold exited_trace, decay_sections_trace.
  rewrite !stderr_of_app.
  rewrite (stderr_of_none (decay_section_trace r G4DecayPhysics)).
  - rewrite (stderr_of_none (decay_section_trace r G4RadioactiveDecayPhysics)).
    + rewrite (stderr_of_none (map New _)); [reflexivity|].
      intros m H. apply in_map_iff in H. destruct H as [c [H _]]. discriminate H.
    + intros m H. apply decay_section_trace_quiet in H.
      destruct H as [[c H]|[m' H]]; discriminate H.
  - intros m H. apply decay_section_trace_quiet in H.
    destruct H as [[c H]|[m' H]]; discriminate H.
Qed.

(** C1, as the code has it.  When two or more of the four
    electromagnetic lists are enabled, the run ends in the constructor
    with exit status 1.  The error stream receives one fixed line, which
    names no module.  Nothing of assembly execution takes place: no
    particle or process construction, no step limiter, no cut.  The
    calls made into the engine before the exit are those of the
    constructor: the four unit definitions, the loss-table manager, the
    energy range, and the instantiation of the enabled decay modules
    and of the first enabled electromagnetic list. *)
Theorem em_exclusivity_is_fatal (x : Externals) (r : TRestGeant4PhysicsLists) :
  (2 <= length (em_enabled r))%nat ->
  snd (assembly x r) = Exited 1
  /\ stderr_of (fst (assembly x r))
     = ["PhysicsList: More than 1 EM PhysicsList enabled."]
  /\ (forall e, In e (fst (assembly x r)) -> is_execution e = false)
  /\ fst (assembly x r)
     = ctor_prefix r ++ decay_sections_trace r
       ++ map New (firstn 1 (em_enabled r))
       ++ [cerr "PhysicsList: More than 1 EM PhysicsList enabled."].
Proof.
  intros H. apply em_enabled_cases in H. destruct H as [a [b [l H]]].
  rewrite assembly_run, H. rewrite <- H. cbn [fst snd].
  split; [reflexivity|]. split; [apply stderr_of_exited_trace|].
  split; [|reflexivity].
  intros e He. apply exited_trace_events in He.
  destruct He as [He|[[c ->]|[[m ->]| ->]]]; try reflexivity.
  unfold ctor_prefix in He. simpl in He.
  repeat (destruct He as [<-|He]; [reflexivity|]). destruct He.
Qed.

Lemma em_exclusivity_is_fatal_witness :
  (2 <= length (em_enabled (metadata_of two_em_config)))%nat
  /\ snd (assembly example_surroundings (metadata_of two_em_config)) = Exited 1.
Proof.
  assert (H : (2 <= length (em_enabled (metadata_of two_em_config)))%nat)
    by (vm_compute; lia).
  split; [exact H|].
  exact (proj1 (em_exclusivity_is_fatal example_surroundings
                  (metadata_of two_em_config) H)).
Defined.

(** C1, as stated, fails.  With G4EmLivermorePhysics and
    G4EmPenelopePhysics both enabled, the only line on the error stream
    names neither of them, and the engine has been called before the
    exit (energy range set, G4EmLivermorePhysics instantiated). *)
Lemma em_diagnostic_names_no_module :
  let t := fst (assembly example_surroundings (metadata_of two_em_config)) in
  em_enabled (metadata_of two_em_config) = [G4EmLivermorePhysics; G4EmPenelopePhysics]
  /\ snd (assembly example_surroundings (metadata_of two_em_config)) = Exited 1
  /\ ~ (exists msg, In msg (stderr_of t)
                    /\ (occurs_in "G4EmLivermorePhysics" msg = true
                        \/ occurs_in "G4EmPenelopePhysics" msg = true))
  /\ ~ (forall e, In e t -> is_engine_call e = false).
Proof.
  cbv zeta. split; [reflexivity|]. split; [reflexivity|]. split.
  - intros [msg [Hin Hocc]]. vm_compute in Hin.
    destruct Hin as [<-|[]]. vm_compute in Hocc.
    destruct Hocc; discriminate.
  - intros H. specialize (H (New G4EmLivermorePhysics)).
    assert (Hin : In (New G4EmLivermorePhysics)
              (fst (assembly example_surroundings (metadata_of two_em_config)))).
    { vm_compute. auto 10. }
    specialize (H Hin). discriminate H.
Qed.

(** Every event of a constructor that returns is one of these. *)
Lemma returned_trace_events (r : TRestGeant4PhysicsLists) (e : Event) :
  In e (returned_trace r) ->
  In e (ctor_prefix r) \/ (exists c, e = New c) \/ (exists m, e = G4cout m)
  \/ (em_enabled r = [] /\ In e (no_em_warning r)).
Proof.
  unfold returned_trace, decay_sections_trace. rewrite !in_app_iff.
  intros [H|[[H|H]|[H|[H|[H|H]]]]].
  - left. exact H.
  - right. apply decay_section_trace_quiet in H. tauto.
  - right. apply decay_section_trace_quiet in H. tauto.
  - right. left. apply in_map_iff in H. destruct H as [c [<- _]]. eauto.
  - right. right. right. destruct (em_enabled r); [auto|destruct H].
  - right. left. apply in_map_iff in H. destruct H as [c [<- _]]. eauto.
  - right. right. left. destruct H as [<-|[]]. eauto.
Qed.

Lemma In_warning_returned_trace (r : TRestGeant4PhysicsLists) (m : string) :
  In (RESTWarning m) (returned_trace r) <->
  em_enabled r = [] /\ In (RESTWarning m) (no_em_warning r).
Proof.
  split.
  - intros H. apply returned_trace_events in H.
    destruct H as [H|[[c H]|[[m' H]|H]]]; try discriminate H; [|exact H].
    exfalso. not_among H.
  - intros [E H]. unfold returned_trace. rewrite E, !in_app_iff. auto 6.
Qed.

Lemma stderr_of_returned_trace (r : TRestGeant4PhysicsLists) :
  stderr_of (returned_trace r) = [].
Proof.
  apply stderr_of_none. intros m H. apply returned_trace_events in H.
  destruct H as [H|[[c H]|[[m' H]|[_ H]]]]; try discriminate H.
  - not_among H.
  - unfold no_em_warning in H.
    destruct (level_geb (GetVerboseLevel r) REST_Essential); not_among H.
Qed.

(** C2.  With no electromagnetic list enabled the constructor returns,
    the electromagnetic slot of the object is null, the warning "No EM
    physics list has been enabled" is emitted if and only if the
    verbosity level is at least [REST_Essential], and the run goes on to
    particle construction, process construction and cuts, and
    returns. *)
Theorem no_em_is_a_warning (x : Externals) (r : TRestGeant4PhysicsLists) :
  em_enabled r = [] ->
  exists t this,
    PhysicsList_ctor r = (t, Returned this)
    /\ fEmPhysicsList this = None
    /\ (In (RESTWarning "PhysicsList: No EM physics list has been enabled") t
        <-> level_geb (GetVerboseLevel r) REST_Essential = true)
    /\ assembly x r
       = (t ++ fst (ConstructParticle this) ++ fst (ConstructProcess x this)
            ++ fst (SetCuts this), Returned tt).
Proof.
  intros E. exists (returned_trace r), (resolved r).
  rewrite PhysicsList_ctor_run, assembly_run, E.
  split; [reflexivity|]. split; [simpl; rewrite E; reflexivity|].
  split; [|reflexivity].
  rewrite In_warning_returned_trace. unfold no_em_warning.
  destruct (level_geb (GetVerboseLevel r) REST_Essential); simpl.
  - split; [reflexivity|]. auto.
  - split; [intros [_ []]|discriminate].
Qed.

Lemma no_em_is_a_warning_witness :
  em_enabled (metadata_of no_em_config) = []
  /\ exists t this,
       PhysicsList_ctor (metadata_of no_em_config) = (t, Returned this)
       /\ fEmPhysicsList this = None.
Proof.
  assert (E : em_enabled (metadata_of no_em_config) = []) by reflexivity.
  split; [exact E|].
  destruct (no_em_is_a_warning example_surroundings (metadata_of no_em_config) E)
    as [t [this [Hrun [Hnull _]]]].
  exists t, this. split; [exact Hrun|exact Hnull].
Defined.

(* ------------------------------------------------------------------ *)

(** C3, as the code has it.  When the constructor returns, the hadronic
    sequence is made of the enabled hadronic lists in the fixed order of
    the five blocks (G4HadronPhysicsQGSP_BIC_HP,
    G4IonBinaryCascadePhysics, G4HadronElasticPhysicsHP,
    G4NeutronTrackingCut, G4EmExtraPhysics), each at most once. *)
Theorem hadronic_sequence_is_fixed_order (r : TRestGeant4PhysicsLists)
  (t : list Event) (this : PhysicsList) :
  PhysicsList_ctor r = (t, Returned this) ->
  fHadronPhys this = filter (fun c => enabled r (className c)) hadron_lists
  /\ NoDup (fHadronPhys this).
Proof.
  rewrite PhysicsList_ctor_run. intros H.
  assert (Hthis : this = resolved r).
  { destruct (em_enabled r) as [|a [|b l]]; inversion H; reflexivity. }
  subst this. split; [reflexivity|].
  apply NoDup_filter. unfold hadron_lists.
  repeat (constructor; [simpl; intuition discriminate|]). constructor.
Qed.

Lemma hadronic_sequence_is_fixed_order_witness :
  fHadronPhys (resolved (metadata_of example_config))
  = [G4HadronPhysicsQGSP_BIC_HP; G4IonBinaryCascadePhysics;
     G4HadronElasticPhysicsHP; G4NeutronTrackingCut; G4EmExtraPhysics].
Proof.
  assert (H : PhysicsList_ctor (metadata_of example_config)
              = (returned_trace (metadata_of example_config),
                 Returned (resolved (metadata_of example_config))))
    by reflexivity.
  rewrite (proj1 (hadronic_sequence_is_fixed_order _ _ _ H)).
  reflexivity.
Defined.

(** C3, as stated, fails.  For the declared hadronic names
    [G4NeutronTrackingCut, G4HadronElasticPhysicsHP,
    G4NeutronTrackingCut] the constructor returns with the sequence
    [G4HadronElasticPhysicsHP, G4NeutronTrackingCut]: the duplicate is
    not kept and the declaration order is not followed. *)
Lemma repeated_hadron_not_kept :
  map fst (modules repeated_hadron_config)
  = ["G4NeutronTrackingCut"; "G4HadronElasticPhysicsHP"; "G4NeutronTrackingCut"]
  /\ exists t this,
       PhysicsList_ctor (metadata_of repeated_hadron_config) = (t, Returned this)
       /\ map className (fHadronPhys this)
          = ["G4HadronElasticPhysicsHP"; "G4NeutronTrackingCut"]
       /\ map className (fHadronPhys this)
          <> map fst (modules repeated_hadron_config).
Proof.
  split; [reflexivity|].
  exists (returned_trace (metadata_of repeated_hadron_config)),
         (resolved (metadata_of repeated_hadron_config)).
  split; [apply PhysicsList_ctor_run|].
  split; [reflexivity|]. vm_compute. discriminate.
Qed.

(* ------------------------------------------------------------------ *)

(** C4, as the code has it.  Whatever the energy window of the
    configuration, the constructor hands its two bounds, each multiplied
    by keV, to [SetEnergyRange] as its sixth call, without testing them.
    Whether the constructor returns or exits depends on the number of
    enabled electromagnetic lists only; when it returns, nothing has
    been written to the error stream. *)
Theorem energy_window_is_forwarded (r : TRestGeant4PhysicsLists) :
  nth_error (fst (PhysicsList_ctor r)) 5
  = Some (SetEnergyRange (GetMinimumEnergyProductionCuts r * CLHEP.keV)%float
                         (GetMaximumEnergyProductionCuts r * CLHEP.keV)%float)
  /\ match em_enabled r with
     | _ :: _ :: _ => snd (PhysicsList_ctor r) = Exited 1
     | _ => snd (PhysicsList_ctor r) = Returned (resolved r)
            /\ stderr_of (fst (PhysicsList_ctor r)) = []
     end.
Proof.
  rewrite PhysicsList_ctor_run. split.
  - destruct (em_enabled r) as [|a [|b l]]; reflexivity.
  - destruct (em_enabled r) as [|a [|b l]]; cbn [fst snd];
      try reflexivity; (split; [reflexivity|apply stderr_of_returned_trace]).
Qed.

(** C4, as stated, fails.  With the window (10 keV, 1 keV), which is
    inverted, the constructor returns, the error stream is empty, the
    inverted bounds have been passed to the engine, and the run goes on
    to its end. *)
Lemma inverted_window_is_accepted :
  let r := metadata_of inverted_window_config in
  ltb (GetMaximumEnergyProductionCuts r) (GetMinimumEnergyProductionCuts r) = true
  /\ snd (PhysicsList_ctor r) = Returned (resolved r)
  /\ stderr_of (fst (PhysicsList_ctor r)) = []
  /\ In (SetEnergyRange (10 * CLHEP.keV)%float (1 * CLHEP.keV)%float)
        (fst (PhysicsList_ctor r))
  /\ snd (assembly example_surroundings r) = Returned tt.
Proof.
  cbv zeta. split; [reflexivity|]. split; [reflexivity|]. split; [reflexivity|].
  split; [|reflexivity]. vm_compute. auto 10.
Qed.

(* ================================================================== *)
(** * Cuts (C5)                                                         *)
(* ================================================================== *)

Lemma ctor_returns_resolved (r : TRestGeant4PhysicsLists) (t : list Event)
  (this : PhysicsList) :
  PhysicsList_ctor r = (t, Returned this) -> this = resolved r.
Proof.
  rewrite PhysicsList_ctor_run. intros H.
  destruct (em_enabled r) as [|a [|b l]]; inversion H; reflexivity.
Qed.





(* ================================================================== *)
(** * Assembly execution (C9) and the radioactive-decay options (C8)    *)
(* ================================================================== *)

Lemma em_setting_quiet (key : string) (t : list Event) :
  (forall c, ~ In (ApplyCommand c) t) -> em_setting key t = None.
Proof.
  induction t as [|e t IH]; intros H; [reflexivity|].
  simpl. rewrite IH by (intros c Hc; apply (H c); right; exact Hc).
  destruct e; try reflexivity.
  exfalso. apply (H command). left. reflexivity.
Qed.

Lemma em_setting_app_quiet (key : string) (t1 t2 : list Event) :
  (forall c, ~ In (ApplyCommand c) t2) ->
  em_setting key (t1 ++ t2) = em_setting key t1.
Proof.
  intros H. induction t1 as [|e t1 IH]; simpl.
  - apply em_setting_quiet. exact H.
  - rewrite IH. reflexivity.
Qed.

Lemma decay_flag_events (r : TRestGeant4PhysicsLists) (key : string)
  (Set_ : bool -> Event) (e : Event) :
  In e (fst (decay_flag r key Set_)) ->
  (exists b, e = Set_ b) \/ (exists m, e = RESTWarning m).
Proof.
  unfold decay_flag.
  repeat match goal with |- context [if ?c then _ else _] => destruct c end;
    simpl; intros H; try (destruct H as [<-|[]]; eauto); destruct H.
Qed.

Lemma step_limiter_trace_events (x : Externals) (r : TRestGeant4PhysicsLists)
  (e : Event) :
  In e (step_limiter_trace x r) ->
  (exists p s, e = AddDiscreteProcess p s) \/ (exists m, e = cout m).
Proof.
  unfold step_limiter_trace. rewrite in_app_iff. intros [H|H].
  - rewrite for_each_fst in H by apply step_limiter_for_snd.
    apply in_flat_map in H. destruct H as [n [_ H]].
    unfold step_limiter_for in H.
    repeat match type of H with context [if ?c then _ else _] => destruct c end;
      simpl in H; repeat (destruct H as [<-|H]; [eauto|]); destruct H.
  - rewrite ion_sweep_trace in H. cbn [fst] in H.
    apply in_flat_map in H. destruct H as [Z [_ H]].
    apply in_flat_map in H. destruct H as [A [_ H]].
    apply in_flat_map in H. destruct H as [n [_ H]].
    unfold ion_step, when in H.
    destruct (nth n (GetIonStepList r) EmptyString =? GetIonName x Z A)%string;
      simpl in H; repeat (destruct H as [<-|H]; [eauto|]); destruct H.
Qed.

(** The events of [ConstructProcess] after the hadronic modules. *)
Lemma tail_events (x : Externals) (r : TRestGeant4PhysicsLists) (e : Event) :
  In e (decay_options_trace r ++ step_limiter_trace x r) ->
  e = NewRadioactiveDecay
  \/ e = SetThresholdForVeryLongDecayTime CLHEP.nanosecond
  \/ (exists b, e = SetICM b) \/ (exists b, e = SetARM b)
  \/ (exists m, e = RESTWarning m)
  \/ (exists p s, e = AddDiscreteProcess p s) \/ (exists m, e = cout m).
Proof.
  rewrite in_app_iff. intros [H|H].
  - unfold decay_options_trace in H.
    destruct (FindPhysicsList r "G4RadioactiveDecay" =? 0); [destruct H|].
    destruct H as [<-|[<-|H]]; auto.
    apply in_app_iff in H. destruct H as [H|H];
      apply decay_flag_events in H; destruct H as [[b ->]|[m ->]]; eauto 8.
  - apply step_limiter_trace_events in H. destruct H as [H|H]; auto 8.
Qed.

Lemma em_settings (x : Externals) (this : PhysicsList) (em : G4VPhysicsConstructor) :
  fEmPhysicsList this = Some em ->
  let value key dflt :=
    Some (true_false (StringToBool x
            (GetPhysicsListOptionValue (fRestPhysicsLists this)
               (fEmPhysicsListName this) key dflt))) in
  em_setting "fluo" (em_process_trace x this) = value "fluo" "true"
  /\ em_setting "auger" (em_process_trace x this) = value "auger" "true"
  /\ em_setting "pixe" (em_process_trace x this) = value "pixe" "false".
Proof.
  intros E. cbv zeta. unfold em_process_trace, em_option. rewrite E.
  destruct (StringToBool x (GetPhysicsListOptionValue (fRestPhysicsLists this)
                              (fEmPhysicsListName this) "pixe" "false"));
    destruct (StringToBool x (GetPhysicsListOptionValue (fRestPhysicsLists this)
                                (fEmPhysicsListName this) "fluo" "true"));
    destruct (StringToBool x (GetPhysicsListOptionValue (fRestPhysicsLists this)
                                (fEmPhysicsListName this) "auger" "true"));
    repeat split; reflexivity.
Qed.

(** The electromagnetic settings the whole of [ConstructProcess] leaves
    are those of its electromagnetic block. *)
Lemma em_setting_ConstructProcess (x : Externals) (this : PhysicsList) (key : string) :
  em_setting key (fst (ConstructProcess x this))
  = em_setting key (em_process_trace x this).
Proof.
  rewrite ConstructProcess_trace. cbn [fst].
  change (AddTransportation :: ?t) with ([AddTransportation] ++ t).
  rewrite app_assoc. rewrite em_setting_app_quiet.
  - simpl. destruct (em_setting key (em_process_trace x this)); reflexivity.
  - intros c H. rewrite in_app_iff in H. destruct H as [H|H].
    + apply in_map_iff in H. destruct H as [c' [H _]]. discriminate H.
    + apply tail_events in H.
      destruct H as [H|[H|[[b H]|[[b H]|[[m H]|[[p [s H]]|[m H]]]]]]];
        discriminate H.
Qed.

(** C9.  Phase 1, [ConstructParticle]: after the geantino, the present
    modules construct their particles in the order decay,
    electromagnetic, radioactive decay, then the hadronic sequence in
    its order.  Phase 2, [ConstructProcess]: transport first, whatever
    the object; then the electromagnetic module and its options; then
    decay, radioactive decay and the hadronic sequence in its order;
    the step limiters come only after all of them.  The fluorescence,
    Auger and PIXE settings left in the engine are each read from their
    own option key, with "true", "true" and "false" as the value asked
    for when the key is absent. *)
Theorem two_phase_order (x : Externals) (this : PhysicsList) :
  let r := fRestPhysicsLists this in
  let option_ key dflt :=
    Some (true_false (StringToBool x
            (GetPhysicsListOptionValue r (fEmPhysicsListName this) key dflt))) in
  let modules_end :=
    AddTransportation :: em_process_trace x this
      ++ map ConstructProcessOf
           (present (fDecPhysicsList this) ++ present (fRadDecPhysicsList this)
            ++ fHadronPhys this) in
  ConstructParticle this
  = (GeantinoDefinition ::
       map ConstructParticleOf
         (present (fDecPhysicsList this) ++ present (fEmPhysicsList this)
          ++ present (fRadDecPhysicsList this) ++ fHadronPhys this),
     Returned tt)
  /\ ConstructProcess x this
     = (modules_end ++ decay_options_trace r ++ step_limiter_trace x r, Returned tt)
  /\ limiters modules_end = []
  /\ limiters (decay_options_trace r ++ step_limiter_trace x r)
     = limiters (fst (ConstructProcess x this))
  /\ (forall c, ~ In (ConstructProcessOf c)
                  (decay_options_trace r ++ step_limiter_trace x r))
  /\ match fEmPhysicsList this with
     | Some em =>
         (exists options,
            em_process_trace x this = ConstructProcessOf em :: AddModels :: options
            /\ forall c, ~ In (ConstructProcessOf c) options)
         /\ em_setting "fluo" (fst (ConstructProcess x this)) = option_ "fluo" "true"
         /\ em_setting "auger" (fst (ConstructProcess x this)) = option_ "auger" "true"
         /\ em_setting "pixe" (fst (ConstructProcess x this)) = option_ "pixe" "false"
         /\ (StringToBool x "true" = true -> StringToBool x "false" = false ->
             (forall key dflt,
                GetPhysicsListOptionValue r (fEmPhysicsListName this) key dflt = dflt) ->
             em_setting "fluo" (fst (ConstructProcess x this)) = Some "true"
             /\ em_setting "auger" (fst (ConstructProcess x this)) = Some "true"
             /\ em_setting "pixe" (fst (ConstructProcess x this)) = Some "false")
     | None =>
         em_process_trace x this = []
         /\ forall key, em_setting key (fst (ConstructProcess x this)) = None
     end.
Proof.
  cbv zeta.
  split; [apply ConstructParticle_trace|].
  split; [rewrite ConstructProcess_trace; cbn [app]; rewrite <- !app_assoc;
          reflexivity|].
  split.
  { cbn [limiters]. rewrite limiters_app, limiters_em_process_trace,
      limiters_map_process. reflexivity. }
  split.
  { rewrite limiters_ConstructProcess, limiters_app, limiters_decay_options_trace.
    unfold step_limiter_trace. rewrite limiters_app, limiters_ion_sweep.
    reflexivity. }
  split.
  { intros c H. apply tail_events in H.
    destruct H as [H|[H|[[b H]|[[b H]|[[m H]|[[p [s H]]|[m H]]]]]]];
      discriminate H. }
  destruct (fEmPhysicsList this) as [em|] eqn:E.
  - destruct (em_settings x this em E) as [Hf [Ha Hp]].
    rewrite !em_setting_ConstructProcess.
    split.
    { unfold em_process_trace. rewrite E. eexists. split; [reflexivity|].
      intros c H. not_among H. }
    split; [exact Hf|]. split; [exact Ha|]. split; [exact Hp|].
    intros Ht Hfalse Hdflt. rewrite Hf, Ha, Hp, !Hdflt, Ht, Hfalse.
    repeat split; reflexivity.
  - split; [unfold em_process_trace; rewrite E; reflexivity|].
    intros key. rewrite em_setting_ConstructProcess.
    unfold em_process_trace. rewrite E. reflexivity.
Qed.

(** The two phases on the example: no option is given for
    G4EmLivermorePhysics, so fluorescence and Auger are on and PIXE is
    off. *)
Lemma two_phase_order_witness :
  let this := resolved (metadata_of example_config) in
  let t := fst (ConstructProcess example_surroundings this) in
  em_setting "fluo" t = Some "true"
  /\ em_setting "auger" t = Some "true"
  /\ em_setting "pixe" t = Some "false".
Proof.
  cbv zeta.
  pose proof (two_phase_order example_surroundings
                (resolved (metadata_of example_config))) as H.
  cbv zeta in H.
  destruct H as [_ [_ [_ [_ [_ H]]]]].
  change (fEmPhysicsList (resolved (metadata_of example_config)))
    with (Some G4EmLivermorePhysics) in H.
  cbv iota beta in H.
  destruct H as [_ [_ [_ [_ H]]]].
  apply H; [reflexivity|reflexivity|].
  intros key dflt. reflexivity.
Defined.

(** Each option is overridden on its own: with [pixe] set to "true" for
    the electromagnetic list, PIXE is on and the two others keep their
    defaults; the order of the module steps is that of the theorem. *)
Example em_option_override :
  let r := metadata_of (config [("G4DecayPhysics", []);
                                ("G4EmPenelopePhysics", [("pixe", "true")]);
                                ("G4NeutronTrackingCut", [])]
                               REST_Silent []) in
  let t := fst (ConstructProcess example_surroundings (resolved r)) in
  em_setting "pixe" t = Some "true"
  /\ em_setting "fluo" t = Some "true"
  /\ em_setting "auger" t = Some "true"
  /\ filter (fun e => match e with
                      | AddTransportation | ConstructProcessOf _
                      | AddDiscreteProcess _ _ => true
                      | _ => false
                      end) t
     = [AddTransportation; ConstructProcessOf G4EmPenelopePhysics;
        ConstructProcessOf G4DecayPhysics; ConstructProcessOf G4NeutronTrackingCut;
        AddDiscreteProcess (ByName "e-") "e-Step";
        AddDiscreteProcess (ByName "e+") "e+Step";
        AddDiscreteProcess (ByName "mu-") "mu-Step";
        AddDiscreteProcess (ByName "mu+") "mu+Step"].
Proof. cbv zeta. repeat split; vm_compute; reflexivity. Qed.

(* ------------------------------------------------------------------ *)

(** The [G4RadioactiveDecay] block of [ConstructProcess] runs exactly
    when [FindPhysicsList("G4RadioactiveDecay")] is not 0: the result of
    the search is used as the condition itself, where every other test
    of the file compares it with [>= 0]. *)
Lemma radioactive_decay_block_condition (x : Externals) (this : PhysicsList) :
  In NewRadioactiveDecay (fst (ConstructProcess x this)) <->
  FindPhysicsList (fRestPhysicsLists this) "G4RadioactiveDecay" <> 0.
Proof.
  rewrite ConstructProcess_trace. cbn [fst]. split.
  - intros [H|H]; [discriminate H|].
    rewrite !in_app_iff in H. destruct H as [H|[H|[H|H]]].
    + unfold em_process_trace, em_option in H.
      destruct (fEmPhysicsList this); not_among H.
    + apply in_map_iff in H. destruct H as [c [H _]]. discriminate H.
    + unfold decay_options_trace in H.
      destruct (Z.eqb_spec (FindPhysicsList (fRestPhysicsLists this)
                              "G4RadioactiveDecay") 0) as [_|Hne];
        [destruct H|exact Hne].
    + apply step_limiter_trace_events in H.
      destruct H as [[p [s H]]|[m H]]; discriminate H.
  - intros Hne. right. rewrite !in_app_iff. right. right. left.
    unfold decay_options_trace.
    destruct (Z.eqb_spec (FindPhysicsList (fRestPhysicsLists this)
                            "G4RadioactiveDecay") 0) as [E|_];
      [contradiction|]. left. reflexivity.
Qed.

(** Inside the block, a flag set to "true" or "false" is applied as
    such; any other value is reported by a warning at verbosity
    [REST_Essential] or above and leaves the flag alone.  Nothing here
    ends the run. *)
Lemma decay_flag_run (r : TRestGeant4PhysicsLists) (key : string)
  (Set_ : bool -> Event) :
  let v := GetPhysicsListOptionValue r "G4RadioactiveDecay" key NotDefined in
  snd (decay_flag r key Set_) = Returned tt
  /\ (v = "true" -> fst (decay_flag r key Set_) = [Set_ true])
  /\ (v = "false" -> fst (decay_flag r key Set_) = [Set_ false])
  /\ (v <> "true" -> v <> "false" ->
      fst (decay_flag r key Set_) =
      if level_geb (GetVerboseLevel r) REST_Essential
      then [RESTWarning (String.concat EmptyString
              ["PhysicsList 'G4RadioactiveDecay' option '"; key; "' not defined"])]
      else []).
Proof.
  cbv zeta. split; [apply decay_flag_snd|]. unfold decay_flag.
  destruct (String.eqb_spec
              (GetPhysicsListOptionValue r "G4RadioactiveDecay" key NotDefined) "true")
    as [Et|Et].
  - rewrite Et. repeat split; try reflexivity; intros; congruence.
  - destruct (String.eqb_spec
                (GetPhysicsListOptionValue r "G4RadioactiveDecay" key NotDefined)
                "false") as [Ef|Ef].
    + repeat split; try reflexivity; intros; congruence.
    + repeat split; try (intros; congruence).
      intros _ _. destruct (level_geb (GetVerboseLevel r) REST_Essential);
        reflexivity.
Qed.

(** C8, on the code.  With no [G4RadioactiveDecay] (and no
    [G4RadioactiveDecayPhysics]) in the configuration, the search
    returns -1 and [ConstructProcess] creates the radioactive decay and
    sets its time threshold all the same.  With [G4RadioactiveDecay]
    declared first, with ICM "true" and ARM "false", the search returns
    0 and neither the threshold nor the flags are applied. *)
Theorem radioactive_decay_options_misapplied :
  let absent := metadata_of no_radioactive_decay_config in
  let first := metadata_of radioactive_decay_first_config in
  (~ In "G4RadioactiveDecay" (map fst (modules no_radioactive_decay_config))
   /\ ~ In "G4RadioactiveDecayPhysics" (map fst (modules no_radioactive_decay_config))
   /\ FindPhysicsList absent "G4RadioactiveDecay" = -1
   /\ fRadDecPhysicsList (resolved absent) = None
   /\ In (SetThresholdForVeryLongDecayTime CLHEP.nanosecond)
         (fst (ConstructProcess example_surroundings (resolved absent))))
  /\ (In "G4RadioactiveDecay" (map fst (modules radioactive_decay_first_config))
      /\ FindPhysicsList first "G4RadioactiveDecay" = 0
      /\ GetPhysicsListOptionValue first "G4RadioactiveDecay" "ICM" NotDefined = "true"
      /\ GetPhysicsListOptionValue first "G4RadioactiveDecay" "ARM" NotDefined = "false"
      /\ forall e, In e (fst (ConstructProcess example_surroundings (resolved first))) ->
           match e with
           | NewRadioactiveDecay | SetThresholdForVeryLongDecayTime _
           | SetICM _ | SetARM _ => False
           | _ => True
           end).
Proof.
  cbv zeta. split.
  - split; [simpl; intuition discriminate|].
    split; [simpl; intuition discriminate|].
    split; [reflexivity|]. split; [reflexivity|].
    vm_compute. auto 20.
  - split; [simpl; auto|]. split; [reflexivity|].
    split; [reflexivity|]. split; [reflexivity|].
    intros e H. vm_compute in H.
    repeat (destruct H as [<-|H]; [exact I|]). destruct H.
Qed.

(* ================================================================== *)
(** * Further properties of the physics list                            *)
(* ================================================================== *)

Lemma pick_app {A : Type} (f : Event -> option A) (t1 t2 : list Event) :
  pick f (t1 ++ t2) = pick f t1 ++ pick f t2.
Proof. apply flat_map_app. Qed.

Lemma pick_none {A : Type} (f : Event -> option A) (t : list Event) :
  (forall e, In e t -> f e = None) -> pick f t = [].
Proof.
  induction t as [|e t IH]; intros H; [reflexivity|].
  unfold pick. simpl. rewrite (H e) by (left; reflexivity).
  apply IH. intros e' He'. apply H. right. exact He'.
Qed.

Lemma pick_map {A B : Type} (f : Event -> option A) (g : B -> Event)
  (h : B -> A) (l : list B) :
  (forall b, f (g b) = Some (h b)) -> pick f (map g l) = map h l.
Proof.
  intros H. induction l as [|b l IH]; [reflexivity|].
  unfold pick in *. simpl. rewrite H, IH. reflexivity.
Qed.






(** X1.  When exactly one electromagnetic list is enabled, the
    constructor returns with that list in the electromagnetic slot and
    its name beside it; it emits no warning and writes nothing to the
    error stream. *)
Theorem single_em_is_kept (r : TRestGeant4PhysicsLists) (c : G4VPhysicsConstructor) :
  em_enabled r = [c] ->
  exists t this,
    PhysicsList_ctor r = (t, Returned this)
    /\ fEmPhysicsList this = Some c
    /\ fEmPhysicsListName this = className c
    /\ (forall m, ~ In (RESTWarning m) t)
    /\ stderr_of t = [].
Proof.
  intros E. exists (returned_trace r), (resolved r).
  rewrite PhysicsList_ctor_run, E.
  split; [reflexivity|].
  split; [simpl; rewrite E; reflexivity|].
  split; [unfold resolved, em_name; simpl; rewrite E; reflexivity|].
  split; [|apply stderr_of_returned_trace].
  intros m H. apply In_warning_returned_trace in H. destruct H as [E' _].
  rewrite E in E'. discriminate E'.
Qed.

Lemma single_em_is_kept_witness :
  em_enabled (metadata_of reordered_config) = [G4EmLivermorePhysics]
  /\ exists t this,
       PhysicsList_ctor (metadata_of reordered_config) = (t, Returned this)
       /\ fEmPhysicsList this = Some G4EmLivermorePhysics.
Proof.
  assert (E : em_enabled (metadata_of reordered_config) = [G4EmLivermorePhysics])
    by reflexivity.
  split; [exact E|].
  destruct (single_em_is_kept (metadata_of reordered_config) G4EmLivermorePhysics E)
    as [t [this [Hrun [Hem _]]]].
  exists t, this. split; [exact Hrun|exact Hem].
Defined.



(** X3.  When the constructor returns, the decay slot holds a
    [G4DecayPhysics] exactly when that name is enabled and is null
    otherwise, and the line reporting it as not enabled is printed
    exactly when it is not enabled and the verbosity is at least
    [REST_Debug]; the same holds for [G4RadioactiveDecayPhysics].  A
    missing decay module is never an error. *)
Theorem decay_slots (r : TRestGeant4PhysicsLists) (t : list Event)
  (this : PhysicsList) :
  PhysicsList_ctor r = (t, Returned this) ->
  fDecPhysicsList this
  = (if enabled r "G4DecayPhysics" then Some G4DecayPhysics else None)
  /\ fRadDecPhysicsList this
     = (if enabled r "G4RadioactiveDecayPhysics"
        then Some G4RadioactiveDecayPhysics else None)
  /\ (In (G4cout "restG4. PhysicsList. G4DecayPhysics is not enabled!!") t
      <-> enabled r "G4DecayPhysics" = false
          /\ level_geb (GetVerboseLevel r) REST_Debug = true)
  /\ (In (G4cout "restG4. PhysicsList. G4RadioactiveDecayPhysics is not enabled!!") t
      <-> enabled r "G4RadioactiveDecayPhysics" = false
          /\ level_geb (GetVerboseLevel r) REST_Debug = true).
Proof.
  intros H. pose proof (ctor_returns_resolved r t this H) as ->.
  rewrite PhysicsList_ctor_run in H.
  assert (Ht : t = returned_trace r).
  { destruct (em_enabled r) as [|a [|b l]]; inversion H; reflexivity. }
  subst t. clear H.
  split; [reflexivity|]. split; [reflexivity|].
  assert (Hexact : forall msg,
    (forall c, msg <> String.append "Number of hadronic physics lists added " c) ->
    (In (G4cout msg) (returned_trace r) <->
     In (G4cout msg) (decay_sections_trace r))).
  { intros msg Hmsg. unfold returned_trace. rewrite !in_app_iff. split.
    - intros [Hp|[Hd|[He|[Hw|[Hh|Hc]]]]].
      + exfalso. unfold ctor_prefix in Hp. not_among Hp.
      + exact Hd.
      + exfalso. apply in_map_iff in He. destruct He as [c [He _]]. discriminate He.
      + exfalso. destruct (em_enabled r); [|destruct Hw].
        unfold no_em_warning in Hw.
        destruct (level_geb (GetVerboseLevel r) REST_Essential); not_among Hw.
      + exfalso. apply in_map_iff in Hh. destruct Hh as [c [Hh _]]. discriminate Hh.
      + exfalso. destruct Hc as [Hc|[]]. injection Hc as Hc.
        exact (Hmsg _ (eq_sym Hc)).
    - intros Hd. auto. }
  split.
  - rewrite Hexact by (intros c Hc; discriminate Hc).
    unfold decay_sections_trace, decay_section_trace. cbn [className].
    rewrite in_app_iff.
    destruct (enabled r "G4DecayPhysics");
      destruct (enabled r "G4RadioactiveDecayPhysics");
      destruct (level_geb (GetVerboseLevel r) REST_Debug); simpl;
      intuition discriminate.
  - rewrite Hexact by (intros c Hc; discriminate Hc).
    unfold decay_sections_trace, decay_section_trace. cbn [className].
    rewrite in_app_iff.
    destruct (enabled r "G4DecayPhysics");
      destruct (enabled r "G4RadioactiveDecayPhysics");
      destruct (level_geb (GetVerboseLevel r) REST_Debug); simpl;
      intuition discriminate.
Qed.

Lemma decay_slots_witness :
  fDecPhysicsList (resolved (metadata_of no_radioactive_decay_config)) = None
  /\ ~ In (G4cout "restG4. PhysicsList. G4DecayPhysics is not enabled!!")
          (returned_trace (metadata_of no_radioactive_decay_config)).
Proof.
  assert (H : PhysicsList_ctor (metadata_of no_radioactive_decay_config)
              = (returned_trace (metadata_of no_radioactive_decay_config),
                 Returned (resolved (metadata_of no_radioactive_decay_config))))
    by reflexivity.
  pose proof (decay_slots _ _ _ H) as [Hd [_ [Hmsg _]]].
  split; [exact Hd|].
  intros Hin. apply Hmsg in Hin. destruct Hin as [_ Hv]. discriminate Hv.
Defined.

(** ** Instantiation, construction and deletion of the modules *)

Lemma present_hd_error (l : list G4VPhysicsConstructor) :
  (length l <= 1)%nat -> present (hd_error l) = l.
Proof. destruct l as [|a [|b l]]; simpl; intros H; try reflexivity; lia. Qed.

Lemma slot_of_em_enabled (r : TRestGeant4PhysicsLists) (c : G4VPhysicsConstructor) :
  In c (em_enabled r) -> slot_of c = EmSlot.
Proof.
  unfold em_enabled. intros H. apply filter_In in H. destruct H as [H _].
  simpl in H. intuition (subst; reflexivity).
Qed.

Lemma slot_of_hadron_enabled (r : TRestGeant4PhysicsLists) (c : G4VPhysicsConstructor) :
  In c (hadron_enabled r) -> slot_of c = HadronSlot.
Proof.
  unfold hadron_enabled. intros H. apply filter_In in H. destruct H as [H _].
  simpl in H. intuition (subst; reflexivity).
Qed.

Lemma slot_of_if_enabled (r : TRestGeant4PhysicsLists) (C c : G4VPhysicsConstructor) :
  In c (present (if_enabled r C)) -> c = C.
Proof.
  unfold if_enabled. destruct (enabled r (className C)); simpl; intuition.
Qed.

Lemma NoDup_present (p : option G4VPhysicsConstructor) : NoDup (present p).
Proof. destruct p; simpl; repeat constructor. intros []. Qed.

(** The modules of a resolved object are pairwise distinct. *)
Lemma NoDup_resolved (r : TRestGeant4PhysicsLists) :
  (length (em_enabled r) <= 1)%nat -> NoDup (PhysicsList_dtor (resolved r)).
Proof.
  intros Hle. unfold PhysicsList_dtor, resolved, members.
  cbn [fEmPhysicsList fDecPhysicsList fRadDecPhysicsList fHadronPhys].
  rewrite present_hd_error by exact Hle.
  apply NoDup_app.
  - apply NoDup_filter. unfold em_lists.
    repeat (constructor; [simpl; intuition discriminate|]). constructor.
  - apply NoDup_app; [apply NoDup_present| |].
    + apply NoDup_app; [apply NoDup_present| |].
      * apply NoDup_filter. unfold hadron_lists.
        repeat (constructor; [simpl; intuition discriminate|]). constructor.
      * intros c Hc Hh. apply slot_of_if_enabled in Hc.
        apply slot_of_hadron_enabled in Hh. subst c. discriminate Hh.
    + intros c Hc Hin. apply slot_of_if_enabled in Hc. subst c.
      apply in_app_or in Hin. destruct Hin as [Hin|Hin].
      * apply slot_of_if_enabled in Hin. discriminate Hin.
      * apply slot_of_hadron_enabled in Hin. discriminate Hin.
  - intros c Hc Hin. apply slot_of_em_enabled in Hc.
    apply in_app_or in Hin. destruct Hin as [Hin|Hin];
      [|apply in_app_or in Hin; destruct Hin as [Hin|Hin]].
    + apply slot_of_if_enabled in Hin. subst c. discriminate Hc.
    + apply slot_of_if_enabled in Hin. subst c. discriminate Hc.
    + apply slot_of_hadron_enabled in Hin. rewrite Hin in Hc. discriminate Hc.
Qed.

Lemma allocated_decay_section (r : TRestGeant4PhysicsLists) (C : G4VPhysicsConstructor) :
  pick as_allocation (decay_section_trace r C)
  = map PhysicsConstructor (present (if_enabled r C)).
Proof.
  unfold decay_section_trace, if_enabled.
  destruct (enabled r (className C)); [reflexivity|].
  destruct (level_geb (GetVerboseLevel r) REST_Debug); reflexivity.
Qed.

(** Everything a constructor that returns creates with [new]: the four
    units first, then the modules. *)
Lemma allocated_returned_trace (r : TRestGeant4PhysicsLists) :
  pick as_allocation (returned_trace r)
  = map UnitDefinition ["minute"; "hour"; "day"; "year"]
    ++ map PhysicsConstructor
         (present (if_enabled r G4DecayPhysics)
          ++ present (if_enabled r G4RadioactiveDecayPhysics)
          ++ em_enabled r ++ hadron_enabled r).
Proof.
  unfold returned_trace, decay_sections_trace.
  rewrite !pick_app, !allocated_decay_section.
  rewrite !(pick_map as_allocation New PhysicsConstructor) by reflexivity.
  assert (Hw : pick as_allocation (match em_enabled r with
                                   | [] => no_em_warning r
                                   | _ :: _ => []
                                   end) = []).
  { destruct (em_enabled r); [|reflexivity]. unfold no_em_warning.
    destruct (level_geb (GetVerboseLevel r) REST_Essential); reflexivity. }
  rewrite Hw. cbn [pick flat_map ctor_prefix as_allocation app map].
  rewrite app_nil_r, !map_app, <- !app_assoc. reflexivity.
Qed.

(** X4.  With [new] the constructor creates the four units of time
    (minute, hour, day, year) and the physics modules, and nothing
    else.  The destructor deletes the modules only: those a constructor
    that returns has created, all of them and each once (none is left
    behind, none is deleted twice).  It does not delete the four
    units. *)
Theorem instantiated_modules_are_deleted (r : TRestGeant4PhysicsLists)
  (t : list Event) (this : PhysicsList) :
  PhysicsList_ctor r = (t, Returned this) ->
  Permutation (pick as_allocation t)
    (map UnitDefinition ["minute"; "hour"; "day"; "year"]
     ++ map PhysicsConstructor (PhysicsList_dtor this))
  /\ NoDup (PhysicsList_dtor this).
Proof.
  intros H. pose proof (ctor_returns_resolved r t this H) as ->.
  rewrite PhysicsList_ctor_run in H.
  assert (Hle : (length (em_enabled r) <= 1)%nat).
  { destruct (em_enabled r) as [|a [|b l]]; simpl; try lia. discriminate H. }
  assert (Ht : t = returned_trace r).
  { destruct (em_enabled r) as [|a [|b l]]; inversion H; reflexivity. }
  subst t. split; [|apply NoDup_resolved; exact Hle].
  rewrite allocated_returned_trace.
  apply Permutation_app_head, Permutation_map.
  unfold PhysicsList_dtor, resolved, members.
  cbn [fEmPhysicsList fDecPhysicsList fRadDecPhysicsList fHadronPhys].
  rewrite present_hd_error by exact Hle.
  rewrite !app_assoc. apply Permutation_app_tail.
  rewrite <- (app_assoc (em_enabled r)). apply Permutation_app_comm.
Qed.

Lemma instantiated_modules_are_deleted_witness :
  Permutation
    (pick as_allocation (returned_trace (metadata_of example_config)))
    (map UnitDefinition ["minute"; "hour"; "day"; "year"]
     ++ map PhysicsConstructor
          (PhysicsList_dtor (resolved (metadata_of example_config))))
  /\ length (PhysicsList_dtor (resolved (metadata_of example_config))) = 8%nat.
Proof.
  assert (H : PhysicsList_ctor (metadata_of example_config)
              = (returned_trace (metadata_of example_config),
                 Returned (resolved (metadata_of example_config))))
    by reflexivity.
  split; [exact (proj1 (instantiated_modules_are_deleted _ _ _ H))|reflexivity].
Defined.

Lemma pick_tail_empty (x : Externals) (r : TRestGeant4PhysicsLists) :
  pick as_ConstructProcess (decay_options_trace r ++ step_limiter_trace x r) = [].
Proof.
  apply pick_none. intros e H. apply tail_events in H.
  destruct H as [->|[->|[[b ->]|[[b ->]|[[m ->]|[[p [s ->]]|[m ->]]]]]]];
    reflexivity.
Qed.

(** X5.  Whatever the object holds, [ConstructParticle] calls the
    particle construction of each of its modules once, and
    [ConstructProcess] the process construction of each of its modules
    once: in both, the modules called are those the destructor
    deletes, and no other. *)
Theorem every_module_is_constructed_once (x : Externals) (this : PhysicsList) :
  Permutation (pick as_ConstructParticle (fst (ConstructParticle this)))
              (PhysicsList_dtor this)
  /\ Permutation (pick as_ConstructProcess (fst (ConstructProcess x this)))
                 (PhysicsList_dtor this).
Proof.
  split.
  - rewrite ConstructParticle_trace. cbn [fst pick flat_map as_ConstructParticle app].
    change (flat_map _ ?t) with (pick as_ConstructParticle t).
    rewrite (pick_map as_ConstructParticle ConstructParticleOf (fun c => c))
      by reflexivity.
    rewrite map_id. unfold PhysicsList_dtor.
    rewrite !app_assoc. apply Permutation_app_tail, Permutation_app_tail.
    apply Permutation_app_comm.
  - rewrite ConstructProcess_trace. cbn [fst pick flat_map as_ConstructProcess app].
    change (flat_map _ ?t) with (pick as_ConstructProcess t).
    do 2 rewrite pick_app. rewrite pick_tail_empty, app_nil_r.
    rewrite (pick_map as_ConstructProcess ConstructProcessOf (fun c => c))
      by reflexivity.
    rewrite map_id. unfold PhysicsList_dtor.
    apply Permutation_app_tail.
    unfold em_process_trace, em_option.
    destruct (fEmPhysicsList this); reflexivity.
Qed.

(** ** The step limiters of the particle loop *)

Lemma fixed_rule_closed (n : string) :
  fixed_rule n = if is_limited_name n then [(ByName n, String.append n "Step")] else [].
Proof.
  unfold fixed_rule, step_limiter_for, is_limited_name.
  destruct (String.eqb_spec n "e-") as [->|H1]; [reflexivity|].
  destruct (String.eqb_spec n "e+") as [->|H2]; [reflexivity|].
  destruct (String.eqb_spec n "mu-") as [->|H3]; [reflexivity|].
  destruct (String.eqb_spec n "mu+") as [->|H4]; reflexivity.
Qed.

Lemma filter_none {A : Type} (f : A -> bool) (l : list A) :
  (forall a, In a l -> f a = false) -> filter f l = [].
Proof.
  induction l as [|a l IH]; intros H; [reflexivity|].
  simpl. rewrite (H a) by (left; reflexivity).
  apply IH. intros a' Ha'. apply H. right. exact Ha'.
Qed.

(** X6.  The particle loop gives one limiter to each entry of the
    particle table named e-, e+, mu- or mu+, in the order of the table,
    and none to any other particle: the limiters of [ConstructProcess]
    attached to named particles are those of the table entries with one
    of the four names, tagged with the name followed by "Step".  In
    particular no particle receives two limiters from this loop. *)
Theorem named_limiters_follow_the_table (x : Externals) (this : PhysicsList) :
  filter (fun e => match fst e with ByName _ => true | GroundStateIon _ _ => false end)
         (limiters (fst (ConstructProcess x this)))
  = map (fun n => (ByName n, String.append n "Step"))
        (filter is_limited_name (particleTable x)).
Proof.
  rewrite limiters_ConstructProcess, filter_app.
  assert (Hions : filter (fun e : Particle * string =>
                     match fst e with ByName _ => true | GroundStateIon _ _ => false end)
                    (ion_plan x (GetIonStepList (fRestPhysicsLists this))) = []).
  { apply filter_none. intros e He. apply In_ion_plan in He.
    destruct He as [Z [A [_ [-> _]]]]. reflexivity. }
  rewrite Hions, app_nil_r, fixed_name_rules_flat_map.
  induction (particleTable x) as [|n table IH]; [reflexivity|].
  simpl. rewrite filter_app, IH, fixed_rule_closed.
  destruct (is_limited_name n); reflexivity.
Qed.

(** ** Commands, decay options and the end of the run *)

Lemma pick_commands_tail (x : Externals) (this : PhysicsList) :
  pick as_ApplyCommand
    (map ConstructProcessOf
       (present (fDecPhysicsList this) ++ present (fRadDecPhysicsList this)
        ++ fHadronPhys this)
     ++ decay_options_trace (fRestPhysicsLists this)
     ++ step_limiter_trace x (fRestPhysicsLists this)) = [].
Proof.
  apply pick_none. intros e H. apply in_app_or in H. destruct H as [H|H].
  - apply in_map_iff in H. destruct H as [c [<- _]]. reflexivity.
  - apply tail_events in H.
    destruct H as [->|[->|[[b ->]|[[b ->]|[[m ->]|[[p [s ->]]|[m ->]]]]]]];
      reflexivity.
Qed.

(** X7.  [ConstructProcess] sends commands to the UI manager for an
    electromagnetic list only.  Without one it sends none.  With one it
    sends six: fluorescence, Auger and PIXE are first switched on (PIXE
    too, even when it is configured off), then PIXE, fluorescence and
    Auger are set, in this order, to "true" or "false" according to
    their option. *)
Theorem em_commands (x : Externals) (this : PhysicsList) :
  let value key dflt :=
    true_false (StringToBool x
      (GetPhysicsListOptionValue (fRestPhysicsLists this)
         (fEmPhysicsListName this) key dflt)) in
  pick as_ApplyCommand (fst (ConstructProcess x this))
  = match fEmPhysicsList this with
    | None => []
    | Some _ =>
        ["/process/em/fluo true"; "/process/em/auger true"; "/process/em/pixe true";
         String.append "/process/em/pixe " (value "pixe" "false");
         String.append "/process/em/fluo " (value "fluo" "true");
         String.append "/process/em/auger " (value "auger" "true")]
    end.
Proof.
  cbv zeta. rewrite ConstructProcess_trace. cbn [fst].
  change (AddTransportation :: ?t) with ([AddTransportation] ++ t).
  rewrite pick_app, pick_app, pick_commands_tail, app_nil_r.
  unfold em_process_trace, em_option.
  destruct (fEmPhysicsList this); reflexivity.
Qed.

Lemma pick_decay_flag (r : TRestGeant4PhysicsLists) (key : string) (b : bool) :
  pick as_decay_call (fst (decay_flag r key (if b then SetICM else SetARM)))
  = fst (decay_flag r key (if b then SetICM else SetARM)).
Proof.
  unfold decay_flag.
  repeat match goal with |- context [if ?c then _ else _] => destruct c end;
    reflexivity.
Qed.

Lemma pick_decay_other (x : Externals) (this : PhysicsList) :
  pick as_decay_call
    (AddTransportation :: em_process_trace x this
       ++ map ConstructProcessOf
            (present (fDecPhysicsList this) ++ present (fRadDecPhysicsList this)
             ++ fHadronPhys this)) = []
  /\ pick as_decay_call (step_limiter_trace x (fRestPhysicsLists this)) = [].
Proof.
  split.
  - apply pick_none. intros e [<-|H]; [reflexivity|].
    apply in_app_or in H. destruct H as [H|H].
    + unfold em_process_trace, em_option in H.
      destruct (fEmPhysicsList this); simpl in H;
        repeat (destruct H as [<-|H]; [reflexivity|]); destruct H.
    + apply in_map_iff in H. destruct H as [c [<- _]]. reflexivity.
  - apply pick_none. intros e H. apply step_limiter_trace_events in H.
    destruct H as [[p [s ->]]|[m ->]]; reflexivity.
Qed.

(** X8.  When the [G4RadioactiveDecay] block of [ConstructProcess]
    runs (the search result is not 0), it creates the decay, sets its
    threshold for very long decay times to one nanosecond, then handles
    ICM, then ARM.  A flag is applied only when its option reads
    exactly "true" or exactly "false"; any other text (absent option,
    "True", "1") leaves the flag untouched and, at verbosity
    [REST_Essential] or above, is reported as not defined.  These are
    all the warnings of [ConstructProcess]. *)
Theorem radioactive_decay_flags (x : Externals) (this : PhysicsList) :
  let r := fRestPhysicsLists this in
  let v key := GetPhysicsListOptionValue r "G4RadioactiveDecay" key NotDefined in
  let undefined key :=
    if level_geb (GetVerboseLevel r) REST_Essential
    then [RESTWarning (String.concat EmptyString
            ["PhysicsList 'G4RadioactiveDecay' option '"; key; "' not defined"])]
    else [] in
  FindPhysicsList r "G4RadioactiveDecay" <> 0 ->
  exists icm arm,
    pick as_decay_call (fst (ConstructProcess x this))
    = NewRadioactiveDecay :: SetThresholdForVeryLongDecayTime 1%float :: icm ++ arm
    /\ (v "ICM" = "true" -> icm = [SetICM true])
    /\ (v "ICM" = "false" -> icm = [SetICM false])
    /\ (v "ICM" <> "true" -> v "ICM" <> "false" -> icm = undefined "ICM")
    /\ (v "ARM" = "true" -> arm = [SetARM true])
    /\ (v "ARM" = "false" -> arm = [SetARM false])
    /\ (v "ARM" <> "true" -> v "ARM" <> "false" -> arm = undefined "ARM").
Proof.
  cbv zeta. intros Hne.
  exists (fst (decay_flag (fRestPhysicsLists this) "ICM" SetICM)),
         (fst (decay_flag (fRestPhysicsLists this) "ARM" SetARM)).
  split.
  - rewrite ConstructProcess_trace. cbn [fst].
    destruct (pick_decay_other x this) as [Hhead Htail].
    rewrite (app_assoc (em_process_trace x this)), app_comm_cons.
    rewrite pick_app, pick_app, Hhead, Htail, app_nil_r.
    unfold decay_options_trace.
    destruct (Z.eqb_spec (FindPhysicsList (fRestPhysicsLists this)
                            "G4RadioactiveDecay") 0) as [E|_];
      [contradiction|].
    change (NewRadioactiveDecay :: SetThresholdForVeryLongDecayTime CLHEP.nanosecond
              :: ?t)
      with ([NewRadioactiveDecay; SetThresholdForVeryLongDecayTime CLHEP.nanosecond]
              ++ t).
    rewrite !pick_app.
    rewrite (pick_decay_flag _ "ICM" true), (pick_decay_flag _ "ARM" false).
    reflexivity.
  - destruct (decay_flag_run (fRestPhysicsLists this) "ICM" SetICM)
      as [_ [It [If Iu]]].
    destruct (decay_flag_run (fRestPhysicsLists this) "ARM" SetARM)
      as [_ [At [Af Au]]].
    repeat split; assumption.
Qed.

Lemma radioactive_decay_flags_witness :
  pick as_decay_call
    (fst (ConstructProcess example_surroundings
            (resolved (metadata_of decay_flags_config))))
  = [NewRadioactiveDecay; SetThresholdForVeryLongDecayTime 1%float;
     RESTWarning "PhysicsList 'G4RadioactiveDecay' option 'ICM' not defined";
     SetARM false].
Proof.
  assert (Hne : FindPhysicsList (metadata_of decay_flags_config) "G4RadioactiveDecay"
                <> 0) by (vm_compute; discriminate).
  destruct (radioactive_decay_flags example_surroundings
              (resolved (metadata_of decay_flags_config)) Hne)
    as [icm [arm [Hcalls [_ [_ [Hicm [_ [Harm _]]]]]]]].
  rewrite Hcalls, Hicm, Harm; try reflexivity;
    vm_compute; discriminate.
Defined.

(** X9.  The run of the physics list ends early in one case only: two
    or more electromagnetic lists enabled, with exit status 1.  In every
    other case the constructor, [ConstructParticle], [ConstructProcess]
    and [SetCuts] all return, whatever the configuration and the
    particle table hold. *)
Theorem assembly_outcome (x : Externals) (r : TRestGeant4PhysicsLists) :
  snd (assembly x r)
  = (if (2 <=? length (em_enabled r))%nat then Exited 1 else Returned tt)
  /\ (forall this, snd (ConstructParticle this) = Returned tt
                   /\ snd (ConstructProcess x this) = Returned tt
                   /\ snd (SetCuts this) = Returned tt).
Proof.
  split.
  - rewrite assembly_run. destruct (em_enabled r) as [|a [|b l]]; reflexivity.
  - intros this. rewrite ConstructParticle_trace, ConstructProcess_trace.
    repeat split.
Qed.

(** ** The size of the ion plan *)

Lemma In_sweep_pairs (p : Z * Z) :
  In p sweep_pairs <-> in_sweep (fst p) (snd p).
Proof.
  unfold sweep_pairs, in_sweep. rewrite in_flat_map. split.
  - intros [Z [HZ Hp]]. apply in_map_iff in Hp. destruct Hp as [A [<- HA]].
    apply In_range in HZ, HA. simpl. tauto.
  - intros [HZ HA]. exists (fst p). split; [apply In_range; exact HZ|].
    apply in_map_iff. exists (snd p). split; [destruct p; reflexivity|].
    apply In_range. exact HA.
Qed.

Lemma NoDup_flat_map_blocks {A B : Type} (f : A -> list B) (l : list A) :
  NoDup l -> (forall a, NoDup (f a)) ->
  (forall a a' b, In b (f a) -> In b (f a') -> a = a') ->
  NoDup (flat_map f l).
Proof.
  intros Hl Hblock Hkey. induction Hl as [|a l Hnotin Hl IH]; simpl.
  - constructor.
  - apply NoDup_app; [apply Hblock|exact IH|].
    intros b Hb Hin. apply in_flat_map in Hin. destruct Hin as [a' [Ha' Hb']].
    rewrite (Hkey a a' b Hb Hb') in Hnotin. contradiction.
Qed.

Lemma NoDup_sweep_pairs : NoDup sweep_pairs.
Proof.
  unfold sweep_pairs. apply NoDup_flat_map_blocks.
  - apply NoDup_range.
  - intros Z. apply Finite.Injective_map_NoDup; [|apply NoDup_range].
    intros A A' H. inversion H. reflexivity.
  - intros Z Z' p Hp Hp'. apply in_map_iff in Hp, Hp'.
    destruct Hp as [A [<- _]], Hp' as [A' [Hp' _]]. inversion Hp'. reflexivity.
Qed.

Lemma flat_map_nested {A B C : Type} (f : B -> list C) (g : A -> list B)
  (l : list A) :
  flat_map f (flat_map g l) = flat_map (fun a => flat_map f (g a)) l.
Proof.
  induction l as [|a l IH]; [reflexivity|].
  cbn [flat_map]. rewrite flat_map_app, IH. reflexivity.
Qed.

Lemma flat_map_of_map {A B C : Type} (f : B -> list C) (g : A -> B) (l : list A) :
  flat_map f (map g l) = flat_map (fun a => f (g a)) l.
Proof.
  induction l as [|a l IH]; [reflexivity|].
  cbn [flat_map map]. rewrite IH. reflexivity.
Qed.

Lemma ion_plan_by_pairs (x : Externals) (l : list string) :
  ion_plan x l = flat_map (fun p => ion_rules x l (fst p) (snd p)) sweep_pairs.
Proof.
  unfold ion_plan, sweep_pairs. rewrite flat_map_nested.
  apply flat_map_ext. intros Z. rewrite flat_map_of_map. reflexivity.
Qed.

Lemma names_swept_ion_spec (x : Externals) (s : string) :
  names_swept_ion x s = true <->
  exists Z A, in_sweep Z A /\ s = GetIonName x Z A.
Proof.
  unfold names_swept_ion. rewrite existsb_exists. split.
  - intros [[Z A] [Hin Heq]]. apply In_sweep_pairs in Hin.
    apply String.eqb_eq in Heq. exists Z, A. auto.
  - intros [Z [A [Hs ->]]]. exists (Z, A). split.
    + apply In_sweep_pairs. exact Hs.
    + apply String.eqb_refl.
Qed.

(** Among duplicate-free candidates of which at most one can match, the
    number of matches is one or none. *)
Lemma length_filter_unique {A : Type} (m : A -> bool) (l : list A) :
  NoDup l ->
  (forall a b, In a l -> In b l -> m a = true -> m b = true -> a = b) ->
  length (filter m l) = if existsb m l then 1%nat else 0%nat.
Proof.
  intros Hnd. induction Hnd as [|a l Hnotin Hnd IH]; intros Huniq; [reflexivity|].
  simpl. destruct (m a) eqn:Ha.
  - simpl. f_equal. apply length_zero_iff_nil. apply filter_none.
    intros b Hb. destruct (m b) eqn:Hmb; [|reflexivity].
    exfalso. apply Hnotin.
    rewrite (Huniq a b (or_introl eq_refl) (or_intror Hb) Ha Hmb). exact Hb.
  - simpl. apply IH. intros b c Hb Hc. apply Huniq; right; assumption.
Qed.

Lemma length_flat_map_app {A B : Type} (f g : A -> list B) (l : list A) :
  length (flat_map (fun a => f a ++ g a) l)
  = (length (flat_map f l) + length (flat_map g l))%nat.
Proof.
  induction l as [|a l IH]; [reflexivity|].
  simpl. rewrite !length_app, IH. lia.
Qed.

Lemma length_flat_map_if {A B : Type} (m : A -> bool) (e : A -> B) (l : list A) :
  length (flat_map (fun a => if m a then [e a] else []) l) = length (filter m l).
Proof.
  induction l as [|a l IH]; [reflexivity|].
  simpl. destruct (m a); simpl; rewrite IH; reflexivity.
Qed.

(** X10.  When the ions of the window have pairwise different names,
    every element of the configured list gives at most one limiter: the
    ion limiters of [ConstructProcess] are as many as the elements of
    the list that name an ion of the window, hence no more than the
    list is long, and none for an empty list. *)
Theorem ion_limiters_are_counted (x : Externals) (this : PhysicsList) :
  (forall Z A Z' A' : Z,
     in_sweep Z A -> in_sweep Z' A' ->
     GetIonName x Z A = GetIonName x Z' A' -> Z = Z' /\ A = A') ->
  let ions :=
    filter (fun e => match fst e with GroundStateIon _ _ => true | ByName _ => false end)
           (limiters (fst (ConstructProcess x this))) in
  length ions
  = length (filter (names_swept_ion x) (GetIonStepList (fRestPhysicsLists this)))
  /\ (length ions <= length (GetIonStepList (fRestPhysicsLists this)))%nat
  /\ (GetIonStepList (fRestPhysicsLists this) = [] -> ions = []).
Proof.
  intros Hinj. cbv zeta.
  rewrite limiters_ConstructProcess, filter_app.
  rewrite (filter_none _ (fixed_name_rules (particleTable x))).
  2:{ intros e He. apply In_fixed_name_rules in He.
      destruct He as [n [_ [_ ->]]]. reflexivity. }
  cbn [app].
  assert (Hall : filter (fun e : Particle * string =>
                    match fst e with GroundStateIon _ _ => true | ByName _ => false end)
                   (ion_plan x (GetIonStepList (fRestPhysicsLists this)))
                 = ion_plan x (GetIonStepList (fRestPhysicsLists this))).
  { apply forallb_filter_id. apply forallb_forall. intros e He.
    apply In_ion_plan in He. destruct He as [Z [A [_ [-> _]]]]. reflexivity. }
  rewrite Hall. clear Hall.
  assert (Hlen : forall l,
            length (ion_plan x l) = length (filter (names_swept_ion x) l)).
  { induction l as [|s l IH]; rewrite ion_plan_by_pairs.
    - unfold ion_rules. simpl.
      induction sweep_pairs as [|p ps IHp]; [reflexivity|exact IHp].
    - unfold ion_rules. cbn [flat_map].
      rewrite (length_flat_map_app
                 (fun p => if (s =? GetIonName x (fst p) (snd p))%string
                           then [(GroundStateIon (fst p) (snd p), "ionStep")] else [])).
      rewrite length_flat_map_if.
      fold (ion_rules x l). 
      change (flat_map (fun p => flat_map _ l) sweep_pairs)
        with (flat_map (fun p => ion_rules x l (fst p) (snd p)) sweep_pairs).
      rewrite <- ion_plan_by_pairs, IH.
      rewrite length_filter_unique.
      + fold (names_swept_ion x s). cbn [filter].
        destruct (names_swept_ion x s); reflexivity.
      + apply NoDup_sweep_pairs.
      + intros [Z A] [Z' A'] Hp Hq Hmp Hmq.
        apply In_sweep_pairs in Hp, Hq. apply String.eqb_eq in Hmp, Hmq.
        simpl in *. destruct (Hinj Z A Z' A' Hp Hq) as [-> ->]; [congruence|].
        reflexivity. }
  split; [apply Hlen|]. split.
  - rewrite Hlen. apply filter_length_le.
  - intros ->. reflexivity.
Qed.

Lemma NoDup_map_injective {A B : Type} (f : A -> B) (l : list A) (a b : A) :
  NoDup (map f l) -> In a l -> In b l -> f a = f b -> a = b.
Proof.
  induction l as [|c l IH]; intros Hnd Ha Hb Hf; [destruct Ha|].
  simpl in Hnd. apply NoDup_cons_iff in Hnd. destruct Hnd as [Hnotin Hnd].
  destruct Ha as [->|Ha], Hb as [->|Hb].
  - reflexivity.
  - exfalso. apply Hnotin. rewrite Hf. apply in_map. exact Hb.
  - exfalso. apply Hnotin. rewrite <- Hf. apply in_map. exact Ha.
  - apply IH; assumption.
Qed.

(** The names given to the ions of the window by the example
    surroundings are pairwise different. *)
Lemma example_ion_names_distinct :
  forall Z A Z' A' : Z,
    in_sweep Z A -> in_sweep Z' A' ->
    GetIonName example_surroundings Z A = GetIonName example_surroundings Z' A' ->
    Z = Z' /\ A = A'.
Proof.
  assert (Hnd : NoDup (map (fun p => GetIonName example_surroundings (fst p) (snd p))
                           sweep_pairs)).
  { assert (E : nodup string_dec
                  (map (fun p => GetIonName example_surroundings (fst p) (snd p))
                       sweep_pairs)
                = map (fun p => GetIonName example_surroundings (fst p) (snd p))
                      sweep_pairs) by (vm_compute; reflexivity).
    rewrite <- E. apply NoDup_nodup. }
  intros Z A Z' A' Hs Hs' Heq.
  assert (Hp : (Z, A) = (Z', A')).
  { apply (NoDup_map_injective
             (fun p => GetIonName example_surroundings (fst p) (snd p))
             sweep_pairs); [exact Hnd| | |exact Heq];
      apply In_sweep_pairs; assumption. }
  inversion Hp. auto.
Qed.

Lemma ion_limiters_are_counted_witness :
  length
    (filter (fun e => match fst e with GroundStateIon _ _ => true | ByName _ => false end)
       (limiters (fst (ConstructProcess example_surroundings
                         (resolved (metadata_of ion_config))))))
  = 2%nat.
Proof.
  rewrite (proj1 (ion_limiters_are_counted example_surroundings
                    (resolved (metadata_of ion_config))
                    example_ion_names_distinct)).
  vm_compute. reflexivity.
Defined.

(* ================================================================== *)
(** * The application                                                   *)
(* ================================================================== *)

Lemma and_then_fst {A B : Type} (m : App.Exec A) (k : A -> App.Exec B) :
  fst (App.and_then m k)
  = fst m ++ match snd m with
             | Returned a => fst (k a)
             | Exited _ => []
             end.
Proof.
  destruct m as [t [a|status]]; simpl.
  - destruct (k a); reflexivity.
  - rewrite app_nil_r. reflexivity.
Qed.

Lemma and_then_snd {A B : Type} (m : App.Exec A) (k : A -> App.Exec B) :
  snd (App.and_then m k)
  = match snd m with
    | Returned a => snd (k a)
    | Exited status => Exited status
    end.
Proof.
  destruct m as [t [a|status]]; simpl; [|reflexivity].
  destruct (k a); reflexivity.
Qed.

Lemma filter_physics (f : App.AppEvent -> bool) (t : list Event) :
  (forall e, f (App.PhysicsEvent e) = false) ->
  filter f (map App.PhysicsEvent t) = [].
Proof.
  intros H. apply filter_none. intros e He. apply in_map_iff in He.
  destruct He as [e' [<- _]]. apply H.
Qed.

(** Runs the calls of a part of [Run] up to its next test. *)
Ltac exec_steps :=
  cbn [App.and_then App.call App.pure App.if_ App.exit_ App.physics negb fst snd app
       App.GetRunTag App.GetOutputFileName App.GetNumberOfEvents
       App.GetGdmlFilename App.GetTitle App.GetSeed].

(** *** The first part *)

Lemma Run_configure_snd (env : App.Environment) (p : App.CommandLineParameters) :
  snd (App.Run_configure env p)
  = if App.CheckFileIsAccessible env (App.rmlFile p)
    then Returned (App.configured_metadata env p, App.configured_run env p,
                   App.configured_physics env p)
    else Exited 1.
Proof.
  unfold App.Run_configure, App.configured_metadata, App.configured_run,
    App.configured_physics, App.loaded_gdml, App.requested_events, App.inputRmlClean.
  destruct (App.CheckFileIsAccessible env (App.rmlFile p)); [|reflexivity].
  destruct (App.SeparatePathAndName env (App.rmlFile p)) as [path name].
  cbn [snd negb App.if_].
  destruct (App.IsNull path);
    destruct (App.nEvents p =? 0);
    destruct (App.nDesiredEntries p =? 0);
    destruct (App.timeLimitSeconds p =? 0);
    destruct (App.IsNull (App.geometryFile p));
    destruct (App.IsNull (App.outputFile p));
    exec_steps;
    destruct ((App.GetRunTag (App.read_run env name) =? "Null")%string
              || App.IsNull (App.GetRunTag (App.read_run env name)));
    reflexivity.
Qed.

Lemma Run_configure_missing (env : App.Environment) (p : App.CommandLineParameters) :
  App.CheckFileIsAccessible env (App.rmlFile p) = false ->
  App.Run_configure env p
  = ([App.signal_SIGINT;
      App.Cout (String.append "Current working directory: "
                  (App.quoted (App.current_path env)));
      App.CommandLineSetup_Print p;
      App.Cout (String.concat EmptyString
                  ["ERROR: Input rml file ";
                   App.quoted (App.weakly_canonical env (App.rmlFile p));
                   " not found, please check file name."])],
     Exited 1).
Proof. intros E. unfold App.Run_configure. rewrite E. reflexivity. Qed.

(** Splits on the tests of the first part, in their order. *)
Ltac configure_cases env p :=
  unfold App.Run_configure, App.loaded_gdml, App.requested_events, App.inputRmlClean;
  match goal with
  | E : App.CheckFileIsAccessible env (App.rmlFile p) = true |- _ => rewrite E
  end;
  let path := fresh "path" in
  let name := fresh "name" in
  destruct (App.SeparatePathAndName env (App.rmlFile p)) as [path name];
  cbn [snd negb App.if_];
  destruct (App.IsNull path);
  destruct (App.nEvents p =? 0);
  destruct (App.nDesiredEntries p =? 0);
  destruct (App.timeLimitSeconds p =? 0);
  destruct (App.IsNull (App.geometryFile p));
  destruct (App.IsNull (App.outputFile p));
  exec_steps;
  destruct ((App.GetRunTag (App.read_run env name) =? "Null")%string
            || App.IsNull (App.GetRunTag (App.read_run env name)));
  reflexivity.

Lemma Run_configure_progress (env : App.Environment) (p : App.CommandLineParameters) :
  App.CheckFileIsAccessible env (App.rmlFile p) = true ->
  filter App.is_progress (fst (App.Run_configure env p)) = [App.FormOutputFile].
Proof. intros E. configure_cases env p. Qed.

Lemma Run_configure_event_count (env : App.Environment) (p : App.CommandLineParameters) :
  App.CheckFileIsAccessible env (App.rmlFile p) = true ->
  filter App.is_event_count (fst (App.Run_configure env p))
  = [App.SetNumberOfEvents (App.requested_events p)].
Proof. intros E. configure_cases env p. Qed.

Lemma Run_configure_manager (env : App.Environment) (p : App.CommandLineParameters) :
  App.CheckFileIsAccessible env (App.rmlFile p) = true ->
  filter App.is_manager (fst (App.Run_configure env p)) = [].
Proof. intros E. configure_cases env p. Qed.

Lemma Run_configure_override (env : App.Environment) (p : App.CommandLineParameters) :
  App.CheckFileIsAccessible env (App.rmlFile p) = true ->
  filter App.is_override (fst (App.Run_configure env p))
  = App.when_ (negb (App.nDesiredEntries p =? 0))
      (App.SetNumberOfDesiredEntries (App.nDesiredEntries p))
    ++ App.when_ (negb (App.timeLimitSeconds p =? 0))
         (App.SetSimulationMaxTimeSeconds (App.timeLimitSeconds p))
    ++ [App.Gdml_Load (App.loaded_gdml env p)]
    ++ App.when_ (negb (App.IsNull (App.outputFile p)))
         (App.SetOutputFileName (App.outputFile p))
    ++ App.when_ ((App.GetRunTag (App.read_run env (App.inputRmlClean env p)) =? "Null")%string
                  || App.IsNull (App.GetRunTag (App.read_run env (App.inputRmlClean env p))))
         (App.SetRunTag (App.GetTitle (App.read_metadata env (App.inputRmlClean env p)))).
Proof. intros E. configure_cases env p. Qed.

(** *** The run manager *)

Lemma Run_create_manager_snd (env : App.Environment) (p : App.CommandLineParameters) :
  snd (App.Run_create_manager env p) = Returned tt.
Proof.
  unfold App.Run_create_manager.
  destruct (App.GEANT4_WITHOUT_G4RunManagerFactory (App.build env)); [reflexivity|].
  destruct (App.nThreads p =? 0); reflexivity.
Qed.

Lemma Run_create_manager_manager (env : App.Environment)
  (p : App.CommandLineParameters) :
  filter App.is_manager (fst (App.Run_create_manager env p))
  = if App.GEANT4_WITHOUT_G4RunManagerFactory (App.build env)
    then [App.new_G4RunManager]
    else App.CreateRunManager (App.nThreads p =? 0)
           :: (if App.nThreads p =? 0 then []
               else [App.EnableThreadSafety; App.SetNumberOfThreads (App.nThreads p)]).
Proof.
  unfold App.Run_create_manager.
  destruct (App.GEANT4_WITHOUT_G4RunManagerFactory (App.build env)); [reflexivity|].
  destruct (App.nThreads p =? 0); reflexivity.
Qed.

Lemma Run_create_manager_other (env : App.Environment)
  (p : App.CommandLineParameters) (f : App.AppEvent -> bool) :
  f = App.is_progress \/ f = App.is_event_count \/ f = App.is_override ->
  filter f (fst (App.Run_create_manager env p)) = [].
Proof.
  unfold App.Run_create_manager.
  intros [->|[->| ->]];
    (destruct (App.GEANT4_WITHOUT_G4RunManagerFactory (App.build env));
     [reflexivity|]; destruct (App.nThreads p =? 0); reflexivity).
Qed.

(** *** The initialisation *)

Lemma Run_initialize_snd (env : App.Environment) (r : TRestGeant4PhysicsLists) :
  snd (App.Run_initialize env r)
  = if (length (em_enabled r) <=? 1)%nat then Returned tt else Exited 1.
Proof.
  unfold App.Run_initialize.
  repeat (rewrite and_then_snd; cbn [snd App.call App.physics]).
  rewrite PhysicsList_ctor_run.
  destruct (em_enabled r) as [|a [|b l]]; cbn [snd length Nat.leb];
    try reflexivity;
    repeat (rewrite and_then_snd; cbn [snd App.call]);
    destruct (App.G4VIS_USE (App.build env)); reflexivity.
Qed.

Lemma Run_initialize_filter (env : App.Environment) (r : TRestGeant4PhysicsLists)
  (f : App.AppEvent -> bool) :
  f = App.is_progress \/ f = App.is_event_count \/ f = App.is_override
  \/ f = App.is_manager ->
  filter f (fst (App.Run_initialize env r))
  = if (length (em_enabled r) <=? 1)%nat
    then filter f [App.RunManager_Initialize] else [].
Proof.
  intros Hf.
  assert (Hphys : forall t, filter f (map App.PhysicsEvent t) = []).
  { intros t. apply filter_physics.
    destruct Hf as [->|[->|[->| ->]]]; reflexivity. }
  unfold App.Run_initialize.
  do 4 (rewrite and_then_fst; cbn [fst snd App.call App.physics]).
  rewrite !filter_app, Hphys, PhysicsList_ctor_run.
  destruct (em_enabled r) as [|a [|b l]]; cbn [snd length Nat.leb];
    try (destruct Hf as [->|[->|[->| ->]]]; reflexivity);
    destruct (App.G4VIS_USE (App.build env));
    destruct Hf as [->|[->|[->| ->]]]; reflexivity.
Qed.

(** *** The events *)

Lemma Run_simulate_snd (env : App.Environment) (m : App.TRestGeant4Metadata) :
  snd (App.Run_simulate env m)
  = if App.GetNumberOfEvents m <? 0 then Exited 1 else Returned tt.
Proof.
  unfold App.Run_simulate. cbv zeta.
  destruct (App.GetNumberOfEvents m <? 0); [reflexivity|].
  destruct (0 <? App.GetNumberOfEvents m); [reflexivity|].
  destruct (App.GetNumberOfEvents m =? 0); [|reflexivity].
  destruct (App.G4UI_USE (App.build env)); [|reflexivity].
  destruct (App.G4VIS_USE (App.build env)); reflexivity.
Qed.

Lemma Run_simulate_filter (env : App.Environment) (m : App.TRestGeant4Metadata)
  (f : App.AppEvent -> bool) :
  App.GetNumberOfEvents m <> 0 ->
  f = App.is_progress \/ f = App.is_event_count ->
  filter f (fst (App.Run_simulate env m))
  = if 0 <? App.GetNumberOfEvents m
    then App.batch_commands (App.GetNumberOfEvents m) else [].
Proof.
  intros Hne Hf. unfold App.Run_simulate. cbv zeta.
  destruct (Z.ltb_spec (App.GetNumberOfEvents m) 0) as [Hneg|Hpos].
  - destruct (Z.ltb_spec 0 (App.GetNumberOfEvents m)); [lia|].
    destruct Hf as [->| ->]; reflexivity.
  - destruct (Z.ltb_spec 0 (App.GetNumberOfEvents m)); [|lia].
    destruct Hf as [->| ->]; reflexivity.
Qed.

Lemma Run_simulate_other (env : App.Environment) (m : App.TRestGeant4Metadata)
  (f : App.AppEvent -> bool) :
  App.GetNumberOfEvents m <> 0 ->
  f = App.is_manager \/ f = App.is_override ->
  filter f (fst (App.Run_simulate env m)) = [].
Proof.
  intros Hne Hf. unfold App.Run_simulate. cbv zeta.
  destruct (Z.ltb_spec (App.GetNumberOfEvents m) 0) as [Hneg|Hpos].
  - destruct (Z.ltb_spec 0 (App.GetNumberOfEvents m)); [lia|].
    destruct Hf as [->| ->]; reflexivity.
  - destruct (Z.ltb_spec 0 (App.GetNumberOfEvents m)); [|lia].
    destruct Hf as [->| ->]; reflexivity.
Qed.

(** *** Job termination *)

Lemma Run_terminate_snd (env : App.Environment) (run : App.TRestRun) :
  snd (App.Run_terminate env run)
  = if App.geometry_created env then Returned tt else Exited 1.
Proof.
  unfold App.Run_terminate, App.WriteGeometry.
  destruct (App.G4VIS_USE (App.build env));
    destruct (App.geometry_created env); reflexivity.
Qed.

Lemma Run_terminate_progress (env : App.Environment) (run : App.TRestRun) :
  filter App.is_progress (fst (App.Run_terminate env run))
  = [App.UpdateOutputFile; App.CloseFile;
     App.TFile_Open (App.GetOutputFileName run) (App.WriteGeometry_option env)]
    ++ (if App.geometry_created env
        then [App.Geometry_Write "Geometry"; App.TFile_Close] else []).
Proof.
  unfold App.Run_terminate, App.WriteGeometry.
  destruct (App.G4VIS_USE (App.build env));
    destruct (App.geometry_created env); reflexivity.
Qed.

Lemma Run_terminate_override (env : App.Environment) (run : App.TRestRun) :
  filter App.is_override (fst (App.Run_terminate env run))
  = [App.TFile_Open (App.GetOutputFileName run) (App.WriteGeometry_option env)].
Proof.
  unfold App.Run_terminate, App.WriteGeometry.
  destruct (App.G4VIS_USE (App.build env));
    destruct (App.geometry_created env); reflexivity.
Qed.

Lemma Run_terminate_other (env : App.Environment) (run : App.TRestRun)
  (f : App.AppEvent -> bool) :
  f = App.is_manager \/ f = App.is_event_count ->
  filter f (fst (App.Run_terminate env run)) = [].
Proof.
  unfold App.Run_terminate, App.WriteGeometry.
  intros [->| ->];
    destruct (App.G4VIS_USE (App.build env));
    destruct (App.geometry_created env); reflexivity.
Qed.

(** *** The whole of [Run] *)

Lemma requested_events_nonzero (p : App.CommandLineParameters) :
  App.requested_events p <> 0.
Proof.
  unfold App.requested_events.
  destruct (Z.eqb_spec (App.nEvents p) 0) as [E|E]; [discriminate|exact E].
Qed.

Lemma requested_events_negative (p : App.CommandLineParameters) :
  (App.requested_events p <? 0) = (App.nEvents p <? 0).
Proof.
  unfold App.requested_events.
  destruct (Z.eqb_spec (App.nEvents p) 0) as [E|E]; [rewrite E|]; reflexivity.
Qed.

Lemma requested_events_positive (p : App.CommandLineParameters) :
  (0 <? App.requested_events p) = negb (App.nEvents p <? 0).
Proof.
  pose proof (requested_events_nonzero p) as Hne.
  rewrite <- requested_events_negative.
  destruct (Z.ltb_spec 0 (App.requested_events p));
    destruct (Z.ltb_spec (App.requested_events p) 0); simpl; try reflexivity; lia.
Qed.

Lemma Run_snd (env : App.Environment) (p : App.CommandLineParameters) :
  snd (App.Run env p)
  = if App.CheckFileIsAccessible env (App.rmlFile p) then
      if App.physics_accepted env p then
        if App.nEvents p <? 0 then Exited 1
        else if App.geometry_created env then Returned tt else Exited 1
      else Exited 1
    else Exited 1.
Proof.
  unfold App.Run, App.physics_accepted.
  rewrite and_then_snd, Run_configure_snd.
  destruct (App.CheckFileIsAccessible env (App.rmlFile p)); [|reflexivity].
  cbv iota beta.
  rewrite and_then_snd, Run_create_manager_snd.
  rewrite and_then_snd, Run_initialize_snd.
  destruct (length (em_enabled (App.configured_physics env p)) <=? 1)%nat;
    [|reflexivity].
  rewrite and_then_snd, Run_simulate_snd.
  change (App.GetNumberOfEvents (App.configured_metadata env p))
    with (App.requested_events p).
  rewrite requested_events_negative.
  destruct (App.nEvents p <? 0); [reflexivity|].
  apply Run_terminate_snd.
Qed.

Lemma Run_filter (env : App.Environment) (p : App.CommandLineParameters)
  (f : App.AppEvent -> bool) :
  App.CheckFileIsAccessible env (App.rmlFile p) = true ->
  filter f (fst (App.Run env p))
  = filter f (fst (App.Run_configure env p))
    ++ filter f (fst (App.Run_create_manager env p))
    ++ filter f (fst (App.Run_initialize env (App.configured_physics env p)))
    ++ (if App.physics_accepted env p then
          filter f (fst (App.Run_simulate env (App.configured_metadata env p)))
          ++ (if App.nEvents p <? 0 then []
              else filter f (fst (App.Run_terminate env (App.configured_run env p))))
        else []).
Proof.
  intros E. unfold App.Run, App.physics_accepted.
  rewrite and_then_fst, Run_configure_snd, E. cbv iota beta.
  rewrite and_then_fst, Run_create_manager_snd.
  rewrite and_then_fst, Run_initialize_snd.
  rewrite !filter_app. f_equal. f_equal. f_equal.
  destruct (length (em_enabled (App.configured_physics env p)) <=? 1)%nat;
    [|reflexivity].
  rewrite and_then_fst, Run_simulate_snd, filter_app.
  change (App.GetNumberOfEvents (App.configured_metadata env p))
    with (App.requested_events p).
  rewrite requested_events_negative.
  destruct (App.nEvents p <? 0); reflexivity.
Qed.

(** X11.  [Run] ends the process in four cases, each time with exit
    status 1: the configuration file is not accessible; two or more
    electromagnetic lists are enabled; the number of events of the
    command line is negative; the geometry could not be created.  In
    every other case it returns. *)
Theorem Run_outcome (env : App.Environment) (p : App.CommandLineParameters) :
  snd (App.Run env p)
  = if negb (App.CheckFileIsAccessible env (App.rmlFile p))
       || (2 <=? length (em_enabled (App.configured_physics env p)))%nat
       || (App.nEvents p <? 0)
       || negb (App.geometry_created env)
    then Exited 1 else Returned tt.
Proof.
  rewrite Run_snd. unfold App.physics_accepted.
  destruct (App.CheckFileIsAccessible env (App.rmlFile p)); [|reflexivity].
  destruct (em_enabled (App.configured_physics env p)) as [|a [|b l]];
    cbn [length Nat.leb negb orb];
    destruct (App.nEvents p <? 0); destruct (App.geometry_created env); reflexivity.
Qed.

(** X12.  When the configuration file is not accessible, [Run] installs
    the signal handler, prints the working directory, the parameters
    and the error line naming the file, and exits with status 1: no
    metadata is read, no output file is formed, no run manager is
    created. *)
Theorem Run_missing_file (env : App.Environment) (p : App.CommandLineParameters) :
  App.CheckFileIsAccessible env (App.rmlFile p) = false ->
  App.Run env p
  = ([App.signal_SIGINT;
      App.Cout (String.append "Current working directory: "
                  (App.quoted (App.current_path env)));
      App.CommandLineSetup_Print p;
      App.Cout (String.concat EmptyString
                  ["ERROR: Input rml file ";
                   App.quoted (App.weakly_canonical env (App.rmlFile p));
                   " not found, please check file name."])],
     Exited 1).
Proof.
  intros E. unfold App.Run. rewrite (Run_configure_missing env p E). reflexivity.
Qed.

Lemma Run_missing_file_witness :
  snd (App.Run (App.example_environment example_config 10)
         App.missing_file_parameters) = Exited 1.
Proof.
  rewrite (Run_missing_file (App.example_environment example_config 10)
             App.missing_file_parameters eq_refl).
  reflexivity.
Defined.

(** X13.  On an accessible configuration file [Run] sets the number of
    events once, to the value of the command line, or to 2147483647
    when that value is 0; the number written in the configuration file
    is never used.  The number set is never 0, so the interactive
    session is never started, whatever the build: the only commands
    [Run] sends are the three of batch mode, with that number, and only
    when the physics list is accepted and the number is not negative. *)
Theorem Run_number_of_events (env : App.Environment) (p : App.CommandLineParameters) :
  App.CheckFileIsAccessible env (App.rmlFile p) = true ->
  App.requested_events p <> 0
  /\ filter App.is_event_count (fst (App.Run env p))
     = App.SetNumberOfEvents (App.requested_events p)
       :: (if App.physics_accepted env p && negb (App.nEvents p <? 0)
           then App.batch_commands (App.requested_events p) else []).
Proof.
  intros E. split; [apply requested_events_nonzero|].
  rewrite (Run_filter env p _ E), (Run_configure_event_count env p E).
  rewrite Run_create_manager_other by auto.
  rewrite Run_initialize_filter by auto.
  fold (App.physics_accepted env p).
  rewrite (Run_simulate_filter env (App.configured_metadata env p) _
             (requested_events_nonzero p) (or_intror eq_refl)).
  rewrite Run_terminate_other by auto.
  change (App.GetNumberOfEvents (App.configured_metadata env p))
    with (App.requested_events p).
  rewrite requested_events_positive.
  destruct (App.physics_accepted env p); destruct (App.nEvents p <? 0);
    cbn [app negb andb filter App.is_event_count]; rewrite ?app_nil_r; reflexivity.
Qed.

Lemma Run_number_of_events_witness :
  filter App.is_event_count
    (fst (App.Run (App.example_environment example_config 10)
            (App.example_parameters 0 0)))
  = [App.SetNumberOfEvents 2147483647;
     App.UI_ApplyCommand "/tracking/verbose 0";
     App.UI_ApplyCommand "/run/initialize";
     App.UI_ApplyCommand "/run/beamOn 2147483647"].
Proof.
  rewrite (proj2 (Run_number_of_events (App.example_environment example_config 10)
                    (App.example_parameters 0 0) eq_refl)).
  reflexivity.
Defined.

(** X14.  How far a run gets, on an accessible configuration file.  The
    output file is always formed.  The run manager is initialised only
    when the physics list is accepted (at most one electromagnetic
    list).  The batch commands are sent, and the output file updated
    and closed, only when moreover the number of events is not
    negative.  The geometry file is then opened under the name of the
    output file; the geometry is written and that file closed only when
    the geometry was created.  So a run stopped by the physics list or
    by the number of events leaves an output file formed but never
    closed, and a run stopped by the geometry has its events saved. *)
Theorem Run_progress (env : App.Environment) (p : App.CommandLineParameters) :
  App.CheckFileIsAccessible env (App.rmlFile p) = true ->
  filter App.is_progress (fst (App.Run env p))
  = App.FormOutputFile
    :: (if App.physics_accepted env p then
          App.RunManager_Initialize
          :: (if App.nEvents p <? 0 then []
              else App.batch_commands (App.requested_events p)
                   ++ [App.UpdateOutputFile; App.CloseFile;
                       App.TFile_Open (App.GetOutputFileName (App.configured_run env p))
                                      (App.WriteGeometry_option env)]
                   ++ (if App.geometry_created env
                       then [App.Geometry_Write "Geometry"; App.TFile_Close]
                       else []))
        else []).
Proof.
  intros E.
  rewrite (Run_filter env p _ E), (Run_configure_progress env p E).
  rewrite Run_create_manager_other by auto.
  rewrite Run_initialize_filter by auto.
  fold (App.physics_accepted env p).
  rewrite (Run_simulate_filter env (App.configured_metadata env p) _
             (requested_events_nonzero p) (or_introl eq_refl)).
  rewrite Run_terminate_progress.
  change (App.GetNumberOfEvents (App.configured_metadata env p))
    with (App.requested_events p).
  rewrite requested_events_positive.
  destruct (App.physics_accepted env p); destruct (App.nEvents p <? 0);
    cbn [app negb filter App.is_progress]; rewrite ?app_nil_r; reflexivity.
Qed.

Lemma Run_progress_witness :
  filter App.is_progress
    (fst (App.Run (App.example_environment two_em_config 10)
            (App.example_parameters 10 0)))
  = [App.FormOutputFile].
Proof.
  rewrite (Run_progress (App.example_environment two_em_config 10)
             (App.example_parameters 10 0) eq_refl).
  reflexivity.
Defined.

(** X15.  On an accessible configuration file the run manager is made
    once.  With the run-manager factory, it is serial exactly when the
    number of threads of the command line is 0, and otherwise
    multi-threaded: thread safety is then enabled and the number of
    threads set to that of the command line.  Without the factory it is
    a plain run manager and the number of threads is ignored. *)
Theorem Run_threads (env : App.Environment) (p : App.CommandLineParameters) :
  App.CheckFileIsAccessible env (App.rmlFile p) = true ->
  filter App.is_manager (fst (App.Run env p))
  = if App.GEANT4_WITHOUT_G4RunManagerFactory (App.build env)
    then [App.new_G4RunManager]
    else App.CreateRunManager (App.nThreads p =? 0)
           :: (if App.nThreads p =? 0 then []
               else [App.EnableThreadSafety; App.SetNumberOfThreads (App.nThreads p)]).
Proof.
  intros E.
  rewrite (Run_filter env p _ E), (Run_configure_manager env p E).
  rewrite Run_create_manager_manager.
  rewrite Run_initialize_filter by auto 6.
  rewrite (Run_simulate_other env (App.configured_metadata env p) _
             (requested_events_nonzero p) (or_introl eq_refl)).
  rewrite Run_terminate_other by auto.
  destruct (length (em_enabled (App.configured_physics env p)) <=? 1)%nat;
    destruct (App.physics_accepted env p); destruct (App.nEvents p <? 0);
    cbn [app filter App.is_manager]; rewrite ?app_nil_r; reflexivity.
Qed.

Lemma Run_threads_witness :
  filter App.is_manager
    (fst (App.Run (App.example_environment example_config 10)
            (App.example_parameters 10 4)))
  = [App.CreateRunManager false; App.EnableThreadSafety; App.SetNumberOfThreads 4].
Proof.
  rewrite (Run_threads (App.example_environment example_config 10)
             (App.example_parameters 10 4) eq_refl).
  reflexivity.
Defined.

(** X16.  The command line overrides the configuration file value by
    value.  The number of desired entries and the time limit are set
    only when the command line gives a value that is not 0.  The GDML
    file parsed is the geometry file of the command line when there is
    one, the one of the configuration file otherwise.  The output file
    name is set only when the command line gives one, and the name under
    which the geometry is written at the end is the formed name of that
    choice.  The run tag is replaced by the title of the metadata
    exactly when it reads "Null" or is empty. *)
Theorem Run_overrides (env : App.Environment) (p : App.CommandLineParameters) :
  let name := App.inputRmlClean env p in
  let tag := App.GetRunTag (App.read_run env name) in
  App.CheckFileIsAccessible env (App.rmlFile p) = true ->
  filter App.is_override (fst (App.Run env p))
  = App.when_ (negb (App.nDesiredEntries p =? 0))
      (App.SetNumberOfDesiredEntries (App.nDesiredEntries p))
    ++ App.when_ (negb (App.timeLimitSeconds p =? 0))
         (App.SetSimulationMaxTimeSeconds (App.timeLimitSeconds p))
    ++ [App.Gdml_Load
          (if App.IsNull (App.geometryFile p)
           then App.GetGdmlFilename (App.read_metadata env name)
           else App.geometryFile p)]
    ++ App.when_ (negb (App.IsNull (App.outputFile p)))
         (App.SetOutputFileName (App.outputFile p))
    ++ App.when_ ((tag =? "Null")%string || App.IsNull tag)
         (App.SetRunTag (App.GetTitle (App.read_metadata env name)))
    ++ App.when_ (App.physics_accepted env p && negb (App.nEvents p <? 0))
         (App.TFile_Open
            (App.formed_name env
               (if App.IsNull (App.outputFile p)
                then App.GetOutputFileName (App.read_run env name)
                else App.outputFile p))
            (App.WriteGeometry_option env)).
Proof.
  cbv zeta. intros E.
  rewrite (Run_filter env p _ E), (Run_configure_override env p E).
  rewrite Run_create_manager_other by auto.
  rewrite Run_initialize_filter by auto 6.
  fold (App.physics_accepted env p).
  rewrite (Run_simulate_other env (App.configured_metadata env p) _
             (requested_events_nonzero p) (or_intror eq_refl)).
  rewrite Run_terminate_override.
  unfold App.loaded_gdml, App.configured_run, App.when_ at 5.
  cbn [App.GetOutputFileName].
  rewrite <- !app_assoc.
  destruct (App.physics_accepted env p); destruct (App.nEvents p <? 0);
    cbn [app negb andb filter App.is_override]; reflexivity.
Qed.

Lemma Run_overrides_witness :
  filter App.is_override
    (fst (App.Run (App.example_environment example_config 10)
            (App.example_parameters 10 0)))
  = [App.Gdml_Load "geometry/setup.gdml";
     App.SetRunTag "restG4 Simulation run";
     App.TFile_Open "out.root" "UPDATE"].
Proof.
  pose proof (Run_overrides (App.example_environment example_config 10)
                (App.example_parameters 10 0)) as H.
  cbv zeta in H. rewrite (H eq_refl). reflexivity.
Defined.
